(** * TradeSignal: pivot detection, exit projection and portfolio backtester

    A shallow embedding of the signal-detection and backtesting engine
    ([utils/algoCore/*.js], the assembler of the backtest route, and the
    signal generator and portfolio loop of [scripts/portfolioBacktest.js])
    together with the properties its specification states about it and
    further properties of the code.

    Number model.  Where the code decides by comparing prices (which bar
    triggers, which exit is hit, how many positions are open), JavaScript
    numbers are embedded as exact rationals [Q]: rounding, [NaN] and the
    infinities of IEEE doubles are not represented there.  Where a property
    depends on how a result is rounded -- the projected exit
    ([ExitPriceCalculator]) and the capital of [runBacktest]
    ([BacktesterOver]) -- the code is embedded with its arithmetic left
    open ([Number.Arith]); [Number.binary64] runs it on IEEE doubles and
    [Number.real] on exact reals.  A value that may be [undefined]/[null]
    is an [option]; the truthiness test [!x] that the code applies to such
    values is [truthy].  Dates are embedded as their [getTime()] timestamp,
    an integer. *)

From Stdlib Require Import QArith Qround Qabs.
From Stdlib Require Import Reals Lra.
From Stdlib Require Import Floats.
From stdpp Require Import gmap strings list fin_maps sorting.

Local Open Scope Z_scope.
Local Open Scope Q_scope.

(** ** JavaScript values *)

Definition Qltb (a b : Q) : bool := negb (Qle_bool b a).

(** [!!x] for a possibly absent number: absent and [0] are falsy. *)
Definition truthy (x : option Q) : bool :=
  match x with
  | Some q => negb (Qeq_bool q 0)
  | None => false
  end.

(** [a || b] on possibly absent numbers. *)
Definition orElse (a b : option Q) : option Q :=
  if truthy a then a else b.

(** The number held by a truthy value. *)
Definition number (x : option Q) : Q := default 0 x.

(** ** Arithmetic

    The operations that the code applies to numbers.  The program runs
    them on IEEE binary64 doubles, rounding to nearest ([binary64]); [real]
    runs them on exact reals.  A definition that takes an [Arith] is the
    code with its arithmetic left open: what holds of it for every [Arith]
    holds of the program as it rounds. *)

Module Number.

Record Arith := mkArith {
  num : Type;
  (** an integer, as a number *)
  ofNat : nat -> num;
  add : num -> num -> num;
  sub : num -> num -> num;
  mul : num -> num -> num;
  div : num -> num -> num;
  (** [Math.abs], [Math.sqrt], [Math.floor] *)
  abs : num -> num;
  sqrt : num -> num;
  floor : num -> num;
  (** [x <= y], [x < y] *)
  leb : num -> num -> bool;
  ltb : num -> num -> bool;
  (** [!x]: [0] and [NaN] are falsy *)
  falsy : num -> bool;
  (** neither an infinity nor [NaN] *)
  finite : num -> bool
}.

Arguments ofNat {A} _ : rename.
Arguments add {A} _ _ : rename.
Arguments sub {A} _ _ : rename.
Arguments mul {A} _ _ : rename.
Arguments div {A} _ _ : rename.
Arguments abs {A} _ : rename.
Arguments sqrt {A} _ : rename.
Arguments floor {A} _ : rename.
Arguments leb {A} _ _ : rename.
Arguments ltb {A} _ _ : rename.
Arguments falsy {A} _ : rename.
Arguments finite {A} _ : rename.

(** Exact reals. *)
Definition Rleb (a b : R) : bool := if Rle_dec a b then true else false.
Definition Rltb (a b : R) : bool := if Rlt_dec a b then true else false.
Definition Reqb (a b : R) : bool := if Req_dec_T a b then true else false.

Definition real : Arith :=
  mkArith R INR Rplus Rminus Rmult Rdiv Rabs R_sqrt.sqrt (fun x => IZR (Int_part x))
    Rleb Rltb (fun x => Reqb x 0%R) (fun _ => true).

(** IEEE binary64.  [Math.floor] of a finite double that is not an integer
    lies below [2^53] in magnitude and is read off its mantissa and
    exponent. *)
Definition ofZ64 (z : Z) : float :=
  if (z <? 0)%Z then PrimFloat.opp (PrimFloat.of_uint63 (Uint63.of_Z (- z)))
  else PrimFloat.of_uint63 (Uint63.of_Z z).

Definition floor64 (x : float) : float :=
  match Prim2SF x with
  | S754_finite negative m e =>
      if (0 <=? e)%Z then x
      else
        let q := (Z.pos m / 2 ^ (- e))%Z in
        let exact := (Z.pos m mod 2 ^ (- e) =? 0)%Z in
        if negative then (if exact then ofZ64 (- q) else ofZ64 (- (q + 1)))
        else ofZ64 q
  | _ => x
  end.

Definition binary64 : Arith :=
  mkArith float (fun n => ofZ64 (Z.of_nat n))
    PrimFloat.add PrimFloat.sub PrimFloat.mul PrimFloat.div
    PrimFloat.abs PrimFloat.sqrt floor64 PrimFloat.leb PrimFloat.ltb
    (fun x => PrimFloat.eqb x 0%float || PrimFloat.is_nan x) PrimFloat.is_finite.



(** An arithmetic that does not round: the laws of exact addition and
    subtraction, which [real] obeys and [binary64] does not. *)
Record Exact (A : Arith) : Prop := mkExact {
  add_comm : forall x y : num A, add x y = add y x;
  add_assoc : forall x y z : num A, add (add x y) z = add x (add y z);
  add_zero : forall x : num A, add (ofNat 0) x = x;
  sub_add : forall x y : num A, sub (add x y) x = y
}.

(** The rational that a finite double stands for. *)
Definition exact64 (x : float) : option Q :=
  match Prim2SF x with
  | S754_zero _ => Some 0
  | S754_finite negative m e =>
      let z := if negative then Z.neg m else Z.pos m in
      Some (if (0 <=? e)%Z then inject_Z (z * 2 ^ e) else Qmake z (Z.to_pos (2 ^ (- e))))
  | _ => None
  end.

End Number.

(** ** Data model *)

Record Bar := mkBar {
  date : Z;
  open : Q;
  high : Q;
  low : Q;
  close : Q
}.

(** A pivot object: [{date, high}] for a high pivot, [{date, low}] for a low
    pivot; the field that the object does not carry reads [undefined]. *)
Record Pivot := mkPivot {
  pivotDate : Z;
  pivotHighPrice : option Q;
  pivotLowPrice : option Q
}.

Definition highPivot (d : Z) (h : Q) : Pivot := mkPivot d (Some h) None.
Definition lowPivot (d : Z) (l : Q) : Pivot := mkPivot d None (Some l).

(** A signal as [findFutureSignals] builds it and the assembler extends it
    ([projectedExit], [exitPivot]). *)
Record TradeSignal := mkTradeSignal {
  triggerDate : Z;
  entryDate : option Z;
  entryPrice : Q;
  projectedExit : option Q;
  exitPivot : option Pivot
}.

(** One record of the candidate list handed to [runBacktest]. *)
Record SignalData := mkSignalData {
  startPointName : string;
  startDateUTC : string;
  lookbackPeriod : nat;
  lookbackEndDate : Z;
  pivotHigh : option Pivot;
  pivotLow : option Pivot;
  longSignal : option TradeSignal;
  shortSignal : option TradeSignal
}.

(** A record after [groupSignalsByEntryBar] chose its signal. *)
Record PotentialTrade := mkPotentialTrade {
  signalData : SignalData;
  tradeSignal : TradeSignal;
  isLong : bool
}.

(** [Array.prototype.findIndex]; [None] stands for [-1]. *)
Fixpoint findIndex {A : Type} (p : A -> bool) (l : list A) : option nat :=
  match l with
  | [] => None
  | x :: rest => if p x then Some O else S <$> findIndex p rest
  end.

(** * utils/algoCore/backtester.js *)

Module Backtester.

Inductive Outcome := Win | Loss.

(** [isLong ? pivotLow?.low : pivotHigh?.high] *)
Definition stopLossOf (isLong : bool) (pivotHigh pivotLow : option Pivot) : option Q :=
  if isLong then pivotLow ≫= pivotLowPrice else pivotHigh ≫= pivotHighPrice.

(** The [for (const bar of tradeWindow)] loop of [getGhostTradeOutcome]:
    the exit price of the first bar that touches the stop or the target. *)
Fixpoint ghostScan (isLong : bool) (stopLoss projectedExit : Q) (tradeWindow : list Bar)
  : option Q :=
  match tradeWindow with
  | [] => None
  | bar :: rest =>
      if isLong then
        if Qle_bool (low bar) stopLoss then Some stopLoss
        else if Qle_bool projectedExit (high bar) then Some projectedExit
        else ghostScan isLong stopLoss projectedExit rest
      else
        if Qle_bool stopLoss (high bar) then Some stopLoss
        else if Qle_bool (low bar) projectedExit then Some projectedExit
        else ghostScan isLong stopLoss projectedExit rest
  end.

(** [getGhostTradeOutcome]; [None] is the [null] result.  A trade without
    [entryDate] never reaches this function (see [allPotentialTrades]). *)
Definition getGhostTradeOutcome (t : PotentialTrade) (historicalData : list Bar)
  : option Outcome :=
  let stopLoss := stopLossOf (isLong t) (pivotHigh (signalData t)) (pivotLow (signalData t)) in
  let projectedExit := projectedExit (tradeSignal t) in
  if negb (truthy stopLoss) || negb (truthy projectedExit) then None else
  match stopLoss, projectedExit, entryDate (tradeSignal t) with
  | Some sl, Some pe, Some ed =>
      match findIndex (fun d => Z.eqb (date d) ed) historicalData with
      | None => None
      | Some startIndex =>
          match ghostScan (isLong t) sl pe (drop startIndex historicalData) with
          | None => None
          | Some exitPrice =>
              let profit :=
                if isLong t then exitPrice - entryPrice (tradeSignal t)
                else entryPrice (tradeSignal t) - exitPrice in
              if Qltb 0 profit then Some Win else Some Loss
          end
      end
  | _, _, _ => None
  end.

(** The [.map(...)] callback of [groupSignalsByEntryBar]. *)
Definition chooseSignal (sd : SignalData) : option PotentialTrade :=
  match longSignal sd with
  | Some l => Some (mkPotentialTrade sd l true)
  | None =>
      match shortSignal sd with
      | Some s => Some (mkPotentialTrade sd s false)
      | None => None
      end
  end.

(** The [.filter(...)] callback, on the non-null results of the map. *)
Definition hasEntryDate (t : PotentialTrade) : bool :=
  match entryDate (tradeSignal t) with Some _ => true | None => false end.

Definition entryTime (t : PotentialTrade) : Z := default 0%Z (entryDate (tradeSignal t)).

(** [Array.prototype.sort] with the comparator [a.key - b.key]: a stable
    sort, here by insertion. *)
Fixpoint insertByKey {A : Type} (key : A -> Z) (x : A) (l : list A) : list A :=
  match l with
  | [] => [x]
  | y :: rest => if (key x <=? key y)%Z then x :: y :: rest else y :: insertByKey key x rest
  end.

Definition sortByKey {A : Type} (key : A -> Z) (l : list A) : list A :=
  foldr (fun x acc => insertByKey key x acc) [] l.

Definition allPotentialTrades (signals : list SignalData) : list PotentialTrade :=
  sortByKey entryTime (filter (fun t => hasEntryDate t = true) (omap chooseSignal signals)).

(** The grouping loop: [signalsByTimestamp[ts].push(trade)]. *)
Definition pushTrade (m : gmap Z (list PotentialTrade)) (t : PotentialTrade)
  : gmap Z (list PotentialTrade) :=
  <[entryTime t := default [] (m !! entryTime t) ++ [t]]> m.

Definition groupSignalsByEntryBar (signals : list SignalData) : gmap Z (list PotentialTrade) :=
  foldl pushTrade ∅ (allPotentialTrades signals).

(** *** runBacktest *)

(** [position.originalSignal] *)
Record OriginalSignal := mkOriginalSignal {
  type_ : string;
  origEntryDate : option Z;
  origEntryPrice : Q;
  ingressDate : string;
  origLookbackEndDate : Z;
  origLookbackPeriod : nat;
  entryPivotHigh : option Pivot;
  entryPivotLow : option Pivot;
  origExitPivot : option Pivot;
  origProjectedExit : Q
}.

Record Position := mkPosition {
  posEntryDate : option Z;
  posEntryPrice : Q;
  posIsLong : bool;
  stopLoss : Q;
  takeProfit : Q;
  capitalAllocated : Q;
  posStartPointName : string;
  originalSignal : OriginalSignal
}.

(** [{ exitPrice, exitReason }] *)
Record TradeResult := mkTradeResult {
  exitPrice : Q;
  exitReason : string
}.

(** An entry of [tradeLog]:
    [{...originalSignal, ...tradeResult, exitDate, profit, profitPct}]. *)
Record TradeRecord := mkTradeRecord {
  origin : OriginalSignal;
  result : TradeResult;
  exitDate : Z;
  profit : Q;
  profitPct : Q
}.

(** The mutable locals of [runBacktest]. *)
Record State := mkState {
  currentCapital : Q;
  consecutiveLosses : nat;
  isObserving : bool;
  openPositions : list Position;
  tradeLog : list TradeRecord
}.

Record Config := mkConfig {
  initialCapital : Q;
  preventOnLosses : bool;
  liquidateGroupOnLoss : bool;
  allowSingleTradePerBar : bool;
  positionSize : Q
}.

(** [Math.floor(1 / POSITION_SIZE)]; [None] is [Infinity] (a zero size). *)
Definition MAX_OPEN_POSITIONS (cfg : Config) : option Z :=
  if Qeq_bool (positionSize cfg) 0 then None
  else Some (Qfloor (1 / positionSize cfg)).

(** [openPositions.length >= MAX_OPEN_POSITIONS] *)
Definition atCap (cfg : Config) (st : State) : bool :=
  match MAX_OPEN_POSITIONS cfg with
  | None => false
  | Some m => (m <=? Z.of_nat (length (openPositions st)))%Z
  end.

(** The first loop over [openPositions]: which start points are liquidated
    on this bar, and at which price. *)
Definition markLiquidation (bar : Bar) (originsToLiquidate : gmap string Q) (position : Position)
  : gmap string Q :=
  match originsToLiquidate !! posStartPointName position with
  | Some _ => originsToLiquidate
  | None =>
      if posIsLong position && Qle_bool (low bar) (stopLoss position) then
        <[posStartPointName position := stopLoss position]> originsToLiquidate
      else if negb (posIsLong position) && Qle_bool (stopLoss position) (high bar) then
        <[posStartPointName position := stopLoss position]> originsToLiquidate
      else originsToLiquidate
  end.

Definition originsToLiquidate (cfg : Config) (bar : Bar) (st : State) : gmap string Q :=
  if liquidateGroupOnLoss cfg then foldl (markLiquidation bar) ∅ (openPositions st)
  else ∅.

(** The [else] branch of the exit decision: the position's own stop, then
    its own target. *)
Definition ownExit (bar : Bar) (position : Position) : option TradeResult :=
  if posIsLong position then
    if Qle_bool (low bar) (stopLoss position) then
      Some (mkTradeResult (stopLoss position) "Stop Loss Hit")
    else if Qle_bool (takeProfit position) (high bar) then
      Some (mkTradeResult (takeProfit position) "Take Profit Hit")
    else None
  else
    if Qle_bool (stopLoss position) (high bar) then
      Some (mkTradeResult (stopLoss position) "Stop Loss Hit")
    else if Qle_bool (low bar) (takeProfit position) then
      Some (mkTradeResult (takeProfit position) "Take Profit Hit")
    else None.

(** The exit decision for one open position on one bar: [tradeResult]. *)
Definition exitDecision (bar : Bar) (origins : gmap string Q) (position : Position)
  : option TradeResult :=
  match origins !! posStartPointName position with
  | Some liquidationPrice =>
      if truthy (Some liquidationPrice)
      then Some (mkTradeResult liquidationPrice "Group Liquidation")
      else ownExit bar position
  | None => ownExit bar position
  end.

(** [(exitPrice - entryPrice) * shares], inverted for a short. *)
Definition profitOf (position : Position) (exit : Q) : Q :=
  let shares := capitalAllocated position / posEntryPrice position in
  if posIsLong position then (exit - posEntryPrice position) * shares
  else (posEntryPrice position - exit) * shares.

(** The loss-streak update that follows every realized exit. *)
Definition lossStreak (cfg : Config) (p : Q) (st : State) : nat * bool :=
  let losses := if Qltb p 0 then S (consecutiveLosses st) else O in
  (losses, if preventOnLosses cfg && (2 <=? losses)%nat then true else isObserving st).

(** Realizing an exit: the body of [if (tradeResult)] in the exit loop and
    of [if (sameDayResult)] in the entry loop, which are the same statements
    ([capitalForThisTrade] and [tradeSignal.entryPrice] being the new
    position's [capitalAllocated] and [entryPrice]).  The open positions are
    left to the caller. *)
Definition realizeExit (cfg : Config) (bar : Bar) (position : Position) (r : TradeResult)
  (st : State) : State :=
  let p := profitOf position (exitPrice r) in
  let profitPct := p / capitalAllocated position * 100 in
  let '(losses, observing) := lossStreak cfg p st in
  mkState (currentCapital st + p) losses observing (openPositions st)
    (tradeLog st ++ [mkTradeRecord (originalSignal position) r (date bar) p profitPct]).

(** The second loop over [openPositions]; the state's [openPositions] field
    accumulates [remainingPositions]. *)
Definition exitStep (cfg : Config) (bar : Bar) (origins : gmap string Q)
  (st : State) (position : Position) : State :=
  match exitDecision bar origins position with
  | Some r => realizeExit cfg bar position r st
  | None =>
      mkState (currentCapital st) (consecutiveLosses st) (isObserving st)
        (openPositions st ++ [position]) (tradeLog st)
  end.

Definition processExits (cfg : Config) (bar : Bar) (st : State) : State :=
  foldl (exitStep cfg bar (originsToLiquidate cfg bar st))
    (mkState (currentCapital st) (consecutiveLosses st) (isObserving st) [] (tradeLog st))
    (openPositions st).

(** The same-bar check of a new position. *)
Definition sameDayResult (bar : Bar) (isLong : bool) (stopLoss projectedExit : Q)
  : option TradeResult :=
  if isLong then
    if Qle_bool (low bar) stopLoss then
      Some (mkTradeResult stopLoss "Stop Loss Hit (Same Day)")
    else if Qle_bool projectedExit (high bar) then
      Some (mkTradeResult projectedExit "Take Profit Hit (Same Day)")
    else None
  else
    if Qle_bool stopLoss (high bar) then
      Some (mkTradeResult stopLoss "Stop Loss Hit (Same Day)")
    else if Qle_bool (low bar) projectedExit then
      Some (mkTradeResult projectedExit "Take Profit Hit (Same Day)")
    else None.

(** The [originalSignal] literal of a new position. *)
Definition originalSignalOf (t : PotentialTrade) (projectedExit : Q) : OriginalSignal :=
  let sd := signalData t in
  let ts := tradeSignal t in
  mkOriginalSignal (if isLong t then "Long" else "Short")
    (entryDate ts) (entryPrice ts) (startDateUTC sd) (lookbackEndDate sd)
    (lookbackPeriod sd) (pivotHigh sd) (pivotLow sd) (exitPivot ts) projectedExit.

Definition newPosition (cfg : Config) (st : State) (t : PotentialTrade)
  (stopLoss projectedExit : Q) : Position :=
  mkPosition (entryDate (tradeSignal t)) (entryPrice (tradeSignal t)) (isLong t)
    stopLoss projectedExit (currentCapital st * positionSize cfg)
    (startPointName (signalData t)) (originalSignalOf t projectedExit).

(** A candidate that is neither stopped by the cap nor replayed as a ghost:
    the rest of the body of the entry loop. *)
Definition enterPosition (cfg : Config) (bar : Bar) (t : PotentialTrade) (st : State) : State :=
  let stopLoss := stopLossOf (isLong t) (pivotHigh (signalData t)) (pivotLow (signalData t)) in
  let projectedExit := projectedExit (tradeSignal t) in
  if negb (truthy stopLoss) || negb (truthy projectedExit) then st else
  match stopLoss, projectedExit with
  | Some sl, Some pe =>
      let position := newPosition cfg st t sl pe in
      match sameDayResult bar (isLong t) sl pe with
      | Some r => realizeExit cfg bar position r st
      | None =>
          mkState (currentCapital st) (consecutiveLosses st) (isObserving st)
            (openPositions st ++ [position]) (tradeLog st)
      end
  | _, _ => st
  end.

(** The ghost branch: [isObserving] is cleared by a winning replay. *)
Definition observe (historicalData : list Bar) (t : PotentialTrade) (st : State) : State :=
  match getGhostTradeOutcome t historicalData with
  | Some Win => mkState (currentCapital st) O false (openPositions st) (tradeLog st)
  | _ => st
  end.

(** [for (const signalData of signalsToProcess)], with its [break] and
    [continue]. *)
Fixpoint processEntries (cfg : Config) (historicalData : list Bar) (bar : Bar)
  (signalsToProcess : list PotentialTrade) (st : State) : State :=
  match signalsToProcess with
  | [] => st
  | t :: rest =>
      if atCap cfg st then st
      else if preventOnLosses cfg && isObserving st then
        processEntries cfg historicalData bar rest (observe historicalData t st)
      else processEntries cfg historicalData bar rest (enterPosition cfg bar t st)
  end.

Definition signalsToProcess (cfg : Config) (signalsByEntryBar : gmap Z (list PotentialTrade))
  (bar : Bar) : list PotentialTrade :=
  let signalsForThisBar := default [] (signalsByEntryBar !! date bar) in
  if allowSingleTradePerBar cfg && (0 <? length signalsForThisBar)%nat
  then take 1 signalsForThisBar else signalsForThisBar.

(** The body of [for (const bar of historicalData)]. *)
Definition processBar (cfg : Config) (historicalData : list Bar)
  (signalsByEntryBar : gmap Z (list PotentialTrade)) (st : State) (bar : Bar) : State :=
  processEntries cfg historicalData bar (signalsToProcess cfg signalsByEntryBar bar)
    (processExits cfg bar st).

Definition initialState (cfg : Config) : State :=
  mkState (initialCapital cfg) O false [] [].

Definition mainLoop (cfg : Config) (signals : list SignalData) (historicalData bars : list Bar)
  : State :=
  foldl (processBar cfg historicalData (groupSignalsByEntryBar signals)) (initialState cfg) bars.

(** Closing what is still open at the last bar's close. *)
Definition closeAtEnd (lastDay : Bar) (st : State) (position : Position) : State :=
  let p := profitOf position (close lastDay) in
  let profitPct := p / capitalAllocated position * 100 in
  mkState (currentCapital st + p) (consecutiveLosses st) (isObserving st) (openPositions st)
    (tradeLog st ++ [mkTradeRecord (originalSignal position)
                       (mkTradeResult (close lastDay) "End of Test") (date lastDay) p profitPct]).

Definition closeRemaining (historicalData : list Bar) (st : State) : State :=
  match last historicalData with
  | Some lastDay => foldl (closeAtEnd lastDay) st (openPositions st)
  | None => st
  end.

(** The summary; [winRate] and [cagr] ([Math.pow] with a real exponent) are
    left out. *)
Record Summary := mkSummary {
  totalTrades : nat;
  winningTrades : nat;
  losingTrades : nat;
  totalProfit : Q;
  summaryInitialCapital : Q;
  finalCapital : Q
}.

Definition recordEntryTime (r : TradeRecord) : Z := default 0%Z (origEntryDate (origin r)).

Definition runBacktest (signals : list SignalData) (historicalData : list Bar) (cfg : Config)
  : list TradeRecord * Summary :=
  let st := closeRemaining historicalData (mainLoop cfg signals historicalData historicalData) in
  let log := sortByKey recordEntryTime (tradeLog st) in
  let totalTrades := length log in
  let winningTrades := length (filter (fun t => Qltb 0 (profit t) = true) log) in
  (log, mkSummary totalTrades winningTrades (totalTrades - winningTrades)
          (currentCapital st - initialCapital cfg) (initialCapital cfg) (currentCapital st)).

End Backtester.

(** ** [runBacktest] in the code's own arithmetic

    The same statements once more, with every operation on a number taken
    from [Number.Arith] instead of the rationals, for the properties that
    depend on how the capital is rounded: with [Number.binary64] this is
    [runBacktest] as it computes on doubles ([1 / 0] is [Infinity], a [NaN]
    compares false and is falsy). *)

Module BacktesterOver.
Import Number.

Section WithArith.
Context {A : Arith}.

Record Bar := mkBar {
  date : Z;
  open : num A;
  high : num A;
  low : num A;
  close : num A
}.

Record Pivot := mkPivot {
  pivotDate : Z;
  pivotHighPrice : option (num A);
  pivotLowPrice : option (num A)
}.

Definition highPivot (d : Z) (h : num A) : Pivot := mkPivot d (Some h) None.
Definition lowPivot (d : Z) (l : num A) : Pivot := mkPivot d None (Some l).

Record TradeSignal := mkTradeSignal {
  triggerDate : Z;
  entryDate : option Z;
  entryPrice : num A;
  projectedExit : option (num A);
  exitPivot : option Pivot
}.

Record SignalData := mkSignalData {
  startPointName : string;
  startDateUTC : string;
  lookbackPeriod : nat;
  lookbackEndDate : Z;
  pivotHigh : option Pivot;
  pivotLow : option Pivot;
  longSignal : option TradeSignal;
  shortSignal : option TradeSignal
}.

Record PotentialTrade := mkPotentialTrade {
  signalData : SignalData;
  tradeSignal : TradeSignal;
  isLong : bool
}.

(** [!!x] for a possibly absent number: absent, [0] and [NaN] are falsy. *)
Definition truthy (x : option (num A)) : bool :=
  match x with
  | Some q => negb (falsy q)
  | None => false
  end.

Inductive Outcome := Win | Loss.

(** [isLong ? pivotLow?.low : pivotHigh?.high] *)
Definition stopLossOf (isLong : bool) (pivotHigh pivotLow : option Pivot) : option (num A) :=
  if isLong then pivotLow ≫= pivotLowPrice else pivotHigh ≫= pivotHighPrice.

(** The [for (const bar of tradeWindow)] loop of [getGhostTradeOutcome]. *)
Fixpoint ghostScan (isLong : bool) (stopLoss projectedExit : num A) (tradeWindow : list Bar)
  : option (num A) :=
  match tradeWindow with
  | [] => None
  | bar :: rest =>
      if isLong then
        if leb (low bar) stopLoss then Some stopLoss
        else if leb projectedExit (high bar) then Some projectedExit
        else ghostScan isLong stopLoss projectedExit rest
      else
        if leb stopLoss (high bar) then Some stopLoss
        else if leb (low bar) projectedExit then Some projectedExit
        else ghostScan isLong stopLoss projectedExit rest
  end.

(** [getGhostTradeOutcome]; [None] is the [null] result. *)
Definition getGhostTradeOutcome (t : PotentialTrade) (historicalData : list Bar)
  : option Outcome :=
  let stopLoss := stopLossOf (isLong t) (pivotHigh (signalData t)) (pivotLow (signalData t)) in
  let projectedExit := projectedExit (tradeSignal t) in
  if negb (truthy stopLoss) || negb (truthy projectedExit) then None else
  match stopLoss, projectedExit, entryDate (tradeSignal t) with
  | Some sl, Some pe, Some ed =>
      match findIndex (fun d => Z.eqb (date d) ed) historicalData with
      | None => None
      | Some startIndex =>
          match ghostScan (isLong t) sl pe (drop startIndex historicalData) with
          | None => None
          | Some exitPrice =>
              let profit :=
                if isLong t then sub exitPrice (entryPrice (tradeSignal t))
                else sub (entryPrice (tradeSignal t)) exitPrice in
              if ltb (ofNat 0) profit then Some Win else Some Loss
          end
      end
  | _, _, _ => None
  end.

(** The [.map(...)] callback of [groupSignalsByEntryBar]. *)
Definition chooseSignal (sd : SignalData) : option PotentialTrade :=
  match longSignal sd with
  | Some l => Some (mkPotentialTrade sd l true)
  | None =>
      match shortSignal sd with
      | Some s => Some (mkPotentialTrade sd s false)
      | None => None
      end
  end.

(** The [.filter(...)] callback, on the non-null results of the map. *)
Definition hasEntryDate (t : PotentialTrade) : bool :=
  match entryDate (tradeSignal t) with Some _ => true | None => false end.

Definition entryTime (t : PotentialTrade) : Z := default 0%Z (entryDate (tradeSignal t)).

Definition allPotentialTrades (signals : list SignalData) : list PotentialTrade :=
  Backtester.sortByKey entryTime
    (filter (fun t => hasEntryDate t = true) (omap chooseSignal signals)).

(** The grouping loop: [signalsByTimestamp[ts].push(trade)]. *)
Definition pushTrade (m : gmap Z (list PotentialTrade)) (t : PotentialTrade)
  : gmap Z (list PotentialTrade) :=
  <[entryTime t := default [] (m !! entryTime t) ++ [t]]> m.

Definition groupSignalsByEntryBar (signals : list SignalData) : gmap Z (list PotentialTrade) :=
  foldl pushTrade ∅ (allPotentialTrades signals).

(** [position.originalSignal] *)
Record OriginalSignal := mkOriginalSignal {
  type_ : string;
  origEntryDate : option Z;
  origEntryPrice : num A;
  ingressDate : string;
  origLookbackEndDate : Z;
  origLookbackPeriod : nat;
  entryPivotHigh : option Pivot;
  entryPivotLow : option Pivot;
  origExitPivot : option Pivot;
  origProjectedExit : num A
}.

Record Position := mkPosition {
  posEntryDate : option Z;
  posEntryPrice : num A;
  posIsLong : bool;
  stopLoss : num A;
  takeProfit : num A;
  capitalAllocated : num A;
  posStartPointName : string;
  originalSignal : OriginalSignal
}.

(** [{ exitPrice, exitReason }] *)
Record TradeResult := mkTradeResult {
  exitPrice : num A;
  exitReason : string
}.

(** An entry of [tradeLog]:
    [{...originalSignal, ...tradeResult, exitDate, profit, profitPct}]. *)
Record TradeRecord := mkTradeRecord {
  origin : OriginalSignal;
  result : TradeResult;
  exitDate : Z;
  profit : num A;
  profitPct : num A
}.

(** The mutable locals of [runBacktest]. *)
Record State := mkState {
  currentCapital : num A;
  consecutiveLosses : nat;
  isObserving : bool;
  openPositions : list Position;
  tradeLog : list TradeRecord
}.

Record Config := mkConfig {
  initialCapital : num A;
  preventOnLosses : bool;
  liquidateGroupOnLoss : bool;
  allowSingleTradePerBar : bool;
  positionSize : num A
}.

(** [Math.floor(1 / POSITION_SIZE)] *)
Definition MAX_OPEN_POSITIONS (cfg : Config) : num A :=
  floor (div (ofNat 1) (positionSize cfg)).

(** [openPositions.length >= MAX_OPEN_POSITIONS] *)
Definition atCap (cfg : Config) (st : State) : bool :=
  leb (MAX_OPEN_POSITIONS cfg) (ofNat (length (openPositions st))).

(** The first loop over [openPositions]. *)
Definition markLiquidation (bar : Bar) (originsToLiquidate : gmap string (num A))
  (position : Position) : gmap string (num A) :=
  match originsToLiquidate !! posStartPointName position with
  | Some _ => originsToLiquidate
  | None =>
      if posIsLong position && leb (low bar) (stopLoss position) then
        <[posStartPointName position := stopLoss position]> originsToLiquidate
      else if negb (posIsLong position) && leb (stopLoss position) (high bar) then
        <[posStartPointName position := stopLoss position]> originsToLiquidate
      else originsToLiquidate
  end.

Definition originsToLiquidate (cfg : Config) (bar : Bar) (st : State) : gmap string (num A) :=
  if liquidateGroupOnLoss cfg then foldl (markLiquidation bar) ∅ (openPositions st)
  else ∅.

(** The [else] branch of the exit decision. *)
Definition ownExit (bar : Bar) (position : Position) : option TradeResult :=
  if posIsLong position then
    if leb (low bar) (stopLoss position) then
      Some (mkTradeResult (stopLoss position) "Stop Loss Hit")
    else if leb (takeProfit position) (high bar) then
      Some (mkTradeResult (takeProfit position) "Take Profit Hit")
    else None
  else
    if leb (stopLoss position) (high bar) then
      Some (mkTradeResult (stopLoss position) "Stop Loss Hit")
    else if leb (low bar) (takeProfit position) then
      Some (mkTradeResult (takeProfit position) "Take Profit Hit")
    else None.

(** The exit decision for one open position on one bar: [tradeResult]. *)
Definition exitDecision (bar : Bar) (origins : gmap string (num A)) (position : Position)
  : option TradeResult :=
  match origins !! posStartPointName position with
  | Some liquidationPrice =>
      if truthy (Some liquidationPrice)
      then Some (mkTradeResult liquidationPrice "Group Liquidation")
      else ownExit bar position
  | None => ownExit bar position
  end.

(** [(exitPrice - entryPrice) * shares], inverted for a short. *)
Definition profitOf (position : Position) (exit : num A) : num A :=
  let shares := div (capitalAllocated position) (posEntryPrice position) in
  if posIsLong position then mul (sub exit (posEntryPrice position)) shares
  else mul (sub (posEntryPrice position) exit) shares.

(** The loss-streak update that follows every realized exit. *)
Definition lossStreak (cfg : Config) (p : num A) (st : State) : nat * bool :=
  let losses := if ltb p (ofNat 0) then S (consecutiveLosses st) else O in
  (losses, if preventOnLosses cfg && (2 <=? losses)%nat then true else isObserving st).

(** Realizing an exit: [currentCapital += profit] and the record pushed
    with that [profit], in the exit loop and in the same-bar check. *)
Definition realizeExit (cfg : Config) (bar : Bar) (position : Position) (r : TradeResult)
  (st : State) : State :=
  let p := profitOf position (exitPrice r) in
  let profitPct := mul (div p (capitalAllocated position)) (ofNat 100) in
  let '(losses, observing) := lossStreak cfg p st in
  mkState (add (currentCapital st) p) losses observing (openPositions st)
    (tradeLog st ++ [mkTradeRecord (originalSignal position) r (date bar) p profitPct]).

(** The second loop over [openPositions]; the state's [openPositions] field
    accumulates [remainingPositions]. *)
Definition exitStep (cfg : Config) (bar : Bar) (origins : gmap string (num A))
  (st : State) (position : Position) : State :=
  match exitDecision bar origins position with
  | Some r => realizeExit cfg bar position r st
  | None =>
      mkState (currentCapital st) (consecutiveLosses st) (isObserving st)
        (openPositions st ++ [position]) (tradeLog st)
  end.

Definition processExits (cfg : Config) (bar : Bar) (st : State) : State :=
  foldl (exitStep cfg bar (originsToLiquidate cfg bar st))
    (mkState (currentCapital st) (consecutiveLosses st) (isObserving st) [] (tradeLog st))
    (openPositions st).

(** The same-bar check of a new position. *)
Definition sameDayResult (bar : Bar) (isLong : bool) (stopLoss projectedExit : num A)
  : option TradeResult :=
  if isLong then
    if leb (low bar) stopLoss then
      Some (mkTradeResult stopLoss "Stop Loss Hit (Same Day)")
    else if leb projectedExit (high bar) then
      Some (mkTradeResult projectedExit "Take Profit Hit (Same Day)")
    else None
  else
    if leb stopLoss (high bar) then
      Some (mkTradeResult stopLoss "Stop Loss Hit (Same Day)")
    else if leb (low bar) projectedExit then
      Some (mkTradeResult projectedExit "Take Profit Hit (Same Day)")
    else None.

(** The [originalSignal] literal of a new position. *)
Definition originalSignalOf (t : PotentialTrade) (projectedExit : num A) : OriginalSignal :=
  let sd := signalData t in
  let ts := tradeSignal t in
  mkOriginalSignal (if isLong t then "Long" else "Short")
    (entryDate ts) (entryPrice ts) (startDateUTC sd) (lookbackEndDate sd)
    (lookbackPeriod sd) (pivotHigh sd) (pivotLow sd) (exitPivot ts) projectedExit.

(** [capitalForThisTrade = currentCapital * POSITION_SIZE] *)
Definition newPosition (cfg : Config) (st : State) (t : PotentialTrade)
  (stopLoss projectedExit : num A) : Position :=
  mkPosition (entryDate (tradeSignal t)) (entryPrice (tradeSignal t)) (isLong t)
    stopLoss projectedExit (mul (currentCapital st) (positionSize cfg))
    (startPointName (signalData t)) (originalSignalOf t projectedExit).

(** The rest of the body of the entry loop, past the cap and the ghost. *)
Definition enterPosition (cfg : Config) (bar : Bar) (t : PotentialTrade) (st : State) : State :=
  let stopLoss := stopLossOf (isLong t) (pivotHigh (signalData t)) (pivotLow (signalData t)) in
  let projectedExit := projectedExit (tradeSignal t) in
  if negb (truthy stopLoss) || negb (truthy projectedExit) then st else
  match stopLoss, projectedExit with
  | Some sl, Some pe =>
      let position := newPosition cfg st t sl pe in
      match sameDayResult bar (isLong t) sl pe with
      | Some r => realizeExit cfg bar position r st
      | None =>
          mkState (currentCapital st) (consecutiveLosses st) (isObserving st)
            (openPositions st ++ [position]) (tradeLog st)
      end
  | _, _ => st
  end.

(** The ghost branch: [isObserving] is cleared by a winning replay. *)
Definition observe (historicalData : list Bar) (t : PotentialTrade) (st : State) : State :=
  match getGhostTradeOutcome t historicalData with
  | Some Win => mkState (currentCapital st) O false (openPositions st) (tradeLog st)
  | _ => st
  end.

(** [for (const signalData of signalsToProcess)], with its [break] and
    [continue]. *)
Fixpoint processEntries (cfg : Config) (historicalData : list Bar) (bar : Bar)
  (signalsToProcess : list PotentialTrade) (st : State) : State :=
  match signalsToProcess with
  | [] => st
  | t :: rest =>
      if atCap cfg st then st
      else if preventOnLosses cfg && isObserving st then
        processEntries cfg historicalData bar rest (observe historicalData t st)
      else processEntries cfg historicalData bar rest (enterPosition cfg bar t st)
  end.

Definition signalsToProcess (cfg : Config) (signalsByEntryBar : gmap Z (list PotentialTrade))
  (bar : Bar) : list PotentialTrade :=
  let signalsForThisBar := default [] (signalsByEntryBar !! date bar) in
  if allowSingleTradePerBar cfg && (0 <? length signalsForThisBar)%nat
  then take 1 signalsForThisBar else signalsForThisBar.

(** The body of [for (const bar of historicalData)]. *)
Definition processBar (cfg : Config) (historicalData : list Bar)
  (signalsByEntryBar : gmap Z (list PotentialTrade)) (st : State) (bar : Bar) : State :=
  processEntries cfg historicalData bar (signalsToProcess cfg signalsByEntryBar bar)
    (processExits cfg bar st).

Definition initialState (cfg : Config) : State :=
  mkState (initialCapital cfg) O false [] [].

Definition mainLoop (cfg : Config) (signals : list SignalData) (historicalData bars : list Bar)
  : State :=
  foldl (processBar cfg historicalData (groupSignalsByEntryBar signals)) (initialState cfg) bars.

(** Closing what is still open at the last bar's close. *)
Definition closeAtEnd (lastDay : Bar) (st : State) (position : Position) : State :=
  let p := profitOf position (close lastDay) in
  let profitPct := mul (div p (capitalAllocated position)) (ofNat 100) in
  mkState (add (currentCapital st) p) (consecutiveLosses st) (isObserving st) (openPositions st)
    (tradeLog st ++ [mkTradeRecord (originalSignal position)
                       (mkTradeResult (close lastDay) "End of Test") (date lastDay) p profitPct]).

Definition closeRemaining (historicalData : list Bar) (st : State) : State :=
  match last historicalData with
  | Some lastDay => foldl (closeAtEnd lastDay) st (openPositions st)
  | None => st
  end.

(** The locals of [runBacktest] when the closing loop is over: [tradeLog]
    in the order of the pushes, before it is sorted. *)
Definition finalState (signals : list SignalData) (historicalData : list Bar) (cfg : Config)
  : State :=
  closeRemaining historicalData (mainLoop cfg signals historicalData historicalData).

(** The summary; [winRate] and [cagr] are left out. *)
Record Summary := mkSummary {
  totalTrades : nat;
  winningTrades : nat;
  losingTrades : nat;
  totalProfit : num A;
  summaryInitialCapital : num A;
  finalCapital : num A
}.

Definition recordEntryTime (r : TradeRecord) : Z := default 0%Z (origEntryDate (origin r)).

Definition runBacktest (signals : list SignalData) (historicalData : list Bar) (cfg : Config)
  : list TradeRecord * Summary :=
  let st := finalState signals historicalData cfg in
  let log := Backtester.sortByKey recordEntryTime (tradeLog st) in
  let totalTrades := length log in
  let winningTrades := length (filter (fun t => ltb (ofNat 0) (profit t) = true) log) in
  (log, mkSummary totalTrades winningTrades (totalTrades - winningTrades)
          (sub (currentCapital st) (initialCapital cfg)) (initialCapital cfg)
          (currentCapital st)).

End WithArith.

Arguments Bar : clear implicits.
Arguments Pivot : clear implicits.
Arguments TradeSignal : clear implicits.
Arguments SignalData : clear implicits.
Arguments PotentialTrade : clear implicits.
Arguments OriginalSignal : clear implicits.
Arguments Position : clear implicits.
Arguments TradeResult : clear implicits.
Arguments TradeRecord : clear implicits.
Arguments State : clear implicits.
Arguments Config : clear implicits.
Arguments Summary : clear implicits.

End BacktesterOver.

(** ** utils/algoCore/tradeSimulator.js *)

Module TradeSimulator.

(** [new Date(d).toISOString().split("T")[0]]: the UTC calendar day of a
    timestamp in milliseconds; two timestamps have the same day string
    exactly when they have the same day number. *)
Definition utcDay (ts : Z) : Z := (ts / 86400000)%Z.

(** [{ profit, tradeFound }] *)
Record TradeOutcome := mkTradeOutcome {
  profit : Q;
  tradeFound : bool
}.

Definition notFound : TradeOutcome := mkTradeOutcome 0 false.

(** [getTradeOutcome].  [signalData.longSignal || signalData.shortSignal]
    with [isLong = !!signalData.longSignal] is [Backtester.chooseSignal];
    the loop over [tradeWindow] is, statement for statement, the loop of
    [getGhostTradeOutcome], i.e. [Backtester.ghostScan]. *)
Definition getTradeOutcome (signalData : SignalData) (historicalData : list Bar)
  : TradeOutcome :=
  match Backtester.chooseSignal signalData with
  | None => notFound
  | Some t =>
      match entryDate (tradeSignal t) with
      | None => notFound
      | Some ed =>
          let stopLoss :=
            Backtester.stopLossOf (isLong t) (pivotHigh signalData) (pivotLow signalData) in
          let projectedExit := projectedExit (tradeSignal t) in
          if negb (truthy stopLoss) || negb (truthy projectedExit) then notFound else
          match stopLoss, projectedExit with
          | Some sl, Some pe =>
              match findIndex (fun d => Z.eqb (utcDay (date d)) (utcDay ed)) historicalData with
              | None => notFound
              | Some startIndex =>
                  match Backtester.ghostScan (isLong t) sl pe (drop startIndex historicalData)
                  with
                  | None => notFound
                  | Some exitPrice =>
                      mkTradeOutcome
                        (if isLong t then exitPrice - entryPrice (tradeSignal t)
                         else entryPrice (tradeSignal t) - exitPrice)
                        true
                  end
              end
          | _, _ => notFound
          end
      end
  end.

End TradeSimulator.

(** * utils/algoCore/pivotFinders.js *)

Module PivotFinders.

Inductive SignalType := LONG | SHORT.

(** The loops below hold a located fractal as the pair [(date, price)] of
    the object literal [{date: middle.date, high: middle.high}]. *)
Definition Located : Type := Z * Q.

(** [middle.high] exceeds the highs of two bars on each side. *)
Definition isFractalHigh5 (bars : list Bar) (i : nat) : bool :=
  match bars !! (i - 2)%nat, bars !! (i - 1)%nat, bars !! i,
        bars !! (i + 1)%nat, bars !! (i + 2)%nat with
  | Some b2, Some b1, Some middle, Some a1, Some a2 =>
      Qltb (high b1) (high middle) && Qltb (high b2) (high middle)
      && Qltb (high a1) (high middle) && Qltb (high a2) (high middle)
  | _, _, _, _, _ => false
  end.

Definition isFractalLow5 (bars : list Bar) (i : nat) : bool :=
  match bars !! (i - 2)%nat, bars !! (i - 1)%nat, bars !! i,
        bars !! (i + 1)%nat, bars !! (i + 2)%nat with
  | Some b2, Some b1, Some middle, Some a1, Some a2 =>
      Qltb (low middle) (low b1) && Qltb (low middle) (low b2)
      && Qltb (low middle) (low a1) && Qltb (low middle) (low a2)
  | _, _, _, _, _ => false
  end.

Definition isFractalHigh3 (bars : list Bar) (i : nat) : bool :=
  match bars !! (i - 1)%nat, bars !! i, bars !! (i + 1)%nat with
  | Some prev, Some middle, Some next =>
      Qltb (high prev) (high middle) && Qltb (high next) (high middle)
  | _, _, _ => false
  end.

Definition isFractalLow3 (bars : list Bar) (i : nat) : bool :=
  match bars !! (i - 1)%nat, bars !! i, bars !! (i + 1)%nat with
  | Some prev, Some middle, Some next =>
      Qltb (low middle) (low prev) && Qltb (low middle) (low next)
  | _, _, _ => false
  end.

Definition locate (price : Bar -> Q) (bars : list Bar) (i : nat) : option Located :=
  (fun middle => (date middle, price middle)) <$> bars !! i.

Definition isSome {A : Type} (o : option A) : bool :=
  match o with Some _ => true | None => false end.

(** [for (let i = bars.length - 3; i >= 2; i--)], entered at [i]. *)
Fixpoint loop5 (bars : list Bar) (i : nat) (pivotHigh5Bar pivotLow5Bar : option Located)
  : option Located * option Located :=
  if (i <? 2)%nat then (pivotHigh5Bar, pivotLow5Bar) else
  let pivotHigh5Bar' :=
    if negb (isSome pivotHigh5Bar) && isFractalHigh5 bars i then locate high bars i
    else pivotHigh5Bar in
  let pivotLow5Bar' :=
    if negb (isSome pivotLow5Bar) && isFractalLow5 bars i then locate low bars i
    else pivotLow5Bar in
  if isSome pivotHigh5Bar' && isSome pivotLow5Bar' then (pivotHigh5Bar', pivotLow5Bar')
  else
    match i with
    | O => (pivotHigh5Bar', pivotLow5Bar')
    | S j => loop5 bars j pivotHigh5Bar' pivotLow5Bar'
    end.

(** [for (let i = bars.length - 2; i >= 1; i--)], entered at [i]. *)
Fixpoint loop3 (bars : list Bar) (pivotHigh5Bar pivotLow5Bar : option Located)
  (i : nat) (pivotHigh3Bar pivotLow3Bar : option Located)
  : option Located * option Located :=
  if (i <? 1)%nat then (pivotHigh3Bar, pivotLow3Bar) else
  let pivotHigh3Bar' :=
    if negb (isSome pivotHigh5Bar) && negb (isSome pivotHigh3Bar) && isFractalHigh3 bars i
    then locate high bars i else pivotHigh3Bar in
  let pivotLow3Bar' :=
    if negb (isSome pivotLow5Bar) && negb (isSome pivotLow3Bar) && isFractalLow3 bars i
    then locate low bars i else pivotLow3Bar in
  if (isSome pivotHigh5Bar || isSome pivotHigh3Bar')
     && (isSome pivotLow5Bar || isSome pivotLow3Bar')
  then (pivotHigh3Bar', pivotLow3Bar')
  else
    match i with
    | O => (pivotHigh3Bar', pivotLow3Bar')
    | S j => loop3 bars pivotHigh5Bar pivotLow5Bar j pivotHigh3Bar' pivotLow3Bar'
    end.

(** [a || b] on possibly null objects. *)
Definition orObj {A : Type} (a b : option A) : option A :=
  match a with Some _ => a | None => b end.

(** The initial pivots: [(initialPivotHigh, initialPivotLow)]. *)
Definition initialPivots (bars : list Bar) : option Located * option Located :=
  let '(pivotHigh5Bar, pivotLow5Bar) :=
    if (5 <=? length bars)%nat then loop5 bars (length bars - 3) None None
    else (None, None) in
  let '(pivotHigh3Bar, pivotLow3Bar) :=
    loop3 bars pivotHigh5Bar pivotLow5Bar (length bars - 2) None None in
  (orObj pivotHigh5Bar pivotHigh3Bar, orObj pivotLow5Bar pivotLow3Bar).

(** One turn of [for (const bar of correctionWindow)], high side: the state
    is [(maxHighInWindow, correctedHighBar)]. *)
Definition raiseHigh (acc : Q * Bar) (bar : Bar) : Q * Bar :=
  if Qltb (fst acc) (high bar) then (high bar, bar) else acc.

Definition lowerLow (acc : Q * Bar) (bar : Bar) : Q * Bar :=
  if Qltb (low bar) (fst acc) then (low bar, bar) else acc.

(** The correction pass for a located pivot. *)
Definition correct (step : Q * Bar -> Bar -> Q * Bar) (bars : list Bar) (initial : Located)
  : Located :=
  match findIndex (fun d => Z.eqb (date d) (fst initial)) bars with
  | None => initial
  | Some startIndex =>
      let correctionWindow := drop startIndex bars in
      match bars !! startIndex with
      | Some first =>
          let '(extreme, correctedBar) := foldl step (snd initial, first) correctionWindow in
          (date correctedBar, extreme)
      | None => initial
      end
  end.

Definition toHighPivot (p : Located) : Pivot := highPivot (fst p) (snd p).
Definition toLowPivot (p : Located) : Pivot := lowPivot (fst p) (snd p).

(** [findInitialPivots]: the pair [(pivotHigh, pivotLow)]. *)
Definition findInitialPivots (bars : list Bar) : option Pivot * option Pivot :=
  if (length bars <? 3)%nat then (None, None) else
  let '(initialPivotHigh, initialPivotLow) := initialPivots bars in
  (toHighPivot ∘ correct raiseHigh bars <$> initialPivotHigh,
   toLowPivot ∘ correct lowerLow bars <$> initialPivotLow).

(** [for (let i = historicalBars.length - 2; i >= 1; i--)] of
    [findExitProjectionPivot], entered at [i]. *)
Fixpoint exitPivotLoop (historicalBars : list Bar) (signalType : SignalType) (i : nat)
  : option Pivot :=
  if (i <? 1)%nat then None else
  match signalType with
  | LONG =>
      if isFractalLow3 historicalBars i then toLowPivot <$> locate low historicalBars i
      else match i with O => None | S j => exitPivotLoop historicalBars signalType j end
  | SHORT =>
      if isFractalHigh3 historicalBars i then toHighPivot <$> locate high historicalBars i
      else match i with O => None | S j => exitPivotLoop historicalBars signalType j end
  end.

Definition findExitProjectionPivot (historicalBars : list Bar) (signalType : SignalType)
  : option Pivot :=
  if (length historicalBars <? 3)%nat then None
  else exitPivotLoop historicalBars signalType (length historicalBars - 2).

(** [Math.max(...xs)] and [Math.min(...xs)] on a non-empty list. *)
Definition Qmax (a b : Q) : Q := if Qle_bool a b then b else a.
Definition Qmin (a b : Q) : Q := if Qle_bool a b then a else b.

Definition maxOf (xs : list Q) : option Q :=
  match xs with [] => None | x :: rest => Some (foldl Qmax x rest) end.
Definition minOf (xs : list Q) : option Q :=
  match xs with [] => None | x :: rest => Some (foldl Qmin x rest) end.

(** [bars.slice(from, to)] for non-negative bounds. *)
Definition slice {A : Type} (from to : nat) (l : list A) : list A :=
  take (to - from) (drop from l).

(** [xs.slice(-n)]: the last [n] elements ([slice(-0)] is the whole array). *)
Definition lastN {A : Type} (n : nat) (l : list A) : list A :=
  if (n =? 0)%nat then l else drop (length l - n) l.

(** A pivot of [calculateTrendStructureRatio]: [{index, price}]. *)
Definition TrendPivot : Type := nat * Q.

(** [for (let i = pivotLookaround; i < bars.length - pivotLookaround; i++)]
    of [calculateTrendStructureRatio], entered at [i]; the loop variable
    grows at every turn, so [length bars] turns of fuel are never used up. *)
Fixpoint trendLoop (fuel : nat) (bars : list Bar) (pivotLookaround i : nat)
  (pivots : list TrendPivot) : list TrendPivot :=
  match fuel with
  | O => pivots
  | S fuel' =>
      if negb (i <? length bars - pivotLookaround)%nat then pivots else
      let window := slice (i - pivotLookaround) (i + pivotLookaround + 1) bars in
      match bars !! i, maxOf (high <$> window), minOf (low <$> window) with
      | Some currentBar, Some maxHigh, Some minLow =>
          if Qeq_bool (high currentBar) maxHigh then
            trendLoop fuel' bars pivotLookaround (i + pivotLookaround + 1)
              (pivots ++ [(i, high currentBar)])
          else if Qeq_bool (low currentBar) minLow then
            trendLoop fuel' bars pivotLookaround (i + pivotLookaround + 1)
              (pivots ++ [(i, low currentBar)])
          else trendLoop fuel' bars pivotLookaround (i + 1) pivots
      | _, _, _ => pivots
      end
  end.

(** The slopes between consecutive recent pivots. *)
Fixpoint slopesOf (recentPivots : list TrendPivot) : list Q :=
  match recentPivots with
  | p1 :: (p2 :: _) as rest =>
      let deltaP := Qabs (snd p2 - snd p1) in
      if (fst p1 <? fst p2)%nat
      then deltaP / inject_Z (Z.of_nat (fst p2 - fst p1)) :: slopesOf rest
      else slopesOf rest
  | _ => []
  end.

Definition sumQ (xs : list Q) : Q := foldl Qplus 0 xs.

Definition calculateTrendStructureRatio (bars : list Bar) (numPivots pivotLookaround : nat)
  : option Q :=
  if (length bars <? pivotLookaround * 2 + 1)%nat then None else
  let pivots := trendLoop (length bars) bars pivotLookaround pivotLookaround [] in
  if (length pivots <? 2)%nat then None else
  let slopes := slopesOf (lastN numPivots pivots) in
  if (length slopes =? 0)%nat then None
  else Some (sumQ slopes / inject_Z (Z.of_nat (length slopes))).

End PivotFinders.

(** * utils/algoCore/technicalIndicators.js *)

Module TechnicalIndicators.
Import PivotFinders.

(** The true ranges of bars [1 ..]. *)
Fixpoint trueRanges (bars : list Bar) : list Q :=
  match bars with
  | prevBar :: (currentBar :: _) as rest =>
      Qmax (Qmax (high currentBar - low currentBar)
                 (Qabs (high currentBar - close prevBar)))
           (Qabs (low currentBar - close prevBar))
      :: trueRanges rest
  | _ => []
  end.

Definition calculateATR (bars : list Bar) (period : nat) : option Q :=
  if (length bars <? period + 1)%nat then None else
  let relevantTRs := lastN period (trueRanges bars) in
  if (length relevantTRs <? period)%nat then None
  else Some (sumQ relevantTRs / inject_Z (Z.of_nat period)).

End TechnicalIndicators.

(** * utils/algoCore/tradeSignalLogic.js *)

Module TradeSignalLogic.
Import PivotFinders.

(** [triggerBar.close] against a pivot price that may be [undefined]. *)
Definition closesAbove (triggerBar : Bar) (fractalHigh : Pivot) : bool :=
  match pivotHighPrice fractalHigh with
  | Some h => (pivotDate fractalHigh <? date triggerBar)%Z && Qltb h (close triggerBar)
  | None => false
  end.

Definition closesBelow (triggerBar : Bar) (fractalLow : Pivot) : bool :=
  match pivotLowPrice fractalLow with
  | Some l => (pivotDate fractalLow <? date triggerBar)%Z && Qltb (close triggerBar) l
  | None => false
  end.

(** A freshly found signal; the [reason] text is not kept. *)
Definition signalAt (triggerBar entryBar : Bar) : TradeSignal :=
  mkTradeSignal (date triggerBar) (Some (date entryBar)) (open entryBar) None None.

(** [for (let i = 0; i < bars.length - 1; i++)] of [findFutureSignals]. *)
Fixpoint scan (bars : list Bar) (fractalHigh fractalLow : option Pivot)
  (longSignal shortSignal : option TradeSignal) : option TradeSignal * option TradeSignal :=
  match bars with
  | triggerBar :: (entryBar :: _) as rest =>
      let longSignal' :=
        match longSignal, fractalHigh with
        | None, Some fh =>
            if closesAbove triggerBar fh then Some (signalAt triggerBar entryBar) else None
        | _, _ => longSignal
        end in
      let shortSignal' :=
        match shortSignal, fractalLow with
        | None, Some fl =>
            if closesBelow triggerBar fl then Some (signalAt triggerBar entryBar) else None
        | _, _ => shortSignal
        end in
      if isSome longSignal' && isSome shortSignal' then (longSignal', shortSignal')
      else scan rest fractalHigh fractalLow longSignal' shortSignal'
  | _ => (longSignal, shortSignal)
  end.

Definition findFutureSignals (bars : list Bar) (fractalHigh fractalLow : option Pivot)
  : option TradeSignal * option TradeSignal :=
  if (length bars <? 2)%nat then (None, None)
  else scan bars fractalHigh fractalLow None None.

End TradeSignalLogic.

(** * utils/algoCore/exitPriceCalculator.js *)

Module ExitPriceCalculator.
Import PivotFinders Number.

Section WithArith.

Variable A : Arith.

(** The [pivot] argument: [{ high, low, date }], either price possibly
    missing. *)
Record RPivot := mkRPivot {
  rdate : Z;
  rhigh : option (num A);
  rlow : option (num A)
}.

(** The destructured argument object; [None] is a property that is missing
    ([undefined]). *)
Record Params := mkParams {
  signalType : option SignalType;
  triggerPrice : option (num A);
  pivot : option RPivot;
  timeDifference : option (num A);
  scalingFactor : option (num A)
}.

(** What the function evaluates to: [null], a number, or the [NaN] of an
    arithmetic on a missing pivot price. *)
Inductive Projection :=
| Null
| Price (p : num A)
| NotANumber.

(** [signalType === "LONG" ? pivot.low : pivot.high] *)
Definition pivotPriceFor (signalType : SignalType) (pivot : RPivot) : option (num A) :=
  match signalType with LONG => rlow pivot | SHORT => rhigh pivot end.

(** [Math.pow(x, 2)]: the product [x * x], also as a double. *)
Definition pow2 (x : num A) : num A := mul x x.

Definition calculateProjectedExit (params : Params) : Projection :=
  let scalingFactor := default (ofNat 1) (scalingFactor params) in
  match signalType params, triggerPrice params, pivot params, timeDifference params with
  | Some signalType, Some triggerPrice, Some pivot, Some timeDifference =>
      if falsy triggerPrice || leb scalingFactor (ofNat 0) then Null else
      match pivotPriceFor signalType pivot with
      | None => NotANumber
      | Some pivotPrice =>
          let deltaP_dollars := abs (sub triggerPrice pivotPrice) in
          let deltaP_scaled := div deltaP_dollars scalingFactor in
          let radius_scaled := sqrt (add (pow2 timeDifference) (pow2 deltaP_scaled)) in
          let radius_dollars := mul radius_scaled scalingFactor in
          match signalType with
          | LONG => Price (add triggerPrice radius_dollars)
          | SHORT => Price (sub triggerPrice radius_dollars)
          end
      end
  | _, _, _, _ => Null
  end.

End WithArith.

Arguments Null {A}.
Arguments Price {A} p.
Arguments NotANumber {A}.
Arguments mkRPivot {A} _ _ _.
Arguments mkParams {A} _ _ _ _ _.
Arguments rdate {A} _.
Arguments rhigh {A} _.
Arguments rlow {A} _.
Arguments signalType {A} _.
Arguments triggerPrice {A} _.
Arguments pivot {A} _.
Arguments timeDifference {A} _.
Arguments scalingFactor {A} _.
Arguments calculateProjectedExit {A} params.

End ExitPriceCalculator.

(** * The signal assembler *)

(** The assembler of the backtest route ([POST]) and the one of
    [scripts/portfolioBacktest.js] ([generateSignalsForTicker]).  Both hand
    rational inputs to [calculateProjectedExit] and store what it returns;
    the section takes that function on rationals, and the formatting of a
    date ([toISOString]), as given. *)

Module Assembler.
Import PivotFinders TechnicalIndicators TradeSignalLogic.

Definition LOOKBACK_FOR_START_POINT : nat := 180.
Definition PIVOT_LOOKAROUND : nat := 10.
Definition SCALING_ATR_PERIOD : nat := 50.
Definition SCALING_TREND_PIVOTS : nat := 4.
Definition SCALING_LOOKBACK : nat := 180.
Definition TREND_WEIGHT : Q := 6 # 10.
Definition VOLATILITY_WEIGHT : Q := 4 # 10.

(** [for (let i = lookaround; i < data.length - lookaround; i++)] of
    [findSharpPivots], as the indices it visits. *)
Definition isSharpPivot (data : list Bar) (lookaround i : nat) : bool :=
  let window := slice (i - lookaround) (i + lookaround + 1) data in
  match data !! i, maxOf (high <$> window), minOf (low <$> window) with
  | Some currentBar, Some maxHighInWindow, Some minLowInWindow =>
      Qeq_bool (high currentBar) maxHighInWindow || Qeq_bool (low currentBar) minLowInWindow
  | _, _, _ => false
  end.

Definition findSharpPivots (data : list Bar) (lookaround : nat) : gset Z :=
  if (length data <? lookaround * 2 + 1)%nat then ∅ else
  list_to_set
    (omap (fun i => if isSharpPivot data lookaround i then date <$> data !! i else None)
          (seq lookaround (length data - lookaround - lookaround))).

(** The scaling factor of both assemblers:
    [let f = 1; if (t && v) f = t*TREND_WEIGHT + v*VOLATILITY_WEIGHT;
     else if (t || v) f = t || v]. *)
Definition finalScalingFactor (trendRatio volatilityRatio : option Q) : Q :=
  if truthy trendRatio && truthy volatilityRatio then
    number trendRatio * TREND_WEIGHT + number volatilityRatio * VOLATILITY_WEIGHT
  else if truthy (orElse trendRatio volatilityRatio) then
    number (orElse trendRatio volatilityRatio)
  else 1.

Definition indexOfDate (data : list Bar) (d : Z) : option nat :=
  findIndex (fun b => Z.eqb (date b) d) data.

(** [processedData.slice(Math.max(0, triggerIndex - SCALING_LOOKBACK), triggerIndex)] *)
Definition scalingHistory (processedData : list Bar) (triggerIndex : nat) : list Bar :=
  slice (triggerIndex - SCALING_LOOKBACK) triggerIndex processedData.

Section WithProjector.

Variable calculateProjectedExit : SignalType -> Q -> Pivot -> Z -> Q -> option Q.
Variable toISOString : Z -> string.

(** The closure [calculateAndSetExit] of the route, on a non-null signal:
    the signal object after the call. *)
Definition calculateAndSetExit (processedData : list Bar) (signal : TradeSignal)
  (signalType : SignalType) : TradeSignal :=
  match indexOfDate processedData (triggerDate signal) with
  | Some (S k as triggerIndex) =>
      let historyBeforeTrigger := take triggerIndex processedData in
      match findExitProjectionPivot historyBeforeTrigger signalType,
            processedData !! triggerIndex with
      | Some exitPivot, Some triggerBar =>
          let pivotIndex :=
            match indexOfDate processedData (pivotDate exitPivot) with
            | Some j => Z.of_nat j
            | None => (-1)%Z
            end in
          let history := scalingHistory processedData triggerIndex in
          let trendRatio := calculateTrendStructureRatio history SCALING_TREND_PIVOTS 10 in
          let volatilityRatio := calculateATR history SCALING_ATR_PERIOD in
          let finalScalingFactor := finalScalingFactor trendRatio volatilityRatio in
          let projectedExit :=
            if Qltb 0 finalScalingFactor then
              calculateProjectedExit signalType (close triggerBar) exitPivot
                (Z.of_nat triggerIndex - pivotIndex)%Z finalScalingFactor
            else projectedExit signal in
          mkTradeSignal (triggerDate signal) (entryDate signal) (entryPrice signal)
            projectedExit (Some exitPivot)
      | _, _ => signal
      end
  | _ => signal
  end.

(** The body of [for (const lookbackPeriod of lookbackPeriods)]: the record
    pushed for start index [i], or nothing when the lookback runs past the
    data. *)
Definition assemble (processedData : list Bar) (i : nat) (currentBar : Bar)
  (lookbackPeriod : nat) : option SignalData :=
  let pointYIndex := (i + lookbackPeriod)%nat in
  match processedData !! pointYIndex with
  | None => None
  | Some lookbackBar =>
      let stoplossScanWindow := slice i (pointYIndex + 1) processedData in
      let '(pivotHigh, pivotLow) := findInitialPivots stoplossScanWindow in
      let signalScanWindow := drop (pointYIndex + 1) processedData in
      let '(longSignal, shortSignal) := findFutureSignals signalScanWindow pivotHigh pivotLow in
      Some (mkSignalData
              ("Auto Pivot on " +:+ toISOString (date currentBar))
              (toISOString (date currentBar))
              lookbackPeriod (date lookbackBar) pivotHigh pivotLow
              ((fun s => calculateAndSetExit processedData s LONG) <$> longSignal)
              ((fun s => calculateAndSetExit processedData s SHORT) <$> shortSignal))
  end.

(** The main loop of the route: [allGeneratedSignals]. *)
Definition generateAllSignals (processedData : list Bar) (simulationStartIndex : nat)
  (lookbackPeriods : list nat) : list SignalData :=
  let sharpPivotTimestamps := findSharpPivots processedData PIVOT_LOOKAROUND in
  flat_map
    (fun i =>
       match processedData !! i with
       | Some currentBar =>
           if bool_decide (date currentBar ∈ sharpPivotTimestamps)
           then omap (assemble processedData i currentBar) lookbackPeriods
           else []
       | None => []
       end)
    (seq simulationStartIndex (length processedData - simulationStartIndex)).

(** The route from the prepared bars on: [None] stands for its two error
    responses (start date not in the data, not enough history before it). *)
Definition route (processedData : list Bar) (userStartDate : Z)
  (lookbackPeriods : list nat) (cfg : Backtester.Config)
  : option (list Backtester.TradeRecord * Backtester.Summary) :=
  match findIndex (fun bar => (userStartDate <=? date bar)%Z) processedData with
  | None => None
  | Some simulationStartIndex =>
      if (simulationStartIndex <? LOOKBACK_FOR_START_POINT)%nat then None
      else Some (Backtester.runBacktest
                   (generateAllSignals processedData simulationStartIndex lookbackPeriods)
                   processedData cfg)
  end.

(** A signal of [generateSignalsForTicker]. *)
Record GeneratedSignal := mkGeneratedSignal {
  genType : SignalType;
  genEntryDate : option Z;
  genEntryPrice : Q;
  genStopLoss : option Q;
  genTakeProfit : Q;
  signalDate : Z
}.

(** The closure [processSignal] of [generateSignalsForTicker], on a non-null
    signal: what it pushes, if anything. *)
Definition processSignal (processedData : list Bar) (pivotHigh pivotLow : option Pivot)
  (isBullishTrend isBearishTrend : bool) (signal : TradeSignal) (type : SignalType)
  : option GeneratedSignal :=
  if (match type with LONG => negb isBullishTrend | SHORT => negb isBearishTrend end)
  then None else
  match indexOfDate processedData (triggerDate signal) with
  | Some (S k as triggerIndex) =>
      let historyBeforeTrigger := take triggerIndex processedData in
      match findExitProjectionPivot historyBeforeTrigger type,
            processedData !! triggerIndex with
      | Some exitPivot, Some triggerBar =>
          let history := scalingHistory processedData triggerIndex in
          let trendRatio := calculateTrendStructureRatio history SCALING_TREND_PIVOTS 10 in
          let volatilityRatio := calculateATR history SCALING_ATR_PERIOD in
          let scalingFactor := finalScalingFactor trendRatio volatilityRatio in
          if Qle_bool scalingFactor 0 then None else
          let pivotIndex :=
            match indexOfDate processedData (pivotDate exitPivot) with
            | Some j => Z.of_nat j
            | None => (-1)%Z
            end in
          let projectedExit :=
            calculateProjectedExit type (close triggerBar) exitPivot
              (Z.of_nat triggerIndex - pivotIndex)%Z scalingFactor in
          if negb (truthy projectedExit) then None else
          match projectedExit with
          | Some takeProfit =>
              Some (mkGeneratedSignal type (entryDate signal) (entryPrice signal)
                      (Backtester.stopLossOf
                         (match type with LONG => true | SHORT => false end)
                         pivotHigh pivotLow)
                      takeProfit (triggerDate signal))
          | None => None
          end
      | _, _ => None
      end
  | _ => None
  end.

End WithProjector.

End Assembler.

(** * scripts/portfolioBacktest.js *)

Module PortfolioBacktest.
Import PivotFinders TradeSignalLogic.

Definition INITIAL_CAPITAL : Q := 10000.
Definition POSITION_SIZE_PCT : Q := 10 # 100.
Definition MAX_POSITIONS : nat := 10.


Section WithProjector.

Variable calculateProjectedExit : SignalType -> Q -> Pivot -> Z -> Q -> option Q.




End WithProjector.

(** *** The portfolio loop of [runPortfolioSimulation] *)

(** What the loop reads of a signal. *)
Record Signal := mkSignal {
  ticker : string;
  type : SignalType;
  entryDate : Z;
  entryPrice : Q;
  stopLoss : option Q;
  takeProfit : Q
}.

Record Position := mkPosition {
  posTicker : string;
  posType : SignalType;
  shares : Q;
  posEntryPrice : Q;
  posEntryDate : Z;
  initialCost : Q;
  posStopLoss : option Q;
  posTakeProfit : Q
}.

(** An entry of [tradeLog]. *)
Record Trade := mkTrade {
  tradeTicker : string;
  tradeType : SignalType;
  tradeEntryDate : Z;
  tradeEntryPrice : Q;
  exitDate : Z;
  exitPrice : Q;
  profit : Q;
  reason : string
}.

(** An entry of [portfolioHistory]. *)
Record EquityPoint := mkEquityPoint {
  pointDate : Z;
  equity : Q;
  openPositionsCount : nat
}.

(** The mutable locals of the loop; [pending] is [allSignals] from
    [currentSignalIndex] on. *)
Record State := mkState {
  cash : Q;
  openPositions : list Position;
  tradeLog : list Trade;
  portfolioHistory : list EquityPoint;
  pending : list Signal
}.

(** [marketData]: the bars of every ticker, in the order of its keys. *)
Definition MarketData : Type := list (string * list Bar).

(** [timeline]: the distinct timestamps of all bars, in increasing order. *)
Definition timeline (marketData : MarketData) : list Z :=
  Backtester.sortByKey (fun ts => ts)
    (remove_dups (flat_map (fun entry => date <$> snd entry) marketData)).

(** [priceMap[ts][ticker] = bar] *)
Definition setPrice (ticker : string) (priceMap : gmap Z (gmap string Bar)) (bar : Bar)
  : gmap Z (gmap string Bar) :=
  <[date bar := <[ticker := bar]> (default ∅ (priceMap !! date bar))]> priceMap.

Definition priceMapOf (marketData : MarketData) : gmap Z (gmap string Bar) :=
  foldl (fun priceMap entry => foldl (setPrice (fst entry)) priceMap (snd entry)) ∅ marketData.

(** [x <= y] and [x >= y] against a stop that may be [undefined]. *)
Definition atOrBelow (x : Q) (y : option Q) : bool :=
  match y with Some y => Qle_bool x y | None => false end.
Definition atOrAbove (x : Q) (y : option Q) : bool :=
  match y with Some y => Qle_bool y x | None => false end.

(** The stop and target checks of both blocks: the exit price and whether
    it is the stop. *)
Definition exitCheck (bar : Bar) (type : SignalType) (stopLoss : option Q) (takeProfit : Q)
  : option (option Q * bool) :=
  match type with
  | LONG =>
      if atOrBelow (low bar) stopLoss then Some (stopLoss, true)
      else if Qle_bool takeProfit (high bar) then Some (Some takeProfit, false)
      else None
  | SHORT =>
      if atOrAbove (high bar) stopLoss then Some (stopLoss, true)
      else if Qle_bool (low bar) takeProfit then Some (Some takeProfit, false)
      else None
  end.

(** [(exitPrice - entryPrice) * shares], inverted for a short. *)
Definition profitOf (type : SignalType) (entryPrice shares exit : Q) : Q :=
  match type with
  | LONG => (exit - entryPrice) * shares
  | SHORT => (entryPrice - exit) * shares
  end.

(** One turn of [for (let i = openPositions.length - 1; i >= 0; i--)]: the
    accumulator holds [cash], the positions that stay (in their order) and
    the log. *)
Definition manageStep (ts : Z) (dayPrices : gmap string Bar) (pos : Position)
  (acc : Q * list Position * list Trade) : Q * list Position * list Trade :=
  let '(cash, kept, log) := acc in
  match dayPrices !! posTicker pos with
  | None => (cash, pos :: kept, log)
  | Some bar =>
      match exitCheck bar (posType pos) (posStopLoss pos) (posTakeProfit pos) with
      | Some (Some exitPrice, isStop) =>
          if truthy (Some exitPrice) then
            let profit := profitOf (posType pos) (posEntryPrice pos) (shares pos) exitPrice in
            (cash + (initialCost pos + profit), kept,
             log ++ [mkTrade (posTicker pos) (posType pos) (posEntryDate pos) (posEntryPrice pos)
                       ts exitPrice profit (if isStop then "Stop Loss" else "Take Profit")])
          else (cash, pos :: kept, log)
      | _ => (cash, pos :: kept, log)
      end
  end.

(** Block A: the positions are visited from the last to the first. *)
Definition managePositions (ts : Z) (dayPrices : gmap string Bar) (st : State) : State :=
  let '(cash, kept, log) :=
    foldr (manageStep ts dayPrices) (cash st, [], tradeLog st) (openPositions st) in
  mkState cash kept log (portfolioHistory st) (pending st).

(** [cash + openPositions.reduce(...)] *)
Definition equityOf (cash : Q) (dayPrices : gmap string Bar) (positions : list Position) : Q :=
  cash + foldl (fun acc pos =>
                  match dayPrices !! posTicker pos with
                  | None => acc + initialCost pos
                  | Some currentBar =>
                      let unrealized :=
                        profitOf (posType pos) (posEntryPrice pos) (shares pos)
                          (close currentBar) in
                      acc + initialCost pos + unrealized
                  end) 0 positions.

(** A signal of today whose ticker has a bar: the rest of the body of the
    [while] loop. *)
Definition takeSignal (ts : Z) (dayPrices : gmap string Bar) (signal : Signal) (bar : Bar)
  (st : State) : State :=
  if (MAX_POSITIONS <=? length (openPositions st))%nat then st
  else if existsb (fun p => String.eqb (posTicker p) (ticker signal)) (openPositions st) then st
  else
    let currentEquity := equityOf (cash st) dayPrices (openPositions st) in
    let tradeAmount := currentEquity * POSITION_SIZE_PCT in
    if Qltb (cash st) tradeAmount then st
    else
      let shares := tradeAmount / entryPrice signal in
      match exitCheck bar (type signal) (stopLoss signal) (takeProfit signal) with
      | Some (price, isStop) =>
          let profit := profitOf (type signal) (entryPrice signal) shares (number price) in
          mkState (cash st + profit) (openPositions st)
            (tradeLog st ++ [mkTrade (ticker signal) (type signal) (entryDate signal)
                               (entryPrice signal) ts (number price) profit
                               (if isStop then "Stop Loss (Same Day)"
                                else "Take Profit (Same Day)")])
            (portfolioHistory st) (pending st)
      | None =>
          mkState (cash st - tradeAmount)
            (openPositions st ++ [mkPosition (ticker signal) (type signal) shares
                                    (entryPrice signal) (entryDate signal) tradeAmount
                                    (stopLoss signal) (takeProfit signal)])
            (tradeLog st) (portfolioHistory st) (pending st)
      end.

(** Block B: [while (currentSignalIndex < allSignals.length)], on the
    signals not yet passed; the signals left over are returned with the
    state. *)
Fixpoint processSignals (ts : Z) (dayPrices : gmap string Bar) (signals : list Signal)
  (st : State) : list Signal * State :=
  match signals with
  | [] => ([], st)
  | signal :: rest =>
      if (entryDate signal <? ts)%Z then processSignals ts dayPrices rest st
      else if (ts <? entryDate signal)%Z then (signals, st)
      else
        match dayPrices !! ticker signal with
        | None => processSignals ts dayPrices rest st
        | Some bar => processSignals ts dayPrices rest (takeSignal ts dayPrices signal bar st)
        end
  end.

(** The body of [for (const ts of timeline)]. *)
Definition dayStep (priceMap : gmap Z (gmap string Bar)) (st : State) (ts : Z) : State :=
  match priceMap !! ts with
  | None => st
  | Some dayPrices =>
      let st := managePositions ts dayPrices st in
      let '(rest, st) := processSignals ts dayPrices (pending st) st in
      let totalEquity := equityOf (cash st) dayPrices (openPositions st) in
      mkState (cash st) (openPositions st) (tradeLog st)
        (portfolioHistory st ++ [mkEquityPoint ts totalEquity (length (openPositions st))])
        rest
  end.

(** The portfolio loop, from the loaded [marketData] and the generated
    signals (before they are sorted). *)
Definition simulate (marketData : MarketData) (allSignals : list Signal) : State :=
  foldl (dayStep (priceMapOf marketData))
    (mkState INITIAL_CAPITAL [] [] [] (Backtester.sortByKey entryDate allSignals))
    (timeline marketData).

End PortfolioBacktest.

(** * Properties *)

(** ** Notions used in the statements *)

(** The [profit] fields of a trade log added to [c], one after another in
    the order of the log: [log.reduce((s, t) => s + t.profit, c)]. *)
Definition profitsAdded {A : Number.Arith} (c : Number.num A)
  (log : list (BacktesterOver.TradeRecord A)) : Number.num A :=
  foldl (fun s t => Number.add s (BacktesterOver.profit t)) c log.


(** The entry bar touches the stop, resp. the target, of a new position. *)
Definition touchesStop (bar : Bar) (isLong : bool) (stopLoss : Q) : Prop :=
  if isLong then low bar <= stopLoss else stopLoss <= high bar.

Definition touchesTarget (bar : Bar) (isLong : bool) (projectedExit : Q) : Prop :=
  if isLong then projectedExit <= high bar else low bar <= projectedExit.

(** The loss streak after an exit with profit [p] was realized. *)
Definition streakUpdated (cfg : Backtester.Config) (p : Q)
  (before after : Backtester.State) : Prop :=
  (p < 0 -> Backtester.consecutiveLosses after = S (Backtester.consecutiveLosses before))
  /\ (0 <= p -> Backtester.consecutiveLosses after = O)
  /\ (Backtester.preventOnLosses cfg = true ->
      (2 <= Backtester.consecutiveLosses after)%nat ->
      Backtester.isObserving after = true).

(** The log grew by one same-bar record with the given exit. *)
Definition loggedSameBar (bar : Bar) (price : Q) (reason : string)
  (before after : Backtester.State) : Prop :=
  Backtester.openPositions after = Backtester.openPositions before
  /\ exists r, Backtester.tradeLog after = Backtester.tradeLog before ++ [r]
             /\ Backtester.exitPrice (Backtester.result r) = price
             /\ Backtester.exitReason (Backtester.result r) = reason
             /\ Backtester.exitDate r = date bar.

(** A record without any signal, or whose chosen signal has no [entryDate]. *)
Definition withoutEntry (sd : SignalData) : Prop :=
  Backtester.chooseSignal sd = None
  \/ exists t, Backtester.chooseSignal sd = Some t /\ entryDate (tradeSignal t) = None.

(** [loc] is the [{date, price}] of a bar of [bars] that is a 5-bar or a 3-bar
    fractal, at index [i]. *)
Definition fractalAt (price : Bar -> Q) (fractal5 fractal3 : list Bar -> nat -> bool)
  (bars : list Bar) (i : nat) (loc : PivotFinders.Located) : Prop :=
  exists b, bars !! i = Some b /\ loc = (date b, price b)
            /\ (fractal5 bars i = true \/ fractal3 bars i = true).

(** A located pivot, when there is one, is a fractal bar of the window. *)
Definition highAt (bars : list Bar) (o : option PivotFinders.Located) : Prop :=
  forall loc, o = Some loc ->
    exists i, fractalAt high PivotFinders.isFractalHigh5 PivotFinders.isFractalHigh3 bars i loc.
Definition lowAt (bars : list Bar) (o : option PivotFinders.Located) : Prop :=
  forall loc, o = Some loc ->
    exists i, fractalAt low PivotFinders.isFractalLow5 PivotFinders.isFractalLow3 bars i loc.

(** A trade stopped by the guard [if (!stopLoss || !projectedExit)] of the
    entry loop and of the ghost replay. *)
Definition lacksPrice (t : PotentialTrade) : Prop :=
  truthy (Backtester.stopLossOf (isLong t) (pivotHigh (signalData t))
            (pivotLow (signalData t))) = false
  \/ truthy (projectedExit (tradeSignal t)) = false.

(** Capital is the initial capital with the profit of every logged trade
    added to it, in the order in which the trades were logged. *)
Definition balanced {A : Number.Arith} (cfg : BacktesterOver.Config A)
  (st : BacktesterOver.State A) : Prop :=
  BacktesterOver.currentCapital st
  = profitsAdded (BacktesterOver.initialCapital cfg) (BacktesterOver.tradeLog st).

(** How many elements of a list satisfy [p]. *)
Fixpoint count {A : Type} (p : A -> bool) (l : list A) : nat :=
  match l with
  | [] => O
  | x :: rest => ((if p x then 1 else 0) + count p rest)%nat
  end.

(** The trades a candidate can give rise to carry [originalSignalOf] of it;
    [p] is any property of that origin. *)
Definition originMatches (p : Backtester.OriginalSignal -> bool) (t : PotentialTrade) : bool :=
  match projectedExit (tradeSignal t) with
  | Some pe => p (Backtester.originalSignalOf t pe)
  | None => false
  end.

Definition candidateMatches (p : Backtester.OriginalSignal -> bool) (sd : SignalData) : bool :=
  match Backtester.chooseSignal sd with
  | Some t => Backtester.hasEntryDate t && originMatches p t
  | None => false
  end.

(** Open positions and logged trades whose origin satisfies [p]. *)
Definition tradesWith (p : Backtester.OriginalSignal -> bool) (st : Backtester.State) : nat :=
  (count (fun position => p (Backtester.originalSignal position)) (Backtester.openPositions st)
   + count (fun r => p (Backtester.origin r)) (Backtester.tradeLog st))%nat.

(** ** Example inputs *)

Module Examples.
Import Backtester.

Definition bar (d : Z) (o h l c : Q) : Bar := mkBar d o h l c.

(** A long candidate entered at 10 on day 2, stop at [stop], target 12. *)
Definition longAt (stop : Q) : SignalData :=
  mkSignalData "P" "d0" 3 1 (Some (highPivot 0 11)) (Some (lowPivot 0 stop))
    (Some (mkTradeSignal 1 (Some 2%Z) 10 (Some 12) None)) None.

Definition longTrade (stop : Q) : PotentialTrade :=
  mkPotentialTrade (longAt stop) (mkTradeSignal 1 (Some 2%Z) 10 (Some 12) None) true.

Definition tenth : Config := mkConfig 1000 true false false (1 # 10).

Definition fresh : State := initialState tenth.

(** One loss so far, nothing open. *)
Definition oneLoss : State := mkState 1000 1 false [] [].

(** Two losses: the simulator is observing. *)
Definition observing : State := mkState 1000 2 true [] [].

(** A long position entered at 10 whose stop is its entry price. *)
Definition breakEven : Position := newPosition tenth oneLoss (longTrade 10) 10 12.

Definition quietDay : Bar := bar 2 10 11 (19 # 2) (21 # 2).
Definition dipDay : Bar := bar 3 10 (21 # 2) 9 (19 # 2).
Definition wideDay : Bar := bar 2 10 13 8 11.
Definition rallyDay : Bar := bar 3 11 13 10 12.

(** Five bars with a 3-bar fractal low on day 1; a signal triggered on
    day 4. *)
Definition shortHistory : list Bar :=
  [bar 0 4 5 3 4; bar 1 4 5 2 4; bar 2 4 5 3 4; bar 3 4 6 3 5; bar 4 5 8 4 7].

Definition triggeredOnDay4 : TradeSignal := mkTradeSignal 4 (Some 5%Z) 7 None None.

(** A projector that answers with the scaling factor it is called with. *)
Definition echoScaling (ty : PivotFinders.SignalType) (triggerPrice : Q) (pivot : Pivot)
  (timeDifference : Z) (scalingFactor : Q) : option Q := Some scalingFactor.

(** 200 daily bars whose lows never move (no fractal low anywhere), with a
    fractal high on day 182 that day 186 closes above. *)
Definition flatBar (i : nat) : Bar :=
  mkBar (Z.of_nat i) 1
    (if (i =? 182)%nat then 3 else if (i =? 186)%nat then 5 else 2) 1
    (if (i =? 186)%nat then 4 else 1).

Definition flatLows : list Bar := flatBar <$> seq 0 200.

(** A stand-in for [Date.prototype.toISOString]. *)
Definition dayName (d : Z) : string := "day".

(** The record the route assembles from [flatLows] for the start point on
    day 180 and a lookback of 4 bars. *)
Definition unpriced (toISOString : Z -> string) : SignalData :=
  mkSignalData ("Auto Pivot on " +:+ toISOString 180%Z) (toISOString 180%Z) 4 184
    (Some (highPivot 182 3)) None
    (Some (mkTradeSignal 186 (Some 187%Z) 1 None None)) None.

Definition unpricedTrade (toISOString : Z -> string) : PotentialTrade :=
  mkPotentialTrade (unpriced toISOString) (mkTradeSignal 186 (Some 187%Z) 1 None None) true.

(** A long candidate of start point [name], entered at 10 on day [entry]. *)
Definition candidate (name : string) (stop target : Q) (entry : Z) : SignalData :=
  mkSignalData name "d0" 3 1 (Some (highPivot 0 11)) (Some (lowPivot 0 stop))
    (Some (mkTradeSignal (entry - 1) (Some entry) 10 (Some target) None)) None.

Definition grouped : Config := mkConfig 1000 false true false (1 # 10).

(** Day 3 dips to 8.5: below a stop at 9, above a stop at 5. *)
Definition threeDays : list Bar :=
  [bar 2 10 11 (19 # 2) (21 # 2); bar 3 10 (21 # 2) (17 # 2) 9; bar 4 9 10 8 9].

(** A day opening and closing at 10, between [l] and [h]. *)
Definition day (n : Z) (l h : Q) : Bar := bar n 10 h l 10.

(** Dips to 8 on days 2, 4 and 6; rallies to 13 on days 8 and 10. *)
Definition tenDays : list Bar :=
  [day 1 (19 # 2) 11; day 2 8 11; day 3 (19 # 2) 11; day 4 8 11; day 5 (19 # 2) 11;
   day 6 8 11; day 7 (19 # 2) 11; day 8 (19 # 2) 13; day 9 (19 # 2) 11;
   day 10 (19 # 2) 13].

(** What a run logged: reason, exit price, exit day and profit of each trade. *)
Definition outcomes (r : list TradeRecord * Summary) : list (string * Q * Z * Q) :=
  (fun t => (exitReason (result t), exitPrice (result t), exitDate t, Qred (profit t)))
    <$> fst r.

(** A window whose 3-bar fractal high (day 3) is overtaken on day 5, and
    whose 3-bar fractal low (day 2) holds. *)
Definition window : list Bar :=
  [bar 1 5 6 4 5; bar 2 5 6 3 5; bar 3 5 8 4 6; bar 4 6 7 4 6; bar 5 6 9 5 8].

(** Two open long positions of start point "P", entered at 10 with target
    12: the first with its stop at 5, the second with its stop at 10. *)
Definition twoHeld : State :=
  mkState 1000 0 false
    [newPosition grouped fresh (longTrade 5) 5 12;
     newPosition grouped fresh (longTrade 10) 10 12] [].

(** Two daily bars stamped in milliseconds (days 2 and 3 of the epoch) and
    a long candidate entered at 10 on the first of them, stop 9, target 12. *)
Definition dailySeries : list Bar :=
  [bar 172800000 10 11 (19 # 2) (21 # 2); bar 259200000 10 (21 # 2) 9 (19 # 2)].

Definition dailyCandidate : SignalData :=
  mkSignalData "P" "d0" 3 1 (Some (highPivot 0 11)) (Some (lowPivot 0 9))
    (Some (mkTradeSignal 86400000 (Some 172800000%Z) 10 (Some 12) None)) None.

Definition dailyTrade : PotentialTrade :=
  mkPotentialTrade dailyCandidate (mkTradeSignal 86400000 (Some 172800000%Z) 10 (Some 12) None)
    true.

(** One trade per bar at most. *)
Definition single : Config := mkConfig 1000 false false true (1 # 10).

(** 250 daily bars that stand still at 1, with no range at all, but for a
    low of 1/4 on day 180 (a sharp pivot), a high of 3 on day 182 and a low
    of 1/2 on day 183 (the fractals of the lookback window of day 180), and
    a close at 4 on day 240, the first close above 3.  The 180 bars before
    day 240 end in a stretch without range: their last 50 true ranges and
    the slopes between their last pivots are 0. *)
Definition stillBar (i : nat) : Bar :=
  mkBar (Z.of_nat i) 1
    (if (i =? 182)%nat then 3 else if (i =? 240)%nat then 4 else 1)
    (if (i =? 180)%nat then 1 # 4 else if (i =? 183)%nat then 1 # 2 else 1)
    (if (i =? 240)%nat then 4 else 1).

Definition stillMarket : list Bar := stillBar <$> seq 0 250.

(** The long signal that [findFutureSignals] finds for the start point on
    day 180 of [stillMarket] and a lookback of 4 bars. *)
Definition breakout : TradeSignal := mkTradeSignal 240 (Some 241%Z) 1 None None.

(** The candidates and the ten days above in an arithmetic [A]; with
    [Number.binary64], [19 / 2] is the double [9.5] and [1 / 10] the double
    [0.1]. *)
Section InArith.
Context {A : Number.Arith}.

Definition ratio (n d : nat) : Number.num A := Number.div (Number.ofNat n) (Number.ofNat d).

Definition candidateIn (name : string) (stop target : nat) (entry : Z)
  : BacktesterOver.SignalData A :=
  BacktesterOver.mkSignalData name "d0" 3 1
    (Some (BacktesterOver.highPivot 0 (Number.ofNat 11)))
    (Some (BacktesterOver.lowPivot 0 (Number.ofNat stop)))
    (Some (BacktesterOver.mkTradeSignal (entry - 1) (Some entry) (Number.ofNat 10)
             (Some (Number.ofNat target)) None)) None.

Definition dayIn (n : Z) (l h : Number.num A) : BacktesterOver.Bar A :=
  BacktesterOver.mkBar n (Number.ofNat 10) h l (Number.ofNat 10).

Definition tenDaysIn : list (BacktesterOver.Bar A) :=
  [dayIn 1 (ratio 19 2) (Number.ofNat 11); dayIn 2 (Number.ofNat 8) (Number.ofNat 11);
   dayIn 3 (ratio 19 2) (Number.ofNat 11); dayIn 4 (Number.ofNat 8) (Number.ofNat 11);
   dayIn 5 (ratio 19 2) (Number.ofNat 11); dayIn 6 (Number.ofNat 8) (Number.ofNat 11);
   dayIn 7 (ratio 19 2) (Number.ofNat 11); dayIn 8 (ratio 19 2) (Number.ofNat 13);
   dayIn 9 (ratio 19 2) (Number.ofNat 11); dayIn 10 (ratio 19 2) (Number.ofNat 13)].

(** [runBacktest(signals, data, 1000, true, false, false, 0.1)] *)
Definition tenthIn : BacktesterOver.Config A :=
  BacktesterOver.mkConfig (Number.ofNat 1000) true false false (ratio 1 10).

(** Three longs at 10, entered on days 1, 3 and 5 and stopped at 9, 10
    and 9. *)
Definition threeStops : list (BacktesterOver.SignalData A) :=
  [candidateIn "A" 9 12 1; candidateIn "B" 10 12 3; candidateIn "C" 9 12 5].



End InArith.

End Examples.

(** ** Further notions *)

(** The first bar of a window that satisfies [ok] and has a successor,
    with that successor. *)
Fixpoint firstBreakout (ok : Bar -> bool) (bars : list Bar) : option (Bar * Bar) :=
  match bars with
  | triggerBar :: (entryBar :: _) as rest =>
      if ok triggerBar then Some (triggerBar, entryBar) else firstBreakout ok rest
  | _ => None
  end.

(** The largest index in [[lo, i]] that satisfies [ok]. *)
Fixpoint searchDown (ok : nat -> bool) (lo i : nat) : option nat :=
  if (i <? lo)%nat then None
  else if ok i then Some i
  else match i with O => None | S j => searchDown ok lo j end.

(** The fractal test and the pivot object of [findExitProjectionPivot] for
    a signal type. *)
Definition exitFractal (ty : PivotFinders.SignalType) : list Bar -> nat -> bool :=
  match ty with
  | PivotFinders.LONG => PivotFinders.isFractalLow3
  | PivotFinders.SHORT => PivotFinders.isFractalHigh3
  end.

Definition exitPivotOf (ty : PivotFinders.SignalType) (b : Bar) : Pivot :=
  match ty with
  | PivotFinders.LONG => lowPivot (date b) (low b)
  | PivotFinders.SHORT => highPivot (date b) (high b)
  end.

(** [j] is the last index of the window that satisfies [ok]. *)
Definition lastIndex (ok : nat -> bool) (j : nat) : Prop :=
  ok j = true /\ forall k, (j < k)%nat -> ok k = false.

(** The six exit reasons of [runBacktest]. *)
Definition exitReasons : list string :=
  ["Stop Loss Hit"; "Take Profit Hit"; "Group Liquidation";
   "Stop Loss Hit (Same Day)"; "Take Profit Hit (Same Day)"; "End of Test"].

(** A trade entered on [d] at the latest. *)
Definition enteredBy (d : Z) (o : Backtester.OriginalSignal) : Prop :=
  exists e, Backtester.origEntryDate o = Some e /\ (e <= d)%Z.

(** Open positions were entered by [bound]; logged trades exit no earlier
    than they were entered. *)
Definition chronological (bound : Z) (st : Backtester.State) : Prop :=
  Forall (fun position => enteredBy bound (Backtester.originalSignal position))
    (Backtester.openPositions st)
  /\ Forall (fun r => enteredBy (Backtester.exitDate r) (Backtester.origin r))
       (Backtester.tradeLog st).

(** No candidate enters on a bar of the series. *)
Definition noEntryOn (signals : list SignalData) (historicalData : list Bar) : Prop :=
  forall sd t bar,
    sd ∈ signals -> Backtester.chooseSignal sd = Some t -> bar ∈ historicalData ->
    entryDate (tradeSignal t) <> Some (date bar).

(** The stop a logged trade was entered with, read back from its record:
    the low of its low pivot for a long, the high of its high pivot for a
    short. *)
Definition originStop (o : Backtester.OriginalSignal) : option Q :=
  Backtester.stopLossOf (String.eqb (Backtester.type_ o) "Long")
    (Backtester.entryPivotHigh o) (Backtester.entryPivotLow o).

(** An open position carries the stop and the target of its record. *)
Definition tracked (position : Backtester.Position) : Prop :=
  originStop (Backtester.originalSignal position) = Some (Backtester.stopLoss position)
  /\ Backtester.origProjectedExit (Backtester.originalSignal position)
     = Backtester.takeProfit position.

(** What a trade record's exit reason says about its exit price. *)
Definition settled (historicalData : list Bar) (r : Backtester.TradeRecord) : Prop :=
  let reason := Backtester.exitReason (Backtester.result r) in
  let price := Backtester.exitPrice (Backtester.result r) in
  (reason ∈ ["Stop Loss Hit"; "Stop Loss Hit (Same Day)"]
   /\ originStop (Backtester.origin r) = Some price)
  \/ (reason ∈ ["Take Profit Hit"; "Take Profit Hit (Same Day)"]
      /\ price = Backtester.origProjectedExit (Backtester.origin r))
  \/ reason = "Group Liquidation"
  \/ (reason = "End of Test"
      /\ exists lastDay, last historicalData = Some lastDay
           /\ price = close lastDay /\ Backtester.exitDate r = date lastDay).

(** Open positions are tracked and logged trades are settled. *)
Definition accounted (historicalData : list Bar) (st : Backtester.State) : Prop :=
  Forall tracked (Backtester.openPositions st)
  /\ Forall (settled historicalData) (Backtester.tradeLog st).

(** The bar reaches the stop of an open position. *)
Definition breached (bar : Bar) (position : Backtester.Position) : bool :=
  if Backtester.posIsLong position
  then Qle_bool (low bar) (Backtester.stopLoss position)
  else Qle_bool (Backtester.stopLoss position) (high bar).

(** The stop of the first position of start point [g] that the bar
    breaches. *)
Definition groupStop (bar : Bar) (g : string) (positions : list Backtester.Position)
  : option Q :=
  Backtester.stopLoss
    <$> head (filter (fun position => Backtester.posStartPointName position = g
                                      /\ breached bar position = true) positions).

(** The record logged when [position] is closed on [bar] with result [r]. *)
Definition closedRecord (bar : Bar) (position : Backtester.Position)
  (r : Backtester.TradeResult) : Backtester.TradeRecord :=
  let p := Backtester.profitOf position (Backtester.exitPrice r) in
  Backtester.mkTradeRecord (Backtester.originalSignal position) r (date bar) p
    (p / Backtester.capitalAllocated position * 100).

(** The ghost replay's verdict on a realized profit. *)
Definition verdict (p : Q) : Backtester.Outcome :=
  if Qltb 0 p then Backtester.Win else Backtester.Loss.

(** The first exit that the position's own stop or target gives on the
    bars of a window. *)
Definition firstOwnExit (position : Backtester.Position) (tradeWindow : list Bar)
  : option Backtester.TradeResult :=
  head (omap (fun bar => Backtester.ownExit bar position) tradeWindow).

(** The bars of the series on the UTC day of [ed] all carry the timestamp
    [ed]: a series with one bar per day. *)
Definition aloneOnItsDay (ed : Z) (historicalData : list Bar) : Prop :=
  forall d, d ∈ historicalData ->
    TradeSimulator.utcDay (date d) = TradeSimulator.utcDay ed -> date d = ed.

(** At most [MAX_POSITIONS] positions, no two in one ticker. *)
Definition oneEach (positions : list PortfolioBacktest.Position) : Prop :=
  (length positions <= PortfolioBacktest.MAX_POSITIONS)%nat
  /\ NoDup (PortfolioBacktest.posTicker <$> positions).

(** A trade closed on a later day than its entry, or on its entry day. *)
Definition timed (t : PortfolioBacktest.Trade) : Prop :=
  (PortfolioBacktest.reason t ∈ ["Stop Loss"; "Take Profit"]
   /\ (PortfolioBacktest.tradeEntryDate t < PortfolioBacktest.exitDate t)%Z)
  \/ (PortfolioBacktest.reason t ∈ ["Stop Loss (Same Day)"; "Take Profit (Same Day)"]
      /\ PortfolioBacktest.tradeEntryDate t = PortfolioBacktest.exitDate t).

(** The state of the portfolio loop after the day [ts]. *)
Definition settledBy (ts : Z) (st : PortfolioBacktest.State) : Prop :=
  Forall (fun position => (PortfolioBacktest.posEntryDate position <= ts)%Z)
    (PortfolioBacktest.openPositions st)
  /\ Forall timed (PortfolioBacktest.tradeLog st)
  /\ Forall (fun point => (PortfolioBacktest.openPositionsCount point
                            <= PortfolioBacktest.MAX_POSITIONS)%nat)
       (PortfolioBacktest.portfolioHistory st)
  /\ oneEach (PortfolioBacktest.openPositions st).


(** ** Comparisons on rationals *)

Lemma Qltb_lt (a b : Q) : Qltb a b = true <-> a < b.
Proof.
  unfold Qltb. rewrite negb_true_iff. split.
  - intros H. apply Qnot_le_lt. intros Hle. apply Qle_bool_iff in Hle. congruence.
  - intros H. destruct (Qle_bool b a) eqn:E; [|reflexivity].
    apply Qle_bool_iff in E. exfalso. exact (Qlt_not_le _ _ H E).
Qed.

Lemma Qltb_ge (a b : Q) : Qltb a b = false <-> b <= a.
Proof.
  unfold Qltb. rewrite negb_false_iff. apply Qle_bool_iff.
Qed.

(** ** Loops as folds *)

Lemma foldl_preserves {A B : Type} (P : B -> Prop) (f : B -> A -> B) (l : list A) :
  (forall b a, P b -> P (f b a)) -> forall b, P b -> P (foldl f b l).
Proof.
  intros Hstep. induction l as [|a l IH]; simpl; auto.
Qed.

(** ** Sorting by date *)

Lemma insertByKey_perm {A : Type} (key : A -> Z) (x : A) (l : list A) :
  Backtester.insertByKey key x l ≡ₚ x :: l.
Proof.
  induction l as [|y l IH]; [reflexivity|].
  cbn [Backtester.insertByKey]. destruct (key x <=? key y)%Z; [reflexivity|].
  rewrite IH. apply Permutation_swap.
Qed.

Lemma sortByKey_perm {A : Type} (key : A -> Z) (l : list A) :
  Backtester.sortByKey key l ≡ₚ l.
Proof.
  induction l as [|x l IH]; [reflexivity|].
  change (Backtester.sortByKey key (x :: l))
    with (Backtester.insertByKey key x (Backtester.sortByKey key l)).
  now rewrite insertByKey_perm, IH.
Qed.

(** ** The capital ledger (C8) *)

Section Ledger.
Import BacktesterOver.
Context {A : Number.Arith}.
Variable cfg : Config A.

Lemma profitsAdded_snoc (c : Number.num A) (log : list (TradeRecord A)) (r : TradeRecord A) :
  profitsAdded c (log ++ [r]) = Number.add (profitsAdded c log) (profit r).
Proof.
  unfold profitsAdded. now rewrite foldl_app.
Qed.

Lemma realizeExit_balanced bar position r st :
  balanced cfg st -> balanced cfg (realizeExit cfg bar position r st).
Proof.
  unfold balanced, realizeExit. intros H.
  destruct (lossStreak cfg _ st) as [losses observing]. cbn [currentCapital tradeLog].
  rewrite profitsAdded_snoc. cbn [profit]. now rewrite H.
Qed.

Lemma exitStep_balanced bar origins st position :
  balanced cfg st -> balanced cfg (exitStep cfg bar origins st position).
Proof.
  unfold exitStep. destruct (exitDecision bar origins position).
  - apply realizeExit_balanced.
  - intros H; exact H.
Qed.

Lemma processExits_balanced bar st :
  balanced cfg st -> balanced cfg (processExits cfg bar st).
Proof.
  intros H. unfold processExits.
  apply foldl_preserves; [intros; now apply exitStep_balanced | exact H].
Qed.

Lemma enterPosition_balanced bar t st :
  balanced cfg st -> balanced cfg (enterPosition cfg bar t st).
Proof.
  intros H. unfold enterPosition.
  destruct (negb _ || negb _); [exact H|].
  destruct (stopLossOf _ _ _); [|exact H].
  destruct (projectedExit _); [|exact H].
  destruct (sameDayResult _ _ _ _); [now apply realizeExit_balanced | exact H].
Qed.

Lemma observe_balanced historicalData t st :
  balanced cfg st -> balanced cfg (observe historicalData t st).
Proof.
  intros H. unfold observe.
  destruct (getGhostTradeOutcome t historicalData) as [[|]|]; exact H.
Qed.

Lemma processEntries_balanced historicalData bar sigs :
  forall st, balanced cfg st -> balanced cfg (processEntries cfg historicalData bar sigs st).
Proof.
  induction sigs as [|t rest IH]; simpl; intros st H; [exact H|].
  destruct (atCap cfg st); [exact H|].
  destruct (preventOnLosses cfg && isObserving st); apply IH.
  - now apply observe_balanced.
  - now apply enterPosition_balanced.
Qed.

Lemma mainLoop_balanced signals historicalData bars :
  balanced cfg (mainLoop cfg signals historicalData bars).
Proof.
  unfold mainLoop. apply foldl_preserves.
  - intros st bar H. unfold processBar.
    now apply processEntries_balanced, processExits_balanced.
  - reflexivity.
Qed.

Lemma closeRemaining_balanced historicalData st :
  balanced cfg st -> balanced cfg (closeRemaining historicalData st).
Proof.
  intros H. unfold closeRemaining. destruct (last historicalData) as [lastDay|]; [|exact H].
  apply foldl_preserves; [|exact H].
  intros b position Hb. unfold balanced, closeAtEnd in *. cbn [currentCapital tradeLog].
  rewrite profitsAdded_snoc. cbn [profit]. now rewrite Hb.
Qed.

(** Without rounding the order of the additions does not matter. *)
Lemma profitsAdded_from (E : Number.Exact A) (log : list (TradeRecord A)) :
  forall c, profitsAdded c log = Number.add c (profitsAdded (Number.ofNat 0) log).
Proof.
  induction log as [|t log IH]; intros c.
  - cbn. now rewrite (Number.add_comm A E), (Number.add_zero A E).
  - change (profitsAdded c (t :: log)) with (profitsAdded (Number.add c (profit t)) log).
    change (profitsAdded (Number.ofNat 0) (t :: log))
      with (profitsAdded (Number.add (Number.ofNat 0) (profit t)) log).
    rewrite (Number.add_zero A E), (IH (Number.add c (profit t))), (IH (profit t)).
    apply (Number.add_assoc A E).
Qed.

Lemma profitsAdded_perm (E : Number.Exact A) (log log' : list (TradeRecord A)) :
  log ≡ₚ log' -> forall c, profitsAdded c log = profitsAdded c log'.
Proof.
  induction 1 as [|t l l' _ IH|t u l|l l' l'' _ IH1 _ IH2]; intros c.
  - reflexivity.
  - apply IH.
  - cbn. f_equal.
    rewrite !(Number.add_assoc A E). f_equal. apply (Number.add_comm A E).
  - now rewrite IH1.
Qed.

End Ledger.

Lemma real_exact : Number.Exact Number.real.
Proof.
  split; cbn; intros; lra.
Qed.

(** C8.  In whatever arithmetic the simulator runs, the capital is, after
    every bar and when the run is over, the initial capital with the profit
    of every record logged so far added to it, one after another in the
    order in which the records were pushed: every change of the capital
    comes with exactly one record carrying that profit, for ordinary and
    group exits, same-bar exits and the forced closes at the end of the
    series.  The returned log is that list sorted by entry date, and
    [totalProfit] is [finalCapital - initialCapital] as the code subtracts
    it.  In an arithmetic that does not round, the profits of the returned
    log therefore sum to [totalProfit]. *)
Theorem final_capital_adds_each_logged_profit (A : Number.Arith)
  (signals : list (BacktesterOver.SignalData A)) (historicalData : list (BacktesterOver.Bar A))
  (cfg : BacktesterOver.Config A) :
  (forall k : nat,
     balanced cfg (BacktesterOver.mainLoop cfg signals historicalData (take k historicalData)))
  /\ fst (BacktesterOver.runBacktest signals historicalData cfg)
     = Backtester.sortByKey BacktesterOver.recordEntryTime
         (BacktesterOver.tradeLog (BacktesterOver.finalState signals historicalData cfg))
  /\ BacktesterOver.finalCapital (snd (BacktesterOver.runBacktest signals historicalData cfg))
     = profitsAdded (BacktesterOver.initialCapital cfg)
         (BacktesterOver.tradeLog (BacktesterOver.finalState signals historicalData cfg))
  /\ BacktesterOver.totalProfit (snd (BacktesterOver.runBacktest signals historicalData cfg))
     = Number.sub
         (BacktesterOver.finalCapital (snd (BacktesterOver.runBacktest signals historicalData cfg)))
         (BacktesterOver.initialCapital cfg)
  /\ (Number.Exact A ->
      profitsAdded (Number.ofNat 0) (fst (BacktesterOver.runBacktest signals historicalData cfg))
      = BacktesterOver.totalProfit (snd (BacktesterOver.runBacktest signals historicalData cfg))).
Proof.
  pose proof (closeRemaining_balanced cfg historicalData _
                (mainLoop_balanced cfg signals historicalData historicalData)) as H.
  split; [intros k; apply mainLoop_balanced|].
  split; [reflexivity|]. split; [exact H|]. split; [reflexivity|].
  intros E. unfold BacktesterOver.runBacktest. cbn [fst snd BacktesterOver.totalProfit].
  fold (BacktesterOver.finalState signals historicalData cfg) in H. unfold balanced in H.
  rewrite (profitsAdded_perm E _ _ (sortByKey_perm _ _)), H,
    (profitsAdded_from E _ (BacktesterOver.initialCapital cfg)).
  symmetry. apply (Number.sub_add A E).
Qed.

(** The theorem at work: on doubles the capital after the three stopped
    trades of the example is 1000 with their profits added in turn, and on
    exact reals their profits sum to [totalProfit]. *)
Lemma final_capital_adds_each_logged_profit_witness :
  BacktesterOver.finalCapital
    (snd (BacktesterOver.runBacktest (A := Number.binary64)
            Examples.threeStops Examples.tenDaysIn Examples.tenthIn))
  = profitsAdded (A := Number.binary64) 1000%float
      (BacktesterOver.tradeLog
         (BacktesterOver.finalState Examples.threeStops Examples.tenDaysIn Examples.tenthIn))
  /\ profitsAdded (A := Number.real) (Number.ofNat 0)
       (fst (BacktesterOver.runBacktest Examples.threeStops Examples.tenDaysIn
               Examples.tenthIn))
     = BacktesterOver.totalProfit
         (snd (BacktesterOver.runBacktest (A := Number.real)
                 Examples.threeStops Examples.tenDaysIn Examples.tenthIn)).
Proof.
  split.
  - exact (proj1 (proj2 (proj2 (final_capital_adds_each_logged_profit Number.binary64
                                  Examples.threeStops Examples.tenDaysIn Examples.tenthIn)))).
  - exact (proj2 (proj2 (proj2 (proj2 (final_capital_adds_each_logged_profit Number.real
                                         Examples.threeStops Examples.tenDaysIn
                                         Examples.tenthIn))))
             real_exact).
Defined.

(** C8, the claim as stated fails, in the program's own arithmetic
    (doubles), where the additions round.  With a capital of 1000 and a
    position size of 0.1, three longs stopped out lose 10, 0 and (a little
    more than) 9.9, and [totalProfit] comes out as -19.899999999999977:
    that is not what the logged profits sum to as doubles, in either order
    of summation, and it is 13 / 2^49 above their exact sum. *)
Lemma rounded_profits_miss_capital_change :
  (BacktesterOver.exitReason ∘ BacktesterOver.result
   <$> fst (BacktesterOver.runBacktest (A := Number.binary64)
              Examples.threeStops Examples.tenDaysIn Examples.tenthIn)
   = ["Stop Loss Hit"; "Stop Loss Hit (Same Day)"; "Stop Loss Hit"])
  /\ PrimFloat.eqb
       (profitsAdded (A := Number.binary64) (Number.ofNat 0)
          (fst (BacktesterOver.runBacktest Examples.threeStops Examples.tenDaysIn
                  Examples.tenthIn)))
       (BacktesterOver.totalProfit
          (snd (BacktesterOver.runBacktest (A := Number.binary64)
                  Examples.threeStops Examples.tenDaysIn Examples.tenthIn))) = false
  /\ PrimFloat.eqb
       (foldr (fun (t : BacktesterOver.TradeRecord Number.binary64) s =>
                 PrimFloat.add (BacktesterOver.profit t) s) 0%float
          (fst (BacktesterOver.runBacktest Examples.threeStops Examples.tenDaysIn
                  Examples.tenthIn)))
       (BacktesterOver.totalProfit
          (snd (BacktesterOver.runBacktest (A := Number.binary64)
                  Examples.threeStops Examples.tenDaysIn Examples.tenthIn))) = false
  /\ exists p1 p2 p3 total : Q,
       (fun t : BacktesterOver.TradeRecord Number.binary64 =>
          Number.exact64 (BacktesterOver.profit t))
       <$> fst (BacktesterOver.runBacktest Examples.threeStops Examples.tenDaysIn
                  Examples.tenthIn)
       = [Some p1; Some p2; Some p3]
       /\ Number.exact64
            (BacktesterOver.totalProfit
               (snd (BacktesterOver.runBacktest (A := Number.binary64)
                       Examples.threeStops Examples.tenDaysIn Examples.tenthIn)))
          = Some total
       /\ p1 == -10 /\ p2 == 0 /\ p3 < - (99 # 10)
       /\ total - (p1 + p2 + p3) == 13 # 562949953421312.
Proof.
  split; [vm_compute; reflexivity|]. split; [vm_compute; reflexivity|].
  split; [vm_compute; reflexivity|].
  eexists _, _, _, _. split; [vm_compute; reflexivity|]. split; [vm_compute; reflexivity|].
  repeat split; vm_compute; reflexivity.
Qed.

(** ** The cap on open positions (C7) *)

Section Cap.
Import Backtester.
Variable cfg : Config.
Hypothesis positive_size : 0 < positionSize cfg.












End Cap.


(** ** Realized exits and the loss streak (C4) *)

Section Streak.
Import Backtester.
Variable cfg : Config.

Lemma realizeExit_streak bar position r st :
  streakUpdated cfg (profitOf position (exitPrice r)) st (realizeExit cfg bar position r st).
Proof.
  unfold streakUpdated, realizeExit, lossStreak.
  destruct (Qltb (profitOf position (exitPrice r)) 0) eqn:E; simpl.
  - apply Qltb_lt in E. repeat split.
    + intros Hle. exfalso. exact (Qlt_not_le _ _ E Hle).
    + intros Hp Hge. rewrite Hp. simpl.
      destruct (consecutiveLosses st) as [|m]; [lia|reflexivity].
  - apply Qltb_ge in E. repeat split.
    + intros Hlt. exfalso. exact (Qlt_not_le _ _ Hlt E).
    + intros _ Hge. lia.
Qed.

End Streak.

(** C4 (as amended).  Whenever the simulator realizes an exit -- an open
    position stopped, at target or group-liquidated in the exit pass, or a
    new position closed on its entry bar -- the loss streak is incremented
    when the realized profit is negative and reset to 0 when it is zero or
    positive; with [preventOnLosses], a streak of 2 or more switches
    [isObserving] on. *)
Theorem loss_streak_follows_realized_profit
  (cfg : Backtester.Config) (bar : Bar) (st : Backtester.State) :
  (forall origins position r,
      Backtester.exitDecision bar origins position = Some r ->
      streakUpdated cfg (Backtester.profitOf position (Backtester.exitPrice r)) st
        (Backtester.exitStep cfg bar origins st position))
  /\ (forall t sl pe r,
      Backtester.stopLossOf (isLong t) (pivotHigh (signalData t)) (pivotLow (signalData t))
        = Some sl ->
      projectedExit (tradeSignal t) = Some pe ->
      ~ sl == 0 -> ~ pe == 0 ->
      Backtester.sameDayResult bar (isLong t) sl pe = Some r ->
      streakUpdated cfg
        (Backtester.profitOf (Backtester.newPosition cfg st t sl pe) (Backtester.exitPrice r))
        st (Backtester.enterPosition cfg bar t st)).
Proof.
  split.
  - intros origins position r H. unfold Backtester.exitStep. rewrite H.
    apply realizeExit_streak.
  - intros t sl pe r Hsl Hpe Hsl0 Hpe0 H. unfold Backtester.enterPosition.
    rewrite Hsl, Hpe. simpl.
    destruct (Qeq_bool sl 0) eqn:E1; [apply Qeq_bool_iff in E1; contradiction|].
    destruct (Qeq_bool pe 0) eqn:E2; [apply Qeq_bool_iff in E2; contradiction|].
    simpl. rewrite H. apply realizeExit_streak.
Qed.

(** A run of the exit pass that realizes a stop at a loss. *)
Lemma loss_streak_follows_realized_profit_witness :
  streakUpdated Examples.tenth
    (Backtester.profitOf (Backtester.newPosition Examples.tenth Examples.oneLoss
                            (Examples.longTrade (19 # 2)) (19 # 2) 12) (19 # 2))
    Examples.oneLoss
    (Backtester.exitStep Examples.tenth Examples.dipDay ∅ Examples.oneLoss
       (Backtester.newPosition Examples.tenth Examples.oneLoss
          (Examples.longTrade (19 # 2)) (19 # 2) 12)).
Proof.
  exact (proj1 (loss_streak_follows_realized_profit Examples.tenth Examples.dipDay
                  Examples.oneLoss)
           ∅ (Backtester.newPosition Examples.tenth Examples.oneLoss
                (Examples.longTrade (19 # 2)) (19 # 2) 12)
           (Backtester.mkTradeResult (19 # 2) "Stop Loss Hit") eq_refl).
Defined.

(** C4, the claim as stated fails: a stop at the entry price realizes a
    profit of 0, which is non-positive, and the streak goes from 1 to 0
    instead of 2; [isObserving] stays off.  In a run with [preventOnLosses],
    the candidate that follows a loss and a break-even exit is therefore
    taken (and stopped on day 6), not replayed as a ghost. *)
Lemma break_even_exit_resets_streak :
  Backtester.exitDecision Examples.dipDay ∅ Examples.breakEven
    = Some (Backtester.mkTradeResult 10 "Stop Loss Hit")
  /\ Backtester.profitOf Examples.breakEven 10 <= 0
  /\ Backtester.consecutiveLosses Examples.oneLoss = 1%nat
  /\ Backtester.consecutiveLosses
       (Backtester.exitStep Examples.tenth Examples.dipDay ∅ Examples.oneLoss
          Examples.breakEven) = 0%nat
  /\ Backtester.isObserving
       (Backtester.exitStep Examples.tenth Examples.dipDay ∅ Examples.oneLoss
          Examples.breakEven) = false
  /\ Examples.outcomes
       (Backtester.runBacktest
          [Examples.candidate "A" 9 12 1; Examples.candidate "B" 10 12 3;
           Examples.candidate "C" 9 12 5]
          Examples.tenDays Examples.tenth)
     = [("Stop Loss Hit", 9, 2%Z, -10); ("Stop Loss Hit (Same Day)", 10, 3%Z, 0);
        ("Stop Loss Hit", 9, 6%Z, - (99 # 10))].
Proof.
  repeat split; vm_compute; congruence.
Qed.

(** ** Observing mode (C5) *)

(** C5.  With [preventOnLosses] on and [isObserving] true, a candidate that
    comes up in the entry loop is only replayed as a ghost: unless the cap
    stops the loop, the loop goes on from the state left by the replay,
    whose open positions, capital and trade log are those of the state
    before; a winning replay clears [isObserving] and the loss streak (the
    trade itself is not taken), any other outcome leaves the state as it
    was. *)
Theorem observing_candidate_is_only_replayed
  (cfg : Backtester.Config) (historicalData : list Bar) (bar : Bar)
  (t : PotentialTrade) (rest : list PotentialTrade) (st : Backtester.State) :
  Backtester.preventOnLosses cfg = true ->
  Backtester.isObserving st = true ->
  Backtester.processEntries cfg historicalData bar (t :: rest) st
  = (if Backtester.atCap cfg st then st
     else Backtester.processEntries cfg historicalData bar rest
            (Backtester.observe historicalData t st))
  /\ Backtester.openPositions (Backtester.observe historicalData t st)
     = Backtester.openPositions st
  /\ Backtester.currentCapital (Backtester.observe historicalData t st)
     = Backtester.currentCapital st
  /\ Backtester.tradeLog (Backtester.observe historicalData t st) = Backtester.tradeLog st
  /\ (Backtester.getGhostTradeOutcome t historicalData = Some Backtester.Win ->
      Backtester.isObserving (Backtester.observe historicalData t st) = false
      /\ Backtester.consecutiveLosses (Backtester.observe historicalData t st) = O)
  /\ (Backtester.getGhostTradeOutcome t historicalData <> Some Backtester.Win ->
      Backtester.observe historicalData t st = st).
Proof.
  intros Hp Ho. split.
  - simpl. rewrite Hp, Ho. reflexivity.
  - unfold Backtester.observe.
    destruct (Backtester.getGhostTradeOutcome t historicalData) as [[|]|]; simpl;
      repeat split; try reflexivity; try discriminate; intros H; congruence.
Qed.

(** A winning replay while observing: the streak of 2 is cleared, nothing is
    opened. *)
Lemma observing_candidate_is_only_replayed_witness :
  Backtester.getGhostTradeOutcome (Examples.longTrade 9)
    [Examples.quietDay; Examples.rallyDay] = Some Backtester.Win
  /\ Backtester.processEntries Examples.tenth [Examples.quietDay; Examples.rallyDay]
       Examples.quietDay [Examples.longTrade 9] Examples.observing
     = Backtester.mkState 1000 0 false [] [].
Proof.
  split; [reflexivity|].
  exact (proj1 (observing_candidate_is_only_replayed Examples.tenth
                  [Examples.quietDay; Examples.rallyDay] Examples.quietDay
                  (Examples.longTrade 9) [] Examples.observing eq_refl eq_refl)).
Defined.

(** ** Same-bar exits (C6) *)

Section SameBar.
Import Backtester.

Lemma truthy_nonzero (q : Q) : ~ q == 0 -> truthy (Some q) = true.
Proof.
  intros H. simpl. destruct (Qeq_bool q 0) eqn:E; [|reflexivity].
  apply Qeq_bool_iff in E. contradiction.
Qed.

Lemma sameDayResult_stop bar isLong sl pe :
  touchesStop bar isLong sl ->
  sameDayResult bar isLong sl pe = Some (mkTradeResult sl "Stop Loss Hit (Same Day)").
Proof.
  unfold touchesStop, sameDayResult. destruct isLong; intros H;
    apply Qle_bool_iff in H; rewrite H; reflexivity.
Qed.

Lemma sameDayResult_target bar isLong sl pe :
  ~ touchesStop bar isLong sl -> touchesTarget bar isLong pe ->
  sameDayResult bar isLong sl pe = Some (mkTradeResult pe "Take Profit Hit (Same Day)").
Proof.
  unfold touchesStop, touchesTarget, sameDayResult. destruct isLong; intros Hs Ht;
    apply Qle_bool_iff in Ht; rewrite Ht.
  - destruct (Qle_bool (low bar) sl) eqn:E; [apply Qle_bool_iff in E; contradiction|].
    reflexivity.
  - destruct (Qle_bool sl (high bar)) eqn:E; [apply Qle_bool_iff in E; contradiction|].
    reflexivity.
Qed.

Lemma sameDayResult_none bar isLong sl pe :
  ~ touchesStop bar isLong sl -> ~ touchesTarget bar isLong pe ->
  sameDayResult bar isLong sl pe = None.
Proof.
  unfold touchesStop, touchesTarget, sameDayResult. destruct isLong; intros Hs Ht.
  - destruct (Qle_bool (low bar) sl) eqn:E; [apply Qle_bool_iff in E; contradiction|].
    destruct (Qle_bool pe (high bar)) eqn:E'; [apply Qle_bool_iff in E'; contradiction|].
    reflexivity.
  - destruct (Qle_bool sl (high bar)) eqn:E; [apply Qle_bool_iff in E; contradiction|].
    destruct (Qle_bool (low bar) pe) eqn:E'; [apply Qle_bool_iff in E'; contradiction|].
    reflexivity.
Qed.

Lemma realizeExit_logged cfg bar position r st :
  loggedSameBar bar (exitPrice r) (exitReason r) st (realizeExit cfg bar position r st).
Proof.
  unfold loggedSameBar, realizeExit. destruct (lossStreak _ _ _). simpl.
  split; [reflexivity|]. eexists. split; [reflexivity|]. simpl. auto.
Qed.

Lemma enterPosition_priced cfg bar t st sl pe :
  stopLossOf (isLong t) (pivotHigh (signalData t)) (pivotLow (signalData t)) = Some sl ->
  projectedExit (tradeSignal t) = Some pe ->
  ~ sl == 0 -> ~ pe == 0 ->
  enterPosition cfg bar t st
  = match sameDayResult bar (isLong t) sl pe with
    | Some r => realizeExit cfg bar (newPosition cfg st t sl pe) r st
    | None =>
        mkState (currentCapital st) (consecutiveLosses st) (isObserving st)
          (openPositions st ++ [newPosition cfg st t sl pe]) (tradeLog st)
    end.
Proof.
  intros Hsl Hpe Hsl0 Hpe0. unfold enterPosition.
  rewrite Hsl, Hpe, (truthy_nonzero sl Hsl0), (truthy_nonzero pe Hpe0). reflexivity.
Qed.

End SameBar.

(** C6.  A candidate that is accepted (the cap is not reached, the simulator
    is not observing, stop and projected exit are present and non-zero) goes
    through [enterPosition], which checks the entry bar itself: when the bar
    touches the stop the trade is logged on that bar at the stop price as
    "Stop Loss Hit (Same Day)", whether or not the target is touched too;
    when it touches only the target it is logged at the target as
    "Take Profit Hit (Same Day)"; in both cases [openPositions] is unchanged;
    otherwise the new position is appended to [openPositions] and nothing is
    logged. *)
Theorem entry_bar_is_checked_at_once
  (cfg : Backtester.Config) (historicalData : list Bar) (bar : Bar)
  (t : PotentialTrade) (rest : list PotentialTrade) (st : Backtester.State) (sl pe : Q) :
  Backtester.atCap cfg st = false ->
  Backtester.preventOnLosses cfg && Backtester.isObserving st = false ->
  Backtester.stopLossOf (isLong t) (pivotHigh (signalData t)) (pivotLow (signalData t))
    = Some sl ->
  projectedExit (tradeSignal t) = Some pe ->
  ~ sl == 0 -> ~ pe == 0 ->
  Backtester.processEntries cfg historicalData bar (t :: rest) st
  = Backtester.processEntries cfg historicalData bar rest
      (Backtester.enterPosition cfg bar t st)
  /\ (touchesStop bar (isLong t) sl ->
      loggedSameBar bar sl "Stop Loss Hit (Same Day)" st
        (Backtester.enterPosition cfg bar t st))
  /\ (~ touchesStop bar (isLong t) sl -> touchesTarget bar (isLong t) pe ->
      loggedSameBar bar pe "Take Profit Hit (Same Day)" st
        (Backtester.enterPosition cfg bar t st))
  /\ (~ touchesStop bar (isLong t) sl -> ~ touchesTarget bar (isLong t) pe ->
      Backtester.openPositions (Backtester.enterPosition cfg bar t st)
      = Backtester.openPositions st ++ [Backtester.newPosition cfg st t sl pe]
      /\ Backtester.tradeLog (Backtester.enterPosition cfg bar t st)
         = Backtester.tradeLog st
      /\ Backtester.currentCapital (Backtester.enterPosition cfg bar t st)
         = Backtester.currentCapital st).
Proof.
  intros Hcap Hobs Hsl Hpe Hsl0 Hpe0.
  rewrite (enterPosition_priced cfg bar t st sl pe Hsl Hpe Hsl0 Hpe0).
  split; [|split; [|split]].
  - simpl. rewrite Hcap, Hobs.
    rewrite (enterPosition_priced cfg bar t st sl pe Hsl Hpe Hsl0 Hpe0). reflexivity.
  - intros Hs. rewrite (sameDayResult_stop _ _ _ pe Hs).
    apply (realizeExit_logged cfg bar _ (Backtester.mkTradeResult sl _) st).
  - intros Hs Ht. rewrite (sameDayResult_target _ _ _ _ Hs Ht).
    apply (realizeExit_logged cfg bar _ (Backtester.mkTradeResult pe _) st).
  - intros Hs Ht. rewrite (sameDayResult_none _ _ _ _ Hs Ht). simpl. auto.
Qed.

Lemma entry_bar_is_checked_at_once_witness :
  touchesStop Examples.wideDay true 9
  /\ touchesTarget Examples.wideDay true 12
  /\ loggedSameBar Examples.wideDay 9 "Stop Loss Hit (Same Day)" Examples.fresh
       (Backtester.enterPosition Examples.tenth Examples.wideDay (Examples.longTrade 9)
          Examples.fresh).
Proof.
  assert (Hs : touchesStop Examples.wideDay true 9) by (vm_compute; discriminate).
  assert (Ht : touchesTarget Examples.wideDay true 12) by (vm_compute; discriminate).
  assert (H9 : ~ 9 == 0) by (vm_compute; discriminate).
  assert (H12 : ~ 12 == 0) by (vm_compute; discriminate).
  split; [exact Hs|]. split; [exact Ht|].
  exact (proj1 (proj2 (entry_bar_is_checked_at_once Examples.tenth
                         [Examples.wideDay] Examples.wideDay (Examples.longTrade 9) []
                         Examples.fresh 9 12 eq_refl eq_refl eq_refl eq_refl H9 H12)) Hs).
Defined.

(** ** One trade per candidate record (C10) *)

Section Counting.

Context {A : Type}.

Lemma count_app (p : A -> bool) (l k : list A) :
  count p (l ++ k) = (count p l + count p k)%nat.
Proof. induction l as [|x l IH]; simpl; [reflexivity|]. rewrite IH. lia. Qed.

Lemma count_le_length (p : A -> bool) (l : list A) : (count p l <= length l)%nat.
Proof. induction l as [|x l IH]; simpl; [lia|]. destruct (p x); lia. Qed.

Lemma count_all (l : list A) : count (fun _ => true) l = length l.
Proof. induction l as [|x l IH]; simpl; [reflexivity|]. now rewrite IH. Qed.

Lemma count_take (p : A -> bool) (n : nat) (l : list A) :
  (count p (take n l) <= count p l)%nat.
Proof.
  revert n. induction l as [|x l IH]; intros [|n]; simpl; try lia.
  specialize (IH n). lia.
Qed.

Lemma count_insertByKey (p : A -> bool) (key : A -> Z) (x : A) (l : list A) :
  count p (Backtester.insertByKey key x l) = ((if p x then 1 else 0) + count p l)%nat.
Proof.
  induction l as [|y l IH]; simpl; [reflexivity|].
  destruct (key x <=? key y)%Z; simpl; [reflexivity|]. rewrite IH. lia.
Qed.

Lemma count_sortByKey (p : A -> bool) (key : A -> Z) (l : list A) :
  count p (Backtester.sortByKey key l) = count p l.
Proof.
  induction l as [|x l IH]; [reflexivity|].
  change (Backtester.sortByKey key (x :: l))
    with (Backtester.insertByKey key x (Backtester.sortByKey key l)).
  rewrite count_insertByKey, IH. reflexivity.
Qed.

Lemma count_filter (p q : A -> bool) (l : list A) :
  count p (filter (fun x => q x = true) l) = count (fun x => q x && p x) l.
Proof.
  induction l as [|x l IH]; [reflexivity|].
  rewrite filter_cons. simpl. destruct (decide (q x = true)) as [E|E].
  - rewrite E. simpl. now rewrite IH.
  - apply not_true_is_false in E. rewrite E. simpl. exact IH.
Qed.

Lemma count_omap {B : Type} (p : B -> bool) (f : A -> option B) (l : list A) :
  count p (omap f l) = count (fun x => match f x with Some y => p y | None => false end) l.
Proof.
  unfold omap. induction l as [|x l IH]; simpl; [reflexivity|].
  destruct (f x); simpl; now rewrite IH.
Qed.

Lemma one_key_at_most (k : Z) (keys : list Z) :
  NoDup keys ->
  (sum_list_with (fun k' => if decide (k = k') then 1 else 0) keys <= 1)%nat.
Proof.
  induction 1 as [|k' keys Hnotin Hnd IH]; simpl; [lia|].
  destruct (decide (k = k')) as [->|Hne]; [|lia].
  assert (sum_list_with (fun k'0 => if decide (k' = k'0) then 1 else 0) keys = 0)%nat
    as ->; [|lia].
  clear IH Hnd. induction keys as [|a keys IH]; simpl; [reflexivity|].
  rewrite not_elem_of_cons in Hnotin. destruct Hnotin as [Hne Hnotin].
  destruct (decide (k' = a)); [contradiction|]. now apply IH.
Qed.

(** Groups under distinct keys do not share elements. *)
Lemma groups_within_list (p : A -> bool) (key : A -> Z) (l : list A) (keys : list Z) :
  NoDup keys ->
  (sum_list_with (fun k => count p (filter (fun t => key t = k) l)) keys <= count p l)%nat.
Proof.
  intros Hnd. induction l as [|x l IH]; simpl.
  - clear Hnd. induction keys as [|k keys IHk]; simpl; [lia|exact IHk].
  - assert (forall ks : list Z,
               sum_list_with (fun k => count p (filter (fun t => key t = k) (x :: l))) ks
               = (if p x then 1 else 0)
                 * sum_list_with (fun k => if decide (key x = k) then 1 else 0) ks
                 + sum_list_with (fun k => count p (filter (fun t => key t = k) l)) ks)%nat
      as ->.
    { induction ks as [|k ks IHk]; simpl; [lia|].
      rewrite IHk, filter_cons. destruct (decide (key x = k)); simpl; destruct (p x); lia. }
    pose proof (one_key_at_most (key x) keys Hnd). destruct (p x); lia.
Qed.

End Counting.

Section Grouping.
Import Backtester.
Variable p : OriginalSignal -> bool.

Lemma allPotentialTrades_count (signals : list SignalData) :
  count (originMatches p) (allPotentialTrades signals) = count (candidateMatches p) signals.
Proof.
  unfold allPotentialTrades.
  rewrite count_sortByKey, (count_filter (originMatches p) hasEntryDate), count_omap.
  reflexivity.
Qed.

(** What the grouping holds under a timestamp: the trades with that entry
    time, in the order of the sorted list. *)
Lemma pushed_lookup (trades : list PotentialTrade) (k : Z) :
  forall m : gmap Z (list PotentialTrade),
    default [] (foldl pushTrade m trades !! k)
    = default [] (m !! k) ++ filter (fun t => entryTime t = k) trades.
Proof.
  induction trades as [|t trades IH]; intros m; simpl.
  - now rewrite app_nil_r.
  - rewrite IH. unfold pushTrade at 1. rewrite filter_cons.
    destruct (decide (entryTime t = k)) as [->|Hne].
    + rewrite lookup_insert_eq. simpl. now rewrite <- app_assoc.
    + rewrite lookup_insert_ne by exact Hne. reflexivity.
Qed.

Lemma group_lookup (signals : list SignalData) (k : Z) :
  default [] (groupSignalsByEntryBar signals !! k)
  = filter (fun t => entryTime t = k) (allPotentialTrades signals).
Proof.
  unfold groupSignalsByEntryBar. rewrite pushed_lookup. now rewrite lookup_empty.
Qed.

Lemma realizeExit_tradesWith cfg bar position r st :
  tradesWith p (realizeExit cfg bar position r st)
  = (tradesWith p st + (if p (originalSignal position) then 1 else 0))%nat.
Proof.
  unfold tradesWith, realizeExit. destruct (lossStreak _ _ _). simpl.
  rewrite count_app. simpl. lia.
Qed.

Lemma exitStep_tradesWith cfg bar origins st position :
  tradesWith p (exitStep cfg bar origins st position)
  = (tradesWith p st + (if p (originalSignal position) then 1 else 0))%nat.
Proof.
  unfold exitStep. destruct (exitDecision bar origins position).
  - apply realizeExit_tradesWith.
  - unfold tradesWith. simpl. rewrite count_app. simpl. lia.
Qed.

(** The exit pass turns positions into records: it creates no trade. *)
Lemma processExits_tradesWith cfg bar st :
  tradesWith p (processExits cfg bar st) = tradesWith p st.
Proof.
  unfold processExits.
  assert (forall positions acc,
             tradesWith p (foldl (exitStep cfg bar (originsToLiquidate cfg bar st))
                             acc positions)
             = tradesWith p acc
               + count (fun position => p (originalSignal position)) positions)%nat as H.
  { induction positions as [|q positions IH]; simpl; intros acc; [lia|].
    rewrite IH, exitStep_tradesWith. lia. }
  rewrite H. unfold tradesWith. simpl. lia.
Qed.

Lemma enterPosition_tradesWith cfg bar t st :
  (tradesWith p (enterPosition cfg bar t st)
   <= tradesWith p st + (if originMatches p t then 1 else 0))%nat.
Proof.
  unfold enterPosition, originMatches.
  destruct (negb _ || negb _); [lia|].
  destruct (stopLossOf _ _ _) as [sl|]; [|lia].
  destruct (projectedExit (tradeSignal t)) as [pe|]; [|lia].
  destruct (sameDayResult _ _ _ _).
  - rewrite realizeExit_tradesWith. simpl. lia.
  - unfold tradesWith. simpl. rewrite count_app. simpl. lia.
Qed.

Lemma processEntries_tradesWith cfg historicalData bar sigs :
  forall st,
    (tradesWith p (processEntries cfg historicalData bar sigs st)
     <= tradesWith p st + count (originMatches p) sigs)%nat.
Proof.
  induction sigs as [|t rest IH]; simpl; intros st; [lia|].
  destruct (atCap cfg st); [lia|].
  destruct (preventOnLosses cfg && isObserving st).
  - etransitivity; [apply IH|]. unfold tradesWith, observe.
    destruct (getGhostTradeOutcome t historicalData) as [[|]|]; simpl; lia.
  - etransitivity; [apply IH|].
    pose proof (enterPosition_tradesWith cfg bar t st). lia.
Qed.

Lemma signalsToProcess_count cfg (q : PotentialTrade -> bool) m bar :
  (count q (signalsToProcess cfg m bar) <= count q (default [] (m !! date bar)))%nat.
Proof.
  unfold signalsToProcess. destruct (allowSingleTradePerBar cfg && _); [|lia].
  apply count_take.
Qed.

Lemma mainLoop_tradesWith cfg signals historicalData bars :
  (tradesWith p (mainLoop cfg signals historicalData bars)
   <= sum_list_with
        (fun k => count (originMatches p)
                    (filter (fun t => entryTime t = k) (allPotentialTrades signals)))
        (date <$> bars))%nat.
Proof.
  unfold mainLoop.
  assert (forall st,
             tradesWith p (foldl (processBar cfg historicalData
                                    (groupSignalsByEntryBar signals)) st bars)
             <= tradesWith p st
                + sum_list_with
                    (fun k => count (originMatches p)
                                (filter (fun t => entryTime t = k)
                                   (allPotentialTrades signals)))
                    (date <$> bars))%nat as H.
  { induction bars as [|bar bars IH]; csimpl; intros st; [lia|].
    etransitivity; [apply IH|]. unfold processBar.
    pose proof (processEntries_tradesWith cfg historicalData bar
                  (signalsToProcess cfg (groupSignalsByEntryBar signals) bar)
                  (processExits cfg bar st)) as H1.
    pose proof (signalsToProcess_count cfg (originMatches p)
                  (groupSignalsByEntryBar signals) bar) as H2.
    rewrite group_lookup in H2. rewrite processExits_tradesWith in H1. lia. }
  specialize (H (initialState cfg)). unfold tradesWith at 2 in H. simpl in H. exact H.
Qed.

Lemma closeRemaining_log historicalData st :
  (count (fun r => p (origin r)) (tradeLog (closeRemaining historicalData st))
   <= tradesWith p st)%nat.
Proof.
  unfold closeRemaining, tradesWith. destruct (last historicalData) as [lastDay|]; [|lia].
  assert (forall positions acc,
             count (fun r => p (origin r)) (tradeLog (foldl (closeAtEnd lastDay) acc positions))
             = count (fun r => p (origin r)) (tradeLog acc)
               + count (fun position => p (originalSignal position)) positions)%nat as H.
  { induction positions as [|q positions IH]; simpl; intros acc; [lia|].
    rewrite IH. unfold closeAtEnd. simpl. rewrite count_app. simpl. lia. }
  rewrite H. lia.
Qed.

Lemma log_within_candidates cfg signals historicalData :
  NoDup (date <$> historicalData) ->
  (count (fun r => p (origin r)) (fst (runBacktest signals historicalData cfg))
   <= count (candidateMatches p) signals)%nat.
Proof.
  intros Hnd. unfold runBacktest. simpl. rewrite count_sortByKey.
  etransitivity; [apply closeRemaining_log|].
  etransitivity; [apply mainLoop_tradesWith|].
  etransitivity; [apply groups_within_list; exact Hnd|].
  now rewrite allPotentialTrades_count.
Qed.

End Grouping.

Section Ignored.
Import Backtester.

Lemma withoutEntry_dropped sd :
  withoutEntry sd ->
  filter (fun t => hasEntryDate t = true) (omap chooseSignal [sd]) = [].
Proof.
  intros [H|[t [H Ht]]]; simpl; rewrite H; [reflexivity|].
  rewrite filter_cons. unfold hasEntryDate. rewrite Ht.
  destruct (decide (false = true)); [discriminate|reflexivity].
Qed.

Lemma withoutEntry_ignored before sd after :
  withoutEntry sd ->
  allPotentialTrades (before ++ sd :: after) = allPotentialTrades (before ++ after).
Proof.
  intros H. unfold allPotentialTrades.
  change (sd :: after) with ([sd] ++ after).
  rewrite !omap_app, !filter_app, (withoutEntry_dropped sd H). reflexivity.
Qed.

End Ignored.

(** C10.  Each candidate record yields at most one simulated trade: a record
    with a long signal is considered through that signal alone, whatever its
    short signal; a record with no signal, or whose chosen signal has no
    [entryDate], can be removed from the list without changing the result;
    and, the bars having distinct dates, for every property [p] of a
    trade's origin the log holds no more trades with [p] than there are
    records whose chosen signal has an entry date and that origin -- in
    particular the log is no longer than the list of records. *)
Theorem one_trade_per_candidate_record
  (signals : list SignalData) (historicalData : list Bar) (cfg : Backtester.Config) :
  NoDup (date <$> historicalData) ->
  (forall sd l, longSignal sd = Some l ->
      Backtester.chooseSignal sd = Some (mkPotentialTrade sd l true))
  /\ (forall before sd after, signals = before ++ sd :: after -> withoutEntry sd ->
      Backtester.runBacktest signals historicalData cfg
      = Backtester.runBacktest (before ++ after) historicalData cfg)
  /\ (forall p : Backtester.OriginalSignal -> bool,
      (count (fun r => p (Backtester.origin r))
         (fst (Backtester.runBacktest signals historicalData cfg))
       <= count (candidateMatches p) signals)%nat)
  /\ (length (fst (Backtester.runBacktest signals historicalData cfg)) <= length signals)%nat.
Proof.
  intros Hnd. split; [|split; [|split]].
  - intros sd l H. unfold Backtester.chooseSignal. now rewrite H.
  - intros before sd after -> H.
    unfold Backtester.runBacktest, Backtester.mainLoop, Backtester.groupSignalsByEntryBar.
    now rewrite (withoutEntry_ignored before sd after H).
  - intros p. now apply log_within_candidates.
  - rewrite <- (count_all (fst _)).
    etransitivity; [apply (log_within_candidates (fun _ => true)); exact Hnd|].
    apply count_le_length.
Qed.


Lemma one_trade_per_candidate_record_witness :
  (length (fst (Backtester.runBacktest [Examples.longAt 9]
                  [Examples.quietDay; Examples.dipDay] Examples.tenth))
   <= length [Examples.longAt 9])%nat.
Proof.
  assert (Hnd : NoDup (date <$> [Examples.quietDay; Examples.dipDay])).
  { apply (bool_decide_unpack _). vm_compute. exact I. }
  exact (proj2 (proj2 (proj2 (one_trade_per_candidate_record [Examples.longAt 9]
                                [Examples.quietDay; Examples.dipDay] Examples.tenth Hnd)))).
Defined.

(** ** The correction pass of [findInitialPivots] (C9) *)

Section Correction.
Import PivotFinders.

(** Both sides at once: [price] is [high] or [low], [beats a b] says that
    the candidate price [a] replaces the running extreme [b], [within x e]
    that the extreme [e] is at least as extreme as [x], and [step] is one
    turn of the correction loop. *)
Variable price : Bar -> Q.
Variable beats : Q -> Q -> bool.
Variable within : Q -> Q -> Prop.
Variable step : Q * Bar -> Bar -> Q * Bar.
Hypothesis within_refl : forall x, within x x.
Hypothesis within_trans : forall x y z, within x y -> within y z -> within x z.
Hypothesis beats_within : forall a b, beats a b = true -> within b a.
Hypothesis loses_within : forall a b, beats a b = false -> within a b.
Hypothesis step_turn : forall acc bar,
  step acc bar = if beats (price bar) (fst acc) then (price bar, bar) else acc.

Lemma correction_fold (window : list Bar) :
  forall m0 b0,
    m0 = price b0 ->
    fst (foldl step (m0, b0) window) = price (snd (foldl step (m0, b0) window))
    /\ within m0 (fst (foldl step (m0, b0) window))
    /\ (forall x, x ∈ window -> within (price x) (fst (foldl step (m0, b0) window)))
    /\ (snd (foldl step (m0, b0) window) = b0
        \/ snd (foldl step (m0, b0) window) ∈ window).
Proof.
  induction window as [|bar window IH]; intros m0 b0 Hm0; simpl.
  - repeat split; auto. intros x Hx. inversion Hx.
  - rewrite step_turn. simpl.
    destruct (beats (price bar) m0) eqn:E.
    + destruct (IH (price bar) bar eq_refl) as (H1 & H2 & H3 & H4).
      repeat split; auto.
      * apply beats_within in E. eauto.
      * intros x Hx. apply elem_of_cons in Hx as [->|Hx]; auto.
      * right. destruct H4 as [->|H4]; [left|right]; auto.
    + destruct (IH m0 b0 Hm0) as (H1 & H2 & H3 & H4).
      repeat split; auto.
      * intros x Hx. apply elem_of_cons in Hx as [->|Hx]; auto.
        apply loses_within in E. eauto.
      * destruct H4 as [->|H4]; [left|right; right]; auto.
Qed.

End Correction.

Section Located.
Import PivotFinders.

Lemma findIndex_unique (bars : list Bar) :
  NoDup (date <$> bars) ->
  forall i b, bars !! i = Some b ->
    findIndex (fun d => Z.eqb (date d) (date b)) bars = Some i.
Proof.
  induction bars as [|x bars IH]; intros Hnd i b Hi; [discriminate|].
  rewrite fmap_cons in Hnd. apply NoDup_cons in Hnd as [Hx Hnd]. simpl.
  destruct i as [|i]; simpl in Hi.
  - injection Hi as ->. now rewrite Z.eqb_refl.
  - destruct (Z.eqb (date x) (date b)) eqn:E.
    + apply Z.eqb_eq in E. exfalso. apply Hx. rewrite E.
      apply list_elem_of_fmap. exists b. split; [reflexivity|].
      apply list_elem_of_lookup. eauto.
    + now rewrite (IH Hnd i b Hi).
Qed.

Lemma loop5_unfold bars i ph pl :
  loop5 bars i ph pl
  = if (i <? 2)%nat then (ph, pl) else
    let ph' := if negb (isSome ph) && isFractalHigh5 bars i then locate high bars i else ph in
    let pl' := if negb (isSome pl) && isFractalLow5 bars i then locate low bars i else pl in
    if isSome ph' && isSome pl' then (ph', pl')
    else match i with O => (ph', pl') | S j => loop5 bars j ph' pl' end.
Proof. destruct i; reflexivity. Qed.

Lemma loop3_unfold bars ph5 pl5 i ph pl :
  loop3 bars ph5 pl5 i ph pl
  = if (i <? 1)%nat then (ph, pl) else
    let ph' := if negb (isSome ph5) && negb (isSome ph) && isFractalHigh3 bars i
               then locate high bars i else ph in
    let pl' := if negb (isSome pl5) && negb (isSome pl) && isFractalLow3 bars i
               then locate low bars i else pl in
    if (isSome ph5 || isSome ph') && (isSome pl5 || isSome pl') then (ph', pl')
    else match i with O => (ph', pl') | S j => loop3 bars ph5 pl5 j ph' pl' end.
Proof. destruct i; reflexivity. Qed.

Lemma highAt_None bars : highAt bars None.
Proof. intros loc H. discriminate. Qed.

Lemma lowAt_None bars : lowAt bars None.
Proof. intros loc H. discriminate. Qed.

Lemma locate_high5 bars i :
  isFractalHigh5 bars i = true -> highAt bars (locate high bars i).
Proof.
  intros H loc Hloc. exists i. unfold fractalAt, locate in *.
  destruct (bars !! i) as [b|] eqn:E.
  - injection Hloc as <-. eauto.
  - discriminate.
Qed.

Lemma locate_high3 bars i :
  isFractalHigh3 bars i = true -> highAt bars (locate high bars i).
Proof.
  intros H loc Hloc. exists i. unfold fractalAt, locate in *.
  destruct (bars !! i) as [b|] eqn:E.
  - injection Hloc as <-. eauto.
  - discriminate.
Qed.

Lemma locate_low5 bars i :
  isFractalLow5 bars i = true -> lowAt bars (locate low bars i).
Proof.
  intros H loc Hloc. exists i. unfold fractalAt, locate in *.
  destruct (bars !! i) as [b|] eqn:E.
  - injection Hloc as <-. eauto.
  - discriminate.
Qed.

Lemma locate_low3 bars i :
  isFractalLow3 bars i = true -> lowAt bars (locate low bars i).
Proof.
  intros H loc Hloc. exists i. unfold fractalAt, locate in *.
  destruct (bars !! i) as [b|] eqn:E.
  - injection Hloc as <-. eauto.
  - discriminate.
Qed.

Lemma loop5_located bars i :
  forall ph pl, highAt bars ph -> lowAt bars pl ->
    highAt bars (fst (loop5 bars i ph pl)) /\ lowAt bars (snd (loop5 bars i ph pl)).
Proof.
  induction i as [|i IH]; intros ph pl Hh Hl; rewrite loop5_unfold.
  - simpl. auto.
  - destruct (S i <? 2)%nat; [simpl; auto|].
    assert (highAt bars (if negb (isSome ph) && isFractalHigh5 bars (S i)
                         then locate high bars (S i) else ph)) as Hh'.
    { destruct (negb (isSome ph)); simpl; [|exact Hh].
      destruct (isFractalHigh5 bars (S i)) eqn:E; [now apply locate_high5|exact Hh]. }
    assert (lowAt bars (if negb (isSome pl) && isFractalLow5 bars (S i)
                        then locate low bars (S i) else pl)) as Hl'.
    { destruct (negb (isSome pl)); simpl; [|exact Hl].
      destruct (isFractalLow5 bars (S i)) eqn:E; [now apply locate_low5|exact Hl]. }
    cbv zeta. destruct (isSome _ && isSome _); [simpl; auto|].
    now apply IH.
Qed.

Lemma loop3_located bars ph5 pl5 i :
  forall ph pl, highAt bars ph -> lowAt bars pl ->
    highAt bars (fst (loop3 bars ph5 pl5 i ph pl))
    /\ lowAt bars (snd (loop3 bars ph5 pl5 i ph pl)).
Proof.
  induction i as [|i IH]; intros ph pl Hh Hl; rewrite loop3_unfold.
  - simpl. auto.
  - destruct (S i <? 1)%nat; [simpl; auto|].
    assert (highAt bars (if negb (isSome ph5) && negb (isSome ph) && isFractalHigh3 bars (S i)
                         then locate high bars (S i) else ph)) as Hh'.
    { destruct (negb (isSome ph5) && negb (isSome ph)); simpl; [|exact Hh].
      destruct (isFractalHigh3 bars (S i)) eqn:E; [now apply locate_high3|exact Hh]. }
    assert (lowAt bars (if negb (isSome pl5) && negb (isSome pl) && isFractalLow3 bars (S i)
                        then locate low bars (S i) else pl)) as Hl'.
    { destruct (negb (isSome pl5) && negb (isSome pl)); simpl; [|exact Hl].
      destruct (isFractalLow3 bars (S i)) eqn:E; [now apply locate_low3|exact Hl]. }
    cbv zeta. destruct ((isSome ph5 || isSome _) && (isSome pl5 || isSome _));
      [simpl; auto|].
    now apply IH.
Qed.

Lemma initialPivots_located bars :
  highAt bars (fst (initialPivots bars)) /\ lowAt bars (snd (initialPivots bars)).
Proof.
  unfold initialPivots.
  destruct (if (5 <=? length bars)%nat then loop5 bars (length bars - 3) None None
            else (None, None)) as [ph5 pl5] eqn:E5.
  assert (highAt bars ph5 /\ lowAt bars pl5) as [Hh5 Hl5].
  { destruct (5 <=? length bars)%nat.
    - pose proof (loop5_located bars (length bars - 3) None None
                    (highAt_None bars) (lowAt_None bars)) as H.
      rewrite E5 in H. exact H.
    - injection E5 as <- <-. split; [apply highAt_None|apply lowAt_None]. }
  destruct (loop3 bars ph5 pl5 (length bars - 2) None None) as [ph3 pl3] eqn:E3.
  pose proof (loop3_located bars ph5 pl5 (length bars - 2) None None
                (highAt_None bars) (lowAt_None bars)) as [Hh3 Hl3].
  rewrite E3 in Hh3, Hl3. simpl in *.
  split.
  - destruct ph5; simpl; [exact Hh5|exact Hh3].
  - destruct pl5; simpl; [exact Hl5|exact Hl3].
Qed.

End Located.

Section Corrected.
Import PivotFinders.

Lemma elem_of_drop_lookup (bars : list Bar) (i : nat) (x : Bar) :
  x ∈ drop i bars <-> exists j, (i <= j)%nat /\ bars !! j = Some x.
Proof.
  rewrite list_elem_of_lookup. split.
  - intros [k Hk]. rewrite lookup_drop in Hk. exists (i + k)%nat. split; [lia|exact Hk].
  - intros [j [Hj Hx]]. exists (j - i)%nat. rewrite lookup_drop.
    replace (i + (j - i))%nat with j by lia. exact Hx.
Qed.

Lemma correct_high (bars : list Bar) (i : nat) (b : Bar) :
  NoDup (date <$> bars) -> bars !! i = Some b ->
  (forall j x, (i <= j)%nat -> bars !! j = Some x ->
      high x <= snd (correct raiseHigh bars (date b, high b)))
  /\ (exists j x, (i <= j)%nat /\ bars !! j = Some x
        /\ high x = snd (correct raiseHigh bars (date b, high b))
        /\ date x = fst (correct raiseHigh bars (date b, high b))).
Proof.
  intros Hnd Hi. unfold correct. simpl fst. simpl snd.
  rewrite (findIndex_unique bars Hnd i b Hi), Hi.
  destruct (correction_fold high (fun a b => Qltb b a) Qle raiseHigh
              Qle_refl Qle_trans
              (fun a b H => Qlt_le_weak _ _ (proj1 (Qltb_lt b a) H))
              (fun a b H => proj1 (Qltb_ge b a) H)
              (fun acc bar => eq_refl) (drop i bars) (high b) b eq_refl)
    as (H1 & H2 & H3 & H4).
  destruct (foldl raiseHigh (high b, b) (drop i bars)) as [extreme correctedBar].
  simpl in *. split.
  - intros j x Hj Hx. apply H3. apply elem_of_drop_lookup. eauto.
  - destruct H4 as [->|H4].
    + exists i, b. auto.
    + apply elem_of_drop_lookup in H4 as [j [Hj Hx]]. exists j, correctedBar. auto.
Qed.

Lemma correct_low (bars : list Bar) (i : nat) (b : Bar) :
  NoDup (date <$> bars) -> bars !! i = Some b ->
  (forall j x, (i <= j)%nat -> bars !! j = Some x ->
      snd (correct lowerLow bars (date b, low b)) <= low x)
  /\ (exists j x, (i <= j)%nat /\ bars !! j = Some x
        /\ low x = snd (correct lowerLow bars (date b, low b))
        /\ date x = fst (correct lowerLow bars (date b, low b))).
Proof.
  intros Hnd Hi. unfold correct. simpl fst. simpl snd.
  rewrite (findIndex_unique bars Hnd i b Hi), Hi.
  destruct (correction_fold low (fun a b => Qltb a b) (fun x e => e <= x) lowerLow
              Qle_refl (fun x y z Hxy Hyz => Qle_trans _ _ _ Hyz Hxy)
              (fun a b H => Qlt_le_weak _ _ (proj1 (Qltb_lt a b) H))
              (fun a b H => proj1 (Qltb_ge a b) H)
              (fun acc bar => eq_refl) (drop i bars) (low b) b eq_refl)
    as (H1 & H2 & H3 & H4).
  destruct (foldl lowerLow (low b, b) (drop i bars)) as [extreme correctedBar].
  simpl in *. split.
  - intros j x Hj Hx. apply H3. apply elem_of_drop_lookup. eauto.
  - destruct H4 as [->|H4].
    + exists i, b. auto.
    + apply elem_of_drop_lookup in H4 as [j [Hj Hx]]. exists j, correctedBar. auto.
Qed.

End Corrected.

(** C9.  On a window (of distinct dates) for which [findInitialPivots]
    returns a [pivotHigh], the window has at least 3 bars and the returned
    price is the maximum high over the bars from the initially located
    fractal bar [i] to the end of the window: no bar of that range has a
    higher high, and a bar of that range has exactly this high and the
    returned date.  The same holds for [pivotLow] with the minimum low. *)
Theorem corrected_pivot_is_extreme_of_subrange (bars : list Bar) :
  NoDup (date <$> bars) ->
  (forall p, fst (PivotFinders.findInitialPivots bars) = Some p ->
     exists i loc h,
       (3 <= length bars)%nat
       /\ fst (PivotFinders.initialPivots bars) = Some loc
       /\ fractalAt high PivotFinders.isFractalHigh5 PivotFinders.isFractalHigh3 bars i loc
       /\ pivotHighPrice p = Some h
       /\ (forall j x, (i <= j)%nat -> bars !! j = Some x -> high x <= h)
       /\ (exists j x, (i <= j)%nat /\ bars !! j = Some x /\ high x = h
                       /\ date x = pivotDate p))
  /\ (forall p, snd (PivotFinders.findInitialPivots bars) = Some p ->
     exists i loc l,
       (3 <= length bars)%nat
       /\ snd (PivotFinders.initialPivots bars) = Some loc
       /\ fractalAt low PivotFinders.isFractalLow5 PivotFinders.isFractalLow3 bars i loc
       /\ pivotLowPrice p = Some l
       /\ (forall j x, (i <= j)%nat -> bars !! j = Some x -> l <= low x)
       /\ (exists j x, (i <= j)%nat /\ bars !! j = Some x /\ low x = l
                       /\ date x = pivotDate p)).
Proof.
  intros Hnd. unfold PivotFinders.findInitialPivots.
  destruct (length bars <? 3)%nat eqn:Elen; [split; intros p H; discriminate|].
  apply Nat.ltb_ge in Elen.
  destruct (initialPivots_located bars) as [Hh Hl].
  destruct (PivotFinders.initialPivots bars) as [initialHigh initialLow]. simpl in *.
  split; intros p Hp.
  - destruct initialHigh as [loc|]; [|discriminate]. simpl in Hp. injection Hp as <-.
    destruct (Hh loc eq_refl) as [i (b & Hi & -> & Hfr)].
    destruct (correct_high bars i b Hnd Hi) as [Hmax Hatt].
    exists i, (date b, high b), (snd (PivotFinders.correct PivotFinders.raiseHigh bars
                                       (date b, high b))).
    repeat split; auto. exists b. auto.
  - destruct initialLow as [loc|]; [|discriminate]. simpl in Hp. injection Hp as <-.
    destruct (Hl loc eq_refl) as [i (b & Hi & -> & Hfr)].
    destruct (correct_low bars i b Hnd Hi) as [Hmin Hatt].
    exists i, (date b, low b), (snd (PivotFinders.correct PivotFinders.lowerLow bars
                                      (date b, low b))).
    repeat split; auto. exists b. auto.
Qed.

Lemma corrected_pivot_is_extreme_of_subrange_witness :
  exists i loc h,
    (3 <= length Examples.window)%nat
    /\ fst (PivotFinders.initialPivots Examples.window) = Some loc
    /\ fractalAt high PivotFinders.isFractalHigh5 PivotFinders.isFractalHigh3
         Examples.window i loc
    /\ pivotHighPrice (highPivot 5 9) = Some h
    /\ (forall j x, (i <= j)%nat -> Examples.window !! j = Some x -> high x <= h)
    /\ (exists j x, (i <= j)%nat /\ Examples.window !! j = Some x /\ high x = h
                    /\ date x = pivotDate (highPivot 5 9)).
Proof.
  assert (Hnd : NoDup (date <$> Examples.window)).
  { apply (bool_decide_unpack _). vm_compute. exact I. }
  exact (proj1 (corrected_pivot_is_extreme_of_subrange Examples.window Hnd)
           (highPivot 5 9) eq_refl).
Defined.

(** ** The projected exit (C3) *)

Section Projection.
Import PivotFinders Number ExitPriceCalculator.






Variable A : Arith.



End Projection.




(** ** The scaling factor of the assemblers (C2) *)

Section Scaling.
Import PivotFinders TechnicalIndicators Assembler.

Lemma finalScalingFactor_both (t v : option Q) :
  truthy t = true -> truthy v = true ->
  finalScalingFactor t v = number t * (6 # 10) + number v * (4 # 10).
Proof. intros Ht Hv. unfold finalScalingFactor. now rewrite Ht, Hv. Qed.

Lemma finalScalingFactor_trend (t v : option Q) :
  truthy t = true -> truthy v = false -> finalScalingFactor t v = number t.
Proof.
  intros Ht Hv. unfold finalScalingFactor, orElse. now rewrite Ht, Hv, Ht.
Qed.

Lemma finalScalingFactor_volatility (t v : option Q) :
  truthy t = false -> truthy v = true -> finalScalingFactor t v = number v.
Proof.
  intros Ht Hv. unfold finalScalingFactor, orElse. now rewrite Ht, Hv.
Qed.

Lemma finalScalingFactor_neither (t v : option Q) :
  truthy t = false -> truthy v = false -> finalScalingFactor t v = 1.
Proof.
  intros Ht Hv. unfold finalScalingFactor, orElse. now rewrite Ht, Hv.
Qed.

Lemma processSignal_takeProfit
  (calculateProjectedExit : SignalType -> Q -> Pivot -> Z -> Q -> option Q)
  processedData pivotHigh pivotLow bull bear signal ty k exitPivot triggerBar g :
  indexOfDate processedData (triggerDate signal) = Some (S k) ->
  findExitProjectionPivot (take (S k) processedData) ty = Some exitPivot ->
  processedData !! S k = Some triggerBar ->
  processSignal calculateProjectedExit processedData pivotHigh pivotLow bull bear signal ty
  = Some g ->
  Some (genTakeProfit g)
  = calculateProjectedExit ty (close triggerBar) exitPivot
      (Z.of_nat (S k)
       - match indexOfDate processedData (pivotDate exitPivot) with
         | Some j => Z.of_nat j
         | None => -1
         end)%Z
      (finalScalingFactor
         (calculateTrendStructureRatio (scalingHistory processedData (S k))
            SCALING_TREND_PIVOTS 10)
         (calculateATR (scalingHistory processedData (S k)) SCALING_ATR_PERIOD)).
Proof.
  intros Hidx Hpivot Hbar. unfold processSignal.
  destruct (match ty with LONG => negb bull | SHORT => negb bear end); [discriminate|].
  rewrite Hidx, Hpivot, Hbar. cbv zeta.
  destruct (Qle_bool _ 0); [discriminate|].
  destruct (calculateProjectedExit _ _ _ _ _) as [takeProfit|]; [|discriminate].
  destruct (negb (truthy (Some takeProfit))); [discriminate|].
  intros H. injection H as <-. reflexivity.
Qed.

End Scaling.

(** C2 (as amended).  In both assemblers the scaling factor is
    [trendRatio*0.6 + volatilityRatio*0.4] when both ratios are present and
    non-zero, the one that is when only one is, and the constant 1 when
    neither is.  Having found the trigger bar and an exit pivot, the route's
    [calculateAndSetExit] stores what [calculateProjectedExit] returns for
    that factor whenever the factor is positive -- with neither ratio, the
    projection computed with the factor 1 -- and what [processSignal] of
    [generateSignalsForTicker] pushes carries the projection for that
    factor as its target. *)
Theorem scaling_factor_blend_with_default_one
  (calculateProjectedExit : PivotFinders.SignalType -> Q -> Pivot -> Z -> Q -> option Q)
  (processedData : list Bar) (signal : TradeSignal) (ty : PivotFinders.SignalType)
  (k : nat) (exitPivot : Pivot) (triggerBar : Bar) :
  Assembler.indexOfDate processedData (triggerDate signal) = Some (S k) ->
  PivotFinders.findExitProjectionPivot (take (S k) processedData) ty = Some exitPivot ->
  processedData !! S k = Some triggerBar ->
  (forall t v : option Q,
      (truthy t = true -> truthy v = true ->
       Assembler.finalScalingFactor t v = number t * (6 # 10) + number v * (4 # 10))
      /\ (truthy t = true -> truthy v = false -> Assembler.finalScalingFactor t v = number t)
      /\ (truthy t = false -> truthy v = true -> Assembler.finalScalingFactor t v = number v)
      /\ (truthy t = false -> truthy v = false -> Assembler.finalScalingFactor t v = 1))
  /\ (forall f,
      f = Assembler.finalScalingFactor
            (PivotFinders.calculateTrendStructureRatio
               (Assembler.scalingHistory processedData (S k)) Assembler.SCALING_TREND_PIVOTS 10)
            (TechnicalIndicators.calculateATR
               (Assembler.scalingHistory processedData (S k)) Assembler.SCALING_ATR_PERIOD) ->
      (0 < f ->
       projectedExit
         (Assembler.calculateAndSetExit calculateProjectedExit processedData signal ty)
       = calculateProjectedExit ty (close triggerBar) exitPivot
           (Z.of_nat (S k)
            - match Assembler.indexOfDate processedData (pivotDate exitPivot) with
              | Some j => Z.of_nat j
              | None => -1
              end)%Z f)
      /\ (forall pivotHigh pivotLow bull bear g,
          Assembler.processSignal calculateProjectedExit processedData pivotHigh pivotLow
            bull bear signal ty = Some g ->
          Some (Assembler.genTakeProfit g)
          = calculateProjectedExit ty (close triggerBar) exitPivot
              (Z.of_nat (S k)
               - match Assembler.indexOfDate processedData (pivotDate exitPivot) with
                 | Some j => Z.of_nat j
                 | None => -1
                 end)%Z f))
  /\ (truthy (PivotFinders.calculateTrendStructureRatio
                (Assembler.scalingHistory processedData (S k))
                Assembler.SCALING_TREND_PIVOTS 10) = false ->
      truthy (TechnicalIndicators.calculateATR
                (Assembler.scalingHistory processedData (S k))
                Assembler.SCALING_ATR_PERIOD) = false ->
      projectedExit (Assembler.calculateAndSetExit calculateProjectedExit processedData signal ty)
      = calculateProjectedExit ty (close triggerBar) exitPivot
          (Z.of_nat (S k)
           - match Assembler.indexOfDate processedData (pivotDate exitPivot) with
             | Some j => Z.of_nat j
             | None => -1
             end)%Z 1).
Proof.
  intros Hidx Hpivot Hbar.
  assert (forall f,
            f = Assembler.finalScalingFactor
                  (PivotFinders.calculateTrendStructureRatio
                     (Assembler.scalingHistory processedData (S k))
                     Assembler.SCALING_TREND_PIVOTS 10)
                  (TechnicalIndicators.calculateATR
                     (Assembler.scalingHistory processedData (S k))
                     Assembler.SCALING_ATR_PERIOD) ->
            0 < f ->
            projectedExit
              (Assembler.calculateAndSetExit calculateProjectedExit processedData signal ty)
            = calculateProjectedExit ty (close triggerBar) exitPivot
                (Z.of_nat (S k)
                 - match Assembler.indexOfDate processedData (pivotDate exitPivot) with
                   | Some j => Z.of_nat j
                   | None => -1
                   end)%Z f) as Hstored.
  { intros f -> Hf. unfold Assembler.calculateAndSetExit.
    rewrite Hidx, Hpivot, Hbar. cbv zeta.
    apply Qltb_lt in Hf. rewrite Hf. reflexivity. }
  split; [|split].
  - intros t v. split; [|split; [|split]].
    + apply finalScalingFactor_both.
    + apply finalScalingFactor_trend.
    + apply finalScalingFactor_volatility.
    + apply finalScalingFactor_neither.
  - intros f Hf. split.
    + now apply Hstored.
    + intros pivotHigh pivotLow bull bear g Hg. subst f.
      exact (processSignal_takeProfit calculateProjectedExit processedData pivotHigh pivotLow
               bull bear signal ty k exitPivot triggerBar g Hidx Hpivot Hbar Hg).
  - intros Ht Hv. apply Hstored.
    + now rewrite (finalScalingFactor_neither _ _ Ht Hv).
    + reflexivity.
Qed.

Lemma scaling_factor_blend_with_default_one_witness :
  (forall calculateProjectedExit,
      projectedExit (Assembler.calculateAndSetExit calculateProjectedExit Examples.stillMarket
                       Examples.breakout PivotFinders.LONG)
      = calculateProjectedExit PivotFinders.LONG (close (Examples.stillBar 240))
          (lowPivot 183 (1 # 2))
          (Z.of_nat 240
           - match Assembler.indexOfDate Examples.stillMarket
                     (pivotDate (lowPivot 183 (1 # 2))) with
             | Some j => Z.of_nat j
             | None => -1
             end)%Z 1)
  /\ truthy (PivotFinders.calculateTrendStructureRatio
               (Assembler.scalingHistory Examples.stillMarket 240)
               Assembler.SCALING_TREND_PIVOTS 10) = false
  /\ truthy (TechnicalIndicators.calculateATR
               (Assembler.scalingHistory Examples.stillMarket 240)
               Assembler.SCALING_ATR_PERIOD) = false.
Proof.
  assert (Hidx : Assembler.indexOfDate Examples.stillMarket (triggerDate Examples.breakout)
                 = Some 240%nat) by (vm_compute; reflexivity).
  assert (Hpivot : PivotFinders.findExitProjectionPivot (take 240 Examples.stillMarket)
                     PivotFinders.LONG = Some (lowPivot 183 (1 # 2)))
    by (vm_compute; reflexivity).
  assert (Hbar : Examples.stillMarket !! 240%nat = Some (Examples.stillBar 240))
    by (vm_compute; reflexivity).
  assert (Ht : truthy (PivotFinders.calculateTrendStructureRatio
                         (Assembler.scalingHistory Examples.stillMarket 240)
                         Assembler.SCALING_TREND_PIVOTS 10) = false)
    by (vm_compute; reflexivity).
  assert (Hv : truthy (TechnicalIndicators.calculateATR
                         (Assembler.scalingHistory Examples.stillMarket 240)
                         Assembler.SCALING_ATR_PERIOD) = false)
    by (vm_compute; reflexivity).
  split; [|split; [exact Ht|exact Hv]].
  intros calculateProjectedExit.
  exact (proj2 (proj2 (scaling_factor_blend_with_default_one calculateProjectedExit
                         Examples.stillMarket Examples.breakout PivotFinders.LONG
                         239 (lowPivot 183 (1 # 2)) (Examples.stillBar 240)
                         Hidx Hpivot Hbar))
           Ht Hv).
Defined.

(** C2, the claim as stated fails, on a series the route accepts (250 bars,
    a start on day 180).  For the start point on day 180 the trigger is day
    240; the 180 bars before it give a trend-structure ratio and an ATR
    that both exist and are 0.  The scaling factor is neither their blend
    [0*0.6 + 0*0.4] nor absent: it is the default constant 1, and the
    record that the route hands to the simulator carries the projection
    that the projector returns for the factor 1. *)
Lemma neither_ratio_defaults_to_one :
  (exists t v,
      PivotFinders.calculateTrendStructureRatio
        (Assembler.scalingHistory Examples.stillMarket 240) Assembler.SCALING_TREND_PIVOTS 10
      = Some t
      /\ TechnicalIndicators.calculateATR
           (Assembler.scalingHistory Examples.stillMarket 240) Assembler.SCALING_ATR_PERIOD
         = Some v
      /\ t == 0 /\ v == 0
      /\ Assembler.finalScalingFactor (Some t) (Some v) = 1
      /\ ~ Assembler.finalScalingFactor (Some t) (Some v) == t * (6 # 10) + v * (4 # 10))
  /\ (forall calculateProjectedExit toISOString,
         longSignal
           <$> head (Assembler.generateAllSignals calculateProjectedExit toISOString
                       Examples.stillMarket 180 [4%nat])
         = Some (Some (mkTradeSignal 240 (Some 241%Z) 1
                         (calculateProjectedExit PivotFinders.LONG 4 (lowPivot 183 (1 # 2))
                            57%Z 1)
                         (Some (lowPivot 183 (1 # 2))))))
  /\ (forall calculateProjectedExit toISOString,
         is_Some (Assembler.route calculateProjectedExit toISOString Examples.stillMarket 180
                    [4%nat] Examples.tenth)).
Proof.
  split; [|split].
  - eexists _, _. split; [vm_compute; reflexivity|]. split; [vm_compute; reflexivity|].
    split; [reflexivity|]. split; [reflexivity|]. split; [reflexivity|].
    intros H. vm_compute in H. discriminate H.
  - intros calculateProjectedExit toISOString. vm_compute. reflexivity.
  - intros calculateProjectedExit toISOString. unfold Assembler.route.
    replace (findIndex (fun bar => (180 <=? date bar)%Z) Examples.stillMarket)
      with (Some 180%nat) by (vm_compute; reflexivity).
    change (180 <? Assembler.LOOKBACK_FOR_START_POINT)%nat with false. cbv iota. eauto.
Qed.

(** ** Candidates without projected exit (C1) *)

Section Unpriced.
Import Backtester.

Lemma unpriced_guard t :
  lacksPrice t ->
  negb (truthy (stopLossOf (isLong t) (pivotHigh (signalData t)) (pivotLow (signalData t))))
  || negb (truthy (projectedExit (tradeSignal t))) = true.
Proof.
  intros [H|H]; rewrite H; [reflexivity|apply orb_true_r].
Qed.

Lemma enterPosition_unpriced cfg bar t st :
  lacksPrice t -> enterPosition cfg bar t st = st.
Proof.
  intros H. unfold enterPosition. now rewrite (unpriced_guard t H).
Qed.

Lemma ghost_unpriced t historicalData :
  lacksPrice t -> getGhostTradeOutcome t historicalData = None.
Proof.
  intros H. unfold getGhostTradeOutcome. now rewrite (unpriced_guard t H).
Qed.

Lemma processEntries_unpriced cfg historicalData bar t rest st :
  lacksPrice t ->
  processEntries cfg historicalData bar (t :: rest) st
  = if atCap cfg st then st else processEntries cfg historicalData bar rest st.
Proof.
  intros H. simpl. destruct (atCap cfg st); [reflexivity|].
  destruct (preventOnLosses cfg && isObserving st).
  - unfold observe. now rewrite (ghost_unpriced t historicalData H).
  - now rewrite (enterPosition_unpriced cfg bar t st H).
Qed.

End Unpriced.

Section Strict.
Import PivotFinders Assembler.

Lemma processSignal_strict
  (calculateProjectedExit : SignalType -> Q -> Pivot -> Z -> Q -> option Q)
  processedData pivotHigh pivotLow bull bear signal ty g :
  processSignal calculateProjectedExit processedData pivotHigh pivotLow bull bear signal ty
  = Some g ->
  truthy (Some (genTakeProfit g)) = true
  /\ exists k, indexOfDate processedData (triggerDate signal) = Some (S k)
               /\ is_Some (findExitProjectionPivot (take (S k) processedData) ty).
Proof.
  unfold processSignal.
  destruct (match ty with LONG => negb bull | SHORT => negb bear end); [discriminate|].
  destruct (indexOfDate processedData (triggerDate signal)) as [[|k]|]; try discriminate.
  destruct (findExitProjectionPivot (take (S k) processedData) ty) as [exitPivot|] eqn:Ep;
    [|discriminate].
  destruct (processedData !! S k) as [triggerBar|]; [|discriminate].
  cbv zeta. destruct (Qle_bool _ 0); [discriminate|].
  destruct (calculateProjectedExit _ _ _ _ _) as [takeProfit|] eqn:E; [|discriminate].
  destruct (negb (truthy (Some takeProfit))) eqn:Et; [discriminate|].
  intros H. injection H as <-. simpl genTakeProfit.
  apply negb_false_iff in Et. split; [exact Et|]. exists k. split; [reflexivity|].
  rewrite Ep. eauto.
Qed.

Lemma assemble_pushes
  (calculateProjectedExit : SignalType -> Q -> Pivot -> Z -> Q -> option Q)
  (toISOString : Z -> string) processedData i currentBar lookbackPeriod :
  is_Some (processedData !! (i + lookbackPeriod)%nat) ->
  is_Some (assemble calculateProjectedExit toISOString processedData i currentBar
             lookbackPeriod).
Proof.
  intros [lookbackBar H]. unfold assemble. rewrite H.
  destruct (findInitialPivots _) as [pivotHigh pivotLow].
  destruct (TradeSignalLogic.findFutureSignals _ _ _) as [longSignal shortSignal].
  eauto.
Qed.

End Strict.

(** C1 (as amended).  A candidate handed to the simulator need not have an
    exit-projection pivot or a projected exit: the route's assembler pushes a
    record for every start point and lookback period that fits the data,
    whatever became of its signals' exits.  The simulator skips such a
    candidate itself: when its stop or its projected exit is absent (or 0),
    the entry step and the ghost replay both leave the state as it was.
    Only [generateSignalsForTicker] discards at generation: what it pushes
    has a non-zero projected exit and an exit pivot. *)
Theorem unpriced_candidate_is_skipped_at_entry
  (calculateProjectedExit : PivotFinders.SignalType -> Q -> Pivot -> Z -> Q -> option Q)
  (toISOString : Z -> string) :
  (forall processedData i currentBar lookbackPeriod,
      is_Some (processedData !! (i + lookbackPeriod)%nat) ->
      is_Some (Assembler.assemble calculateProjectedExit toISOString processedData i
                 currentBar lookbackPeriod))
  /\ (forall cfg historicalData bar t rest st,
      lacksPrice t ->
      Backtester.enterPosition cfg bar t st = st
      /\ Backtester.getGhostTradeOutcome t historicalData = None
      /\ Backtester.processEntries cfg historicalData bar (t :: rest) st
         = (if Backtester.atCap cfg st then st
            else Backtester.processEntries cfg historicalData bar rest st))
  /\ (forall processedData pivotHigh pivotLow bull bear signal ty g,
      Assembler.processSignal calculateProjectedExit processedData pivotHigh pivotLow
        bull bear signal ty = Some g ->
      truthy (Some (Assembler.genTakeProfit g)) = true
      /\ exists k, Assembler.indexOfDate processedData (triggerDate signal) = Some (S k)
                   /\ is_Some (PivotFinders.findExitProjectionPivot
                                 (take (S k) processedData) ty)).
Proof.
  split; [|split].
  - apply assemble_pushes.
  - intros cfg historicalData bar t rest st H. split; [|split].
    + now apply enterPosition_unpriced.
    + now apply ghost_unpriced.
    + now apply processEntries_unpriced.
  - apply processSignal_strict.
Qed.

Lemma unpriced_candidate_is_skipped_at_entry_witness :
  Backtester.enterPosition Examples.tenth (Examples.flatBar 187)
    (Examples.unpricedTrade Examples.dayName) Examples.fresh = Examples.fresh
  /\ Backtester.getGhostTradeOutcome (Examples.unpricedTrade Examples.dayName)
       Examples.flatLows = None
  /\ Backtester.processEntries Examples.tenth Examples.flatLows (Examples.flatBar 187)
       [Examples.unpricedTrade Examples.dayName] Examples.fresh
     = (if Backtester.atCap Examples.tenth Examples.fresh then Examples.fresh
        else Backtester.processEntries Examples.tenth Examples.flatLows
               (Examples.flatBar 187) [] Examples.fresh).
Proof.
  exact (proj1 (proj2 (unpriced_candidate_is_skipped_at_entry Examples.echoScaling
                         Examples.dayName))
           Examples.tenth Examples.flatLows (Examples.flatBar 187)
           (Examples.unpricedTrade Examples.dayName) [] Examples.fresh
           (or_introl eq_refl)).
Defined.

(** C1, the claim as stated fails.  On 200 bars with a start index of 180
    (the route's [LOOKBACK_FOR_START_POINT]) and a lookback of 4, the first
    record the route assembles carries a long signal but no low pivot (no
    stop) and, no fractal low preceding the trigger, no exit pivot and no
    projected exit; the route hands it to [runBacktest] all the same, where
    it is the first candidate of the entry loop on day 187, and the run
    ends without a trade. *)
Lemma route_hands_over_unpriced_candidate :
  (forall calculateProjectedExit toISOString,
      head (Assembler.generateAllSignals calculateProjectedExit toISOString
              Examples.flatLows 180 [4%nat])
      = Some (Examples.unpriced toISOString))
  /\ (forall toISOString,
      Backtester.chooseSignal (Examples.unpriced toISOString)
      = Some (Examples.unpricedTrade toISOString)
      /\ Backtester.stopLossOf true (pivotHigh (Examples.unpriced toISOString))
           (pivotLow (Examples.unpriced toISOString)) = None
      /\ projectedExit (tradeSignal (Examples.unpricedTrade toISOString)) = None
      /\ exitPivot (tradeSignal (Examples.unpricedTrade toISOString)) = None)
  /\ (forall calculateProjectedExit toISOString,
      head (Backtester.signalsToProcess Examples.tenth
              (Backtester.groupSignalsByEntryBar
                 (Assembler.generateAllSignals calculateProjectedExit toISOString
                    Examples.flatLows 180 [4%nat]))
              (Examples.flatBar 187))
      = Some (Examples.unpricedTrade toISOString))
  /\ (forall calculateProjectedExit toISOString,
      fst <$> Assembler.route calculateProjectedExit toISOString Examples.flatLows 180 [4%nat]
                Examples.tenth
      = Some []).
Proof.
  split; [|split; [|split]].
  - intros calculateProjectedExit toISOString. vm_compute. reflexivity.
  - intros toISOString. repeat split.
  - intros calculateProjectedExit toISOString. vm_compute. reflexivity.
  - intros calculateProjectedExit toISOString. vm_compute. reflexivity.
Qed.

(** ** Scenarios of the specification *)

(** Two positions of one start point: the stop of the first is hit on day 3,
    and both are closed on that bar, at that stop, as "Group Liquidation". *)
Example group_liquidation_scenario :
  Examples.outcomes
    (Backtester.runBacktest
       [Examples.candidate "P" 9 20 2; Examples.candidate "P" 5 20 2]
       Examples.threeDays Examples.grouped)
  = [("Group Liquidation", 9, 3%Z, -10); ("Group Liquidation", 9, 3%Z, -10)].
Proof. vm_compute. reflexivity. Qed.

(** With different start points only the first is closed; the second is
    closed at the end of the series. *)
Example separate_start_points_scenario :
  Examples.outcomes
    (Backtester.runBacktest
       [Examples.candidate "P" 9 20 2; Examples.candidate "Q" 5 20 2]
       Examples.threeDays Examples.grouped)
  = [("Group Liquidation", 9, 3%Z, -10); ("End of Test", 9, 4%Z, -10)].
Proof. vm_compute. reflexivity. Qed.

(** Two losses in a row switch the simulator to observing: the candidate of
    day 5 is replayed at a loss, the one of day 7 would have won and is not
    taken either, the one of day 9 is taken and reaches its target. *)
Example circuit_breaker_scenario :
  Examples.outcomes
    (Backtester.runBacktest
       [Examples.candidate "A" 9 12 1; Examples.candidate "B" 9 12 3;
        Examples.candidate "C" 9 12 5; Examples.candidate "D" 9 12 7;
        Examples.candidate "E" 9 12 9]
       Examples.tenDays Examples.tenth)
  = [("Stop Loss Hit", 9, 2%Z, -10); ("Stop Loss Hit", 9, 4%Z, - (99 # 10));
     ("Take Profit Hit", 12, 10%Z, 9801 # 500)].
Proof. vm_compute. reflexivity. Qed.

(** * Further properties of the engine *)

(** ** The forward scan: [findFutureSignals] *)

Section ForwardScan.
Import PivotFinders TradeSignalLogic.

Lemma scan_step t e bars fh fl lg sh :
  scan (t :: e :: bars) fh fl lg sh
  = (let lg' :=
       match lg, fh with
       | None, Some h => if closesAbove t h then Some (signalAt t e) else None
       | _, _ => lg
       end in
     let sh' :=
       match sh, fl with
       | None, Some l => if closesBelow t l then Some (signalAt t e) else None
       | _, _ => sh
       end in
     if isSome lg' && isSome sh' then (lg', sh') else scan (e :: bars) fh fl lg' sh').
Proof. reflexivity. Qed.

Lemma scan_long_kept bars fh fl s sh :
  fst (scan bars fh fl (Some s) sh) = Some s.
Proof.
  revert sh. induction bars as [|t bars IH]; intros sh; [reflexivity|].
  destruct bars as [|e bars]; [reflexivity|].
  rewrite scan_step. cbv zeta.
  destruct (isSome (Some s) && isSome _); [reflexivity|]. apply IH.
Qed.

Lemma scan_short_kept bars fh fl lg s :
  snd (scan bars fh fl lg (Some s)) = Some s.
Proof.
  revert lg. induction bars as [|t bars IH]; intros lg; [reflexivity|].
  destruct bars as [|e bars]; [reflexivity|].
  rewrite scan_step. cbv zeta.
  destruct (isSome _ && isSome (Some s)); [reflexivity|]. apply IH.
Qed.

Lemma scan_long bars fl :
  forall sh,
    fst (scan bars None fl None sh) = None
    /\ forall h, fst (scan bars (Some h) fl None sh)
                 = (fun p => signalAt (fst p) (snd p))
                     <$> firstBreakout (fun t => closesAbove t h) bars.
Proof.
  induction bars as [|t bars IH]; intros sh; [split; reflexivity|].
  destruct bars as [|e bars]; [split; reflexivity|].
  split.
  - rewrite scan_step. cbv zeta. cbn [isSome andb]. apply IH.
  - intros h. rewrite scan_step. cbn [firstBreakout]. cbv zeta.
    destruct (closesAbove t h).
    + destruct (isSome (Some _) && isSome _); [reflexivity|]. apply scan_long_kept.
    + cbn [isSome andb]. apply IH.
Qed.

Lemma scan_short bars fh :
  forall lg,
    snd (scan bars fh None lg None) = None
    /\ forall l, snd (scan bars fh (Some l) lg None)
                 = (fun p => signalAt (fst p) (snd p))
                     <$> firstBreakout (fun t => closesBelow t l) bars.
Proof.
  induction bars as [|t bars IH]; intros lg; [split; reflexivity|].
  destruct bars as [|e bars]; [split; reflexivity|].
  split.
  - rewrite scan_step. cbv zeta.
    replace (match fh with Some _ | _ => None end) with (@None TradeSignal) at 1
      by (destruct fh; reflexivity).
    cbn [isSome]. rewrite andb_false_r. apply IH.
  - intros l. rewrite scan_step. cbn [firstBreakout]. cbv zeta.
    destruct (closesBelow t l).
    + destruct (isSome _ && isSome (Some _)); [reflexivity|]. apply scan_short_kept.
    + cbn [isSome]. rewrite andb_false_r. apply IH.
Qed.

Lemma firstBreakout_Some ok bars t e :
  firstBreakout ok bars = Some (t, e) <->
  exists i, bars !! i = Some t /\ bars !! S i = Some e /\ ok t = true
            /\ forall j t', (j < i)%nat -> bars !! j = Some t' -> ok t' = false.
Proof.
  revert t e. induction bars as [|x bars IH]; intros t e.
  - split; [discriminate|]. intros (i & H & _). discriminate.
  - destruct bars as [|y bars].
    + split; [discriminate|]. intros (i & _ & H & _). destruct i; discriminate.
    + cbn [firstBreakout]. destruct (ok x) eqn:E.
      * split.
        -- intros H. injection H as <- <-. exists O. repeat split; auto. intros j t' Hj. lia.
        -- intros (i & Ht & He & Hok & Hfirst). destruct i as [|i].
           ++ simpl in Ht, He. congruence.
           ++ specialize (Hfirst O x (Nat.lt_0_succ i) eq_refl). congruence.
      * rewrite IH. split.
        -- intros (i & Ht & He & Hok & Hfirst). exists (S i). repeat split; auto.
           intros [|j] t' Hj Hj'; [simpl in Hj'; congruence|].
           apply (Hfirst j); [lia|exact Hj'].
        -- intros (i & Ht & He & Hok & Hfirst). destruct i as [|i].
           ++ simpl in Ht. congruence.
           ++ exists i. repeat split; auto.
              intros j t' Hj Hj'. apply (Hfirst (S j)); [lia|exact Hj'].
Qed.

Lemma firstBreakout_None ok bars :
  firstBreakout ok bars = None <->
  forall i t e, bars !! i = Some t -> bars !! S i = Some e -> ok t = false.
Proof.
  split.
  - intros H i t e Ht He. destruct (ok t) eqn:E; [|reflexivity].
    exfalso. revert i Ht He.
    induction bars as [|x bars IH]; intros i Ht He; [discriminate|].
    destruct bars as [|y bars]; [destruct i; discriminate|].
    cbn [firstBreakout] in H. destruct (ok x) eqn:Ex; [discriminate|].
    destruct i as [|i]; [simpl in Ht; congruence|]. exact (IH H i Ht He).
  - intros H. destruct (firstBreakout ok bars) as [[t e]|] eqn:E; [|reflexivity].
    apply firstBreakout_Some in E as (i & Ht & He & Hok & _).
    rewrite (H i t e Ht He) in Hok. discriminate.
Qed.

End ForwardScan.

(** X1.  The long signal of [findFutureSignals] is the earliest breakout: it
    exists exactly when some bar of the window that has a successor closes
    above the high pivot (and is dated after it); its trigger is the first
    such bar, and its entry date and price are the date and the open of the
    bar that follows the trigger.  The low pivot has no part in it. *)
Theorem long_signal_is_first_breakout
  (bars : list Bar) (fractalHigh fractalLow : option Pivot) :
  (forall s, fst (TradeSignalLogic.findFutureSignals bars fractalHigh fractalLow) = Some s ->
     exists i t e h,
       fractalHigh = Some h /\ bars !! i = Some t /\ bars !! S i = Some e
       /\ TradeSignalLogic.closesAbove t h = true
       /\ (forall j t', (j < i)%nat -> bars !! j = Some t' ->
             TradeSignalLogic.closesAbove t' h = false)
       /\ s = mkTradeSignal (date t) (Some (date e)) (open e) None None)
  /\ (fst (TradeSignalLogic.findFutureSignals bars fractalHigh fractalLow) = None <->
      forall h i t e, fractalHigh = Some h -> bars !! i = Some t -> bars !! S i = Some e ->
        TradeSignalLogic.closesAbove t h = false).
Proof.
  assert (fst (TradeSignalLogic.findFutureSignals bars fractalHigh fractalLow)
          = match fractalHigh with
            | Some h => (fun p => TradeSignalLogic.signalAt (fst p) (snd p))
                          <$> firstBreakout (fun t => TradeSignalLogic.closesAbove t h) bars
            | None => None
            end) as ->.
  { unfold TradeSignalLogic.findFutureSignals.
    destruct (length bars <? 2)%nat eqn:E.
    - apply Nat.ltb_lt in E. destruct bars as [|x [|y bars]]; simpl in E; try lia;
        destruct fractalHigh; reflexivity.
    - destruct fractalHigh as [h|]; apply scan_long. }
  destruct fractalHigh as [h|].
  - split.
    + intros s Hs.
      destruct (firstBreakout _ bars) as [[t e]|] eqn:E; [|discriminate].
      injection Hs as <-. apply firstBreakout_Some in E as (i & Ht & He & Hok & Hfirst).
      exists i, t, e, h. repeat split; auto.
    + rewrite fmap_None, firstBreakout_None. split.
      * intros H h' i t e Hh. injection Hh as <-. apply H.
      * intros H i t e. now apply H.
  - split; [discriminate|]. split; [discriminate|reflexivity].
Qed.

(** X2.  The short signal is the earliest breakdown, symmetrically: the
    first bar with a successor that closes below the low pivot (and is dated
    after it), entered at the next bar's open; the high pivot has no part in
    it. *)
Theorem short_signal_is_first_breakdown
  (bars : list Bar) (fractalHigh fractalLow : option Pivot) :
  (forall s, snd (TradeSignalLogic.findFutureSignals bars fractalHigh fractalLow) = Some s ->
     exists i t e l,
       fractalLow = Some l /\ bars !! i = Some t /\ bars !! S i = Some e
       /\ TradeSignalLogic.closesBelow t l = true
       /\ (forall j t', (j < i)%nat -> bars !! j = Some t' ->
             TradeSignalLogic.closesBelow t' l = false)
       /\ s = mkTradeSignal (date t) (Some (date e)) (open e) None None)
  /\ (snd (TradeSignalLogic.findFutureSignals bars fractalHigh fractalLow) = None <->
      forall l i t e, fractalLow = Some l -> bars !! i = Some t -> bars !! S i = Some e ->
        TradeSignalLogic.closesBelow t l = false).
Proof.
  assert (snd (TradeSignalLogic.findFutureSignals bars fractalHigh fractalLow)
          = match fractalLow with
            | Some l => (fun p => TradeSignalLogic.signalAt (fst p) (snd p))
                          <$> firstBreakout (fun t => TradeSignalLogic.closesBelow t l) bars
            | None => None
            end) as ->.
  { unfold TradeSignalLogic.findFutureSignals.
    destruct (length bars <? 2)%nat eqn:E.
    - apply Nat.ltb_lt in E. destruct bars as [|x [|y bars]]; simpl in E; try lia;
        destruct fractalLow; reflexivity.
    - destruct fractalLow as [l|]; apply scan_short. }
  destruct fractalLow as [l|].
  - split.
    + intros s Hs.
      destruct (firstBreakout _ bars) as [[t e]|] eqn:E; [|discriminate].
      injection Hs as <-. apply firstBreakout_Some in E as (i & Ht & He & Hok & Hfirst).
      exists i, t, e, l. repeat split; auto.
    + rewrite fmap_None, firstBreakout_None. split.
      * intros H l' i t e Hl. injection Hl as <-. apply H.
      * intros H i t e. now apply H.
  - split; [discriminate|]. split; [discriminate|reflexivity].
Qed.

(** ** Backward searches: [findExitProjectionPivot] and the initial pivots *)

Section BackwardSearch.
Import PivotFinders.

Lemma searchDown_unfold ok lo i :
  searchDown ok lo i
  = if (i <? lo)%nat then None
    else if ok i then Some i
    else match i with O => None | S j => searchDown ok lo j end.
Proof. destruct i; reflexivity. Qed.

Lemma searchDown_Some ok lo i j :
  searchDown ok lo i = Some j <->
  (lo <= j <= i)%nat /\ ok j = true /\ forall k, (j < k <= i)%nat -> ok k = false.
Proof.
  induction i as [|i IH]; rewrite searchDown_unfold.
  - destruct (0 <? lo)%nat eqn:E.
    + apply Nat.ltb_lt in E. split; [discriminate|]. intros [H _]. lia.
    + apply Nat.ltb_ge in E. destruct (ok O) eqn:E0.
      * split.
        -- intros H. injection H as <-. repeat split; auto; try lia.
        -- intros [H _]. f_equal. lia.
      * split; [discriminate|]. intros [H [Hj _]]. assert (j = O) by lia. congruence.
  - destruct (S i <? lo)%nat eqn:E.
    + apply Nat.ltb_lt in E. split; [discriminate|]. intros [H _]. lia.
    + apply Nat.ltb_ge in E. destruct (ok (S i)) eqn:Ei.
      * split.
        -- intros H. injection H as <-. repeat split; auto; try lia.
        -- intros [H [Hj Hlast]]. f_equal.
           destruct (decide (j = S i)) as [->|Hne]; [reflexivity|].
           rewrite (Hlast (S i)) in Ei by lia. discriminate.
      * rewrite IH. split.
        -- intros [H [Hj Hlast]]. repeat split; auto; try lia.
           intros k Hk. destruct (decide (k = S i)) as [->|Hne]; [exact Ei|].
           apply Hlast. lia.
        -- intros [H [Hj Hlast]].
           assert (j <> S i) by (intros ->; congruence).
           repeat split; auto; try lia. intros k Hk. apply Hlast. lia.
Qed.

Lemma searchDown_None ok lo i :
  searchDown ok lo i = None <-> forall k, (lo <= k <= i)%nat -> ok k = false.
Proof.
  split.
  - intros H k Hk. destruct (ok k) eqn:E; [|reflexivity]. exfalso.
    revert H. induction i as [|i IH]; rewrite searchDown_unfold.
    + assert (k = O) by lia. subst k.
      destruct (0 <? lo)%nat eqn:E0; [apply Nat.ltb_lt in E0; lia|].
      rewrite E. discriminate.
    + destruct (S i <? lo)%nat eqn:E0; [apply Nat.ltb_lt in E0; lia|].
      destruct (ok (S i)) eqn:Ei; [discriminate|].
      apply IH. destruct (decide (k = S i)) as [->|Hne]; [congruence|lia].
  - intros H. destruct (searchDown ok lo i) as [j|] eqn:E; [|reflexivity].
    apply searchDown_Some in E as [Hj [Hok _]]. rewrite (H j Hj) in Hok. discriminate.
Qed.

Lemma Qltb_irrefl (a : Q) : Qltb a a = false.
Proof. apply Qltb_ge. apply Qle_refl. Qed.

Lemma orObj_None {A : Type} (o : option A) : orObj o None = o.
Proof. destruct o; reflexivity. Qed.

Lemma isFractalHigh3_range bars k :
  isFractalHigh3 bars k = true -> (1 <= k)%nat /\ (S k < length bars)%nat.
Proof.
  unfold isFractalHigh3. intros H.
  destruct (bars !! (k - 1)%nat) as [prev|] eqn:E1; [|discriminate].
  destruct (bars !! k) as [middle|] eqn:E2; [|discriminate].
  destruct (bars !! (k + 1)%nat) as [next|] eqn:E3; [|discriminate].
  apply lookup_lt_Some in E3. split; [|lia].
  destruct k as [|k]; [|lia]. simpl in E1. rewrite E2 in E1. injection E1 as <-.
  rewrite Qltb_irrefl in H. discriminate.
Qed.

Lemma isFractalHigh5_range bars k :
  isFractalHigh5 bars k = true -> (k + 2 < length bars)%nat.
Proof.
  unfold isFractalHigh5. intros H.
  destruct (bars !! (k - 2)%nat); [|discriminate].
  destruct (bars !! (k - 1)%nat); [|discriminate].
  destruct (bars !! k); [|discriminate].
  destruct (bars !! (k + 1)%nat); [|discriminate].
  destruct (bars !! (k + 2)%nat) eqn:E; [|discriminate].
  now apply lookup_lt_Some in E.
Qed.

Lemma isFractalHigh5_is_3 bars k :
  (2 <= k)%nat -> isFractalHigh5 bars k = true -> isFractalHigh3 bars k = true.
Proof.
  unfold isFractalHigh5, isFractalHigh3. intros Hk H.
  destruct (bars !! (k - 2)%nat); [|discriminate].
  destruct (bars !! (k - 1)%nat); [|discriminate].
  destruct (bars !! k); [|discriminate].
  destruct (bars !! (k + 1)%nat); [|discriminate].
  destruct (bars !! (k + 2)%nat); [|discriminate].
  apply andb_true_iff in H as [H H4]. apply andb_true_iff in H as [H H3].
  apply andb_true_iff in H as [H1 H2]. now rewrite H1, H3.
Qed.

Lemma locate_high_fractal3 bars k :
  isFractalHigh3 bars k = true -> isSome (locate high bars k) = true.
Proof.
  unfold isFractalHigh3, locate. intros H.
  destruct (bars !! (k - 1)%nat); [|discriminate].
  destruct (bars !! k); [reflexivity|discriminate].
Qed.

Lemma locate_high_fractal5 bars k :
  isFractalHigh5 bars k = true -> isSome (locate high bars k) = true.
Proof.
  unfold isFractalHigh5, locate. intros H.
  destruct (bars !! (k - 2)%nat); [|discriminate].
  destruct (bars !! (k - 1)%nat); [|discriminate].
  destruct (bars !! k); [reflexivity|discriminate].
Qed.

Lemma isFractalLow3_range bars k :
  isFractalLow3 bars k = true -> (1 <= k)%nat /\ (S k < length bars)%nat.
Proof.
  unfold isFractalLow3. intros H.
  destruct (bars !! (k - 1)%nat) as [prev|] eqn:E1; [|discriminate].
  destruct (bars !! k) as [middle|] eqn:E2; [|discriminate].
  destruct (bars !! (k + 1)%nat) as [next|] eqn:E3; [|discriminate].
  apply lookup_lt_Some in E3. split; [|lia].
  destruct k as [|k]; [|lia]. simpl in E1. rewrite E2 in E1. injection E1 as <-.
  rewrite Qltb_irrefl in H. discriminate.
Qed.

Lemma isFractalLow5_range bars k :
  isFractalLow5 bars k = true -> (k + 2 < length bars)%nat.
Proof.
  unfold isFractalLow5. intros H.
  destruct (bars !! (k - 2)%nat); [|discriminate].
  destruct (bars !! (k - 1)%nat); [|discriminate].
  destruct (bars !! k); [|discriminate].
  destruct (bars !! (k + 1)%nat); [|discriminate].
  destruct (bars !! (k + 2)%nat) eqn:E; [|discriminate].
  now apply lookup_lt_Some in E.
Qed.

Lemma isFractalLow5_is_3 bars k :
  (2 <= k)%nat -> isFractalLow5 bars k = true -> isFractalLow3 bars k = true.
Proof.
  unfold isFractalLow5, isFractalLow3. intros Hk H.
  destruct (bars !! (k - 2)%nat); [|discriminate].
  destruct (bars !! (k - 1)%nat); [|discriminate].
  destruct (bars !! k); [|discriminate].
  destruct (bars !! (k + 1)%nat); [|discriminate].
  destruct (bars !! (k + 2)%nat); [|discriminate].
  apply andb_true_iff in H as [H H4]. apply andb_true_iff in H as [H H3].
  apply andb_true_iff in H as [H1 H2]. now rewrite H1, H3.
Qed.

Lemma locate_low_fractal3 bars k :
  isFractalLow3 bars k = true -> isSome (locate low bars k) = true.
Proof.
  unfold isFractalLow3, locate. intros H.
  destruct (bars !! (k - 1)%nat); [|discriminate].
  destruct (bars !! k); [reflexivity|discriminate].
Qed.

Lemma locate_low_fractal5 bars k :
  isFractalLow5 bars k = true -> isSome (locate low bars k) = true.
Proof.
  unfold isFractalLow5, locate. intros H.
  destruct (bars !! (k - 2)%nat); [|discriminate].
  destruct (bars !! (k - 1)%nat); [|discriminate].
  destruct (bars !! k); [reflexivity|discriminate].
Qed.

Lemma loop5_sides bars i :
  forall ph pl,
    fst (loop5 bars i ph pl)
    = orObj ph (searchDown (isFractalHigh5 bars) 2 i ≫= locate high bars)
    /\ snd (loop5 bars i ph pl)
       = orObj pl (searchDown (isFractalLow5 bars) 2 i ≫= locate low bars).
Proof.
  induction i as [|i IH]; intros ph pl; rewrite loop5_unfold.
  - simpl. now rewrite !orObj_None.
  - rewrite (searchDown_unfold (isFractalHigh5 bars) 2 (S i)),
      (searchDown_unfold (isFractalLow5 bars) 2 (S i)).
    destruct (S i <? 2)%nat eqn:E; [simpl; now rewrite !orObj_None|].
    cbv zeta.
    destruct (isFractalHigh5 bars (S i)) eqn:Eh; destruct (isFractalLow5 bars (S i)) eqn:El;
      destruct ph as [h|]; destruct pl as [l|]; cbn [isSome negb andb orObj mbind option_bind];
      try (destruct (locate high bars (S i)) as [lh|] eqn:Lh;
           [|apply locate_high_fractal5 in Eh; rewrite Lh in Eh; discriminate]);
      try (destruct (locate low bars (S i)) as [ll|] eqn:Ll;
           [|apply locate_low_fractal5 in El; rewrite Ll in El; discriminate]);
      cbn [isSome negb andb orObj mbind option_bind fst snd];
      try (split; reflexivity);
      match goal with
      | |- context [loop5 bars i ?a ?b] => destruct (IH a b) as [-> ->]
      end; cbn [orObj]; split; reflexivity.
Qed.

Lemma loop3_sides bars ph5 pl5 i :
  forall ph pl,
    fst (loop3 bars ph5 pl5 i ph pl)
    = orObj ph (if isSome ph5 then None
                else searchDown (isFractalHigh3 bars) 1 i ≫= locate high bars)
    /\ snd (loop3 bars ph5 pl5 i ph pl)
       = orObj pl (if isSome pl5 then None
                   else searchDown (isFractalLow3 bars) 1 i ≫= locate low bars).
Proof.
  induction i as [|i IH]; intros ph pl; rewrite loop3_unfold.
  - simpl. destruct (isSome ph5), (isSome pl5); now rewrite !orObj_None.
  - rewrite (searchDown_unfold (isFractalHigh3 bars) 1 (S i)),
      (searchDown_unfold (isFractalLow3 bars) 1 (S i)).
    destruct (S i <? 1)%nat eqn:E; [apply Nat.ltb_lt in E; lia|].
    cbv zeta.
    destruct (isFractalHigh3 bars (S i)) eqn:Eh; destruct (isFractalLow3 bars (S i)) eqn:El;
      destruct ph5 as [h5|]; destruct pl5 as [l5|];
      destruct ph as [h|]; destruct pl as [l|]; cbn [isSome negb andb orb orObj mbind option_bind];
      try (destruct (locate high bars (S i)) as [lh|] eqn:Lh;
           [|apply locate_high_fractal3 in Eh; rewrite Lh in Eh; discriminate]);
      try (destruct (locate low bars (S i)) as [ll|] eqn:Ll;
           [|apply locate_low_fractal3 in El; rewrite Ll in El; discriminate]);
      cbn [isSome negb andb orb orObj mbind option_bind fst snd];
      try (split; reflexivity);
      match goal with
      | |- context [loop3 bars ?x ?y i ?a ?b] => destruct (IH a b) as [-> ->]
      end; cbn [isSome orObj]; split; reflexivity.
Qed.

Lemma exitPivotLoop_search historicalBars ty i :
  exitPivotLoop historicalBars ty i
  = searchDown (exitFractal ty historicalBars) 1 i
      ≫= (fun j => exitPivotOf ty <$> historicalBars !! j).
Proof.
  induction i as [|i IH]; [destruct ty; reflexivity|].
  rewrite searchDown_unfold. cbn [exitPivotLoop].
  destruct (S i <? 1)%nat eqn:E; [reflexivity|].
  destruct ty; cbn [exitFractal].
  - destruct (isFractalLow3 historicalBars (S i)).
    + cbn [mbind option_bind]. unfold locate. now destruct (historicalBars !! S i).
    + exact IH.
  - destruct (isFractalHigh3 historicalBars (S i)).
    + cbn [mbind option_bind]. unfold locate. now destruct (historicalBars !! S i).
    + exact IH.
Qed.

Lemma exitFractal_range ty bars k :
  exitFractal ty bars k = true -> (1 <= k)%nat /\ (S k < length bars)%nat.
Proof. destruct ty; [apply isFractalLow3_range|apply isFractalHigh3_range]. Qed.

End BackwardSearch.

Lemma findExitProjectionPivot_latest
  (historicalBars : list Bar) (ty : PivotFinders.SignalType) :
  (forall p, PivotFinders.findExitProjectionPivot historicalBars ty = Some p ->
     exists j b,
       historicalBars !! j = Some b /\ p = exitPivotOf ty b
       /\ (1 <= j)%nat /\ (S j < length historicalBars)%nat
       /\ lastIndex (exitFractal ty historicalBars) j)
  /\ (PivotFinders.findExitProjectionPivot historicalBars ty = None <->
      forall k, exitFractal ty historicalBars k = false).
Proof.
  unfold PivotFinders.findExitProjectionPivot.
  destruct (length historicalBars <? 3)%nat eqn:E.
  - apply Nat.ltb_lt in E. split; [discriminate|]. split; [|reflexivity].
    intros _ k. destruct (exitFractal ty historicalBars k) eqn:Ek; [|reflexivity].
    apply exitFractal_range in Ek. lia.
  - apply Nat.ltb_ge in E. rewrite exitPivotLoop_search. split.
    + intros p Hp.
      destruct (searchDown _ 1 _) as [j|] eqn:Es; [|discriminate].
      cbn [mbind option_bind] in Hp.
      destruct (historicalBars !! j) as [b|] eqn:Eb; [|discriminate].
      injection Hp as <-. apply searchDown_Some in Es as (Hj & Hok & Hlast).
      exists j, b. repeat split; auto; try lia.
      intros k Hk. destruct (exitFractal ty historicalBars k) eqn:Ek; [|reflexivity].
      rewrite <- Ek. apply Hlast. apply exitFractal_range in Ek. lia.
    + split.
      * intros H k. destruct (exitFractal ty historicalBars k) eqn:Ek; [|reflexivity].
        destruct (searchDown _ 1 _) as [j|] eqn:Es.
        -- apply searchDown_Some in Es as (Hj & Hok & _).
           pose proof (exitFractal_range _ _ _ Hok) as [_ Hr].
           apply lookup_lt_is_Some_2 in Hr as [b Hb].
           assert (Hj' : (j < length historicalBars)%nat) by lia.
           apply lookup_lt_is_Some_2 in Hj' as [bj Hbj].
           cbn [mbind option_bind] in H. rewrite Hbj in H. discriminate.
        -- pose proof (proj1 (searchDown_None _ _ _) Es k) as Hn.
           rewrite <- Ek. apply Hn. apply exitFractal_range in Ek. lia.
      * intros H. rewrite (proj2 (searchDown_None _ 1 _)); [reflexivity|].
        intros k _. apply H.
Qed.

(** X3.  [findExitProjectionPivot] returns the most recent 3-bar fractal of
    its side (a low for LONG, a high for SHORT): when it returns a pivot,
    that pivot is the date and price of a fractal bar with a neighbour on
    each side and no later bar of the history is such a fractal; it returns
    [null] exactly when the history has no such fractal (in particular when
    it has fewer than 3 bars). *)
Theorem exit_pivot_is_latest_fractal
  (historicalBars : list Bar) (ty : PivotFinders.SignalType) :
  (forall p, PivotFinders.findExitProjectionPivot historicalBars ty = Some p ->
     exists j b,
       historicalBars !! j = Some b /\ p = exitPivotOf ty b
       /\ (1 <= j)%nat /\ (S j < length historicalBars)%nat
       /\ lastIndex (exitFractal ty historicalBars) j)
  /\ (PivotFinders.findExitProjectionPivot historicalBars ty = None <->
      forall k, exitFractal ty historicalBars k = false).
Proof. apply findExitProjectionPivot_latest. Qed.

(** X4.  The initial high pivot of [findInitialPivots] is the most recent
    5-bar fractal high of the window when there is one (at an index with two
    bars on each side), otherwise the most recent 3-bar fractal high, and
    there is none exactly when the window has no 3-bar fractal high; the
    low side of the window has no part in it. *)
Theorem initial_high_prefers_latest_5_bar_fractal (bars : list Bar) :
  ((exists j, (2 <= j)%nat /\ PivotFinders.isFractalHigh5 bars j = true) ->
   exists j, (2 <= j)%nat /\ lastIndex (PivotFinders.isFractalHigh5 bars) j
             /\ fst (PivotFinders.initialPivots bars) = PivotFinders.locate high bars j)
  /\ ((forall j, (2 <= j)%nat -> PivotFinders.isFractalHigh5 bars j = false) ->
      (exists j, PivotFinders.isFractalHigh3 bars j = true) ->
      exists j, lastIndex (PivotFinders.isFractalHigh3 bars) j
                /\ fst (PivotFinders.initialPivots bars) = PivotFinders.locate high bars j)
  /\ (fst (PivotFinders.initialPivots bars) = None <->
      forall j, PivotFinders.isFractalHigh3 bars j = false).
Proof.
  assert (fst (PivotFinders.initialPivots bars)
          = PivotFinders.orObj
              (if (5 <=? length bars)%nat
               then searchDown (PivotFinders.isFractalHigh5 bars) 2 (length bars - 3)
                      ≫= PivotFinders.locate high bars
               else None)
              (searchDown (PivotFinders.isFractalHigh3 bars) 1 (length bars - 2)
                 ≫= PivotFinders.locate high bars)) as Hinit.
  { unfold PivotFinders.initialPivots.
    destruct (5 <=? length bars)%nat.
    - pose proof (loop5_sides bars (length bars - 3) None None) as [H1 H2].
      destruct (PivotFinders.loop5 bars (length bars - 3) None None) as [ph5 pl5].
      cbn [fst snd PivotFinders.orObj] in H1, H2.
      pose proof (loop3_sides bars ph5 pl5 (length bars - 2) None None) as [H3 H4].
      destruct (PivotFinders.loop3 bars ph5 pl5 (length bars - 2) None None) as [ph3 pl3].
      cbn [fst snd PivotFinders.orObj] in H3, H4. cbn [fst snd].
      rewrite <- H1, H3. now destruct ph5.
    - pose proof (loop3_sides bars None None (length bars - 2) None None) as [H3 H4].
      destruct (PivotFinders.loop3 bars None None (length bars - 2) None None) as [ph3 pl3].
      cbn [fst snd PivotFinders.orObj PivotFinders.isSome] in H3, H4. cbn [fst snd].
      now rewrite H3. }
  assert (Hlast5 : forall j, searchDown (PivotFinders.isFractalHigh5 bars) 2 (length bars - 3)
                             = Some j ->
                             (2 <= j)%nat /\ lastIndex (PivotFinders.isFractalHigh5 bars) j).
  { intros j Hj. apply searchDown_Some in Hj as (Hr & Hok & Hl). split; [lia|].
    split; [exact Hok|]. intros k Hk.
    destruct (PivotFinders.isFractalHigh5 bars k) eqn:Ek; [|reflexivity].
    rewrite <- Ek. apply Hl. apply isFractalHigh5_range in Ek. lia. }
  assert (Hlast3 : forall j, searchDown (PivotFinders.isFractalHigh3 bars) 1 (length bars - 2)
                             = Some j -> lastIndex (PivotFinders.isFractalHigh3 bars) j).
  { intros j Hj. apply searchDown_Some in Hj as (Hr & Hok & Hl).
    split; [exact Hok|]. intros k Hk.
    destruct (PivotFinders.isFractalHigh3 bars k) eqn:Ek; [|reflexivity].
    rewrite <- Ek. apply Hl. apply isFractalHigh3_range in Ek. lia. }
  split; [|split].
  - intros (j0 & Hj0 & Hf0).
    pose proof (isFractalHigh5_range _ _ Hf0) as Hlen.
    destruct (5 <=? length bars)%nat eqn:E5; [|apply Nat.leb_gt in E5; lia].
    destruct (searchDown (PivotFinders.isFractalHigh5 bars) 2 (length bars - 3)) as [j|] eqn:Es.
    + destruct (Hlast5 j eq_refl) as [Hj Hl]. exists j. repeat split; try apply Hl; auto.
      rewrite Hinit. cbn [mbind option_bind].
      pose proof (locate_high_fractal5 bars j (proj1 Hl)) as Hs.
      destruct (PivotFinders.locate high bars j); [reflexivity|discriminate].
    + pose proof (proj1 (searchDown_None _ _ _) Es j0) as Hn.
      rewrite Hn in Hf0 by lia. discriminate.
  - intros Hno5 (j0 & Hf0).
    assert ((if (5 <=? length bars)%nat
             then searchDown (PivotFinders.isFractalHigh5 bars) 2 (length bars - 3)
                    ≫= PivotFinders.locate high bars
             else None) = None) as Hnone.
    { destruct (5 <=? length bars)%nat; [|reflexivity].
      rewrite (proj2 (searchDown_None _ 2 _)); [reflexivity|]. intros k Hk. apply Hno5. lia. }
    rewrite Hnone in Hinit. cbn [PivotFinders.orObj] in Hinit.
    destruct (searchDown (PivotFinders.isFractalHigh3 bars) 1 (length bars - 2)) as [j|] eqn:Es.
    + exists j. split; [now apply Hlast3|]. exact Hinit.
    + pose proof (proj1 (searchDown_None _ _ _) Es j0) as Hn.
      pose proof (isFractalHigh3_range _ _ Hf0). rewrite Hn in Hf0 by lia. discriminate.
  - rewrite Hinit. split.
    + intros H j. destruct (PivotFinders.isFractalHigh3 bars j) eqn:Ej; [|reflexivity].
      exfalso.
      destruct (searchDown (PivotFinders.isFractalHigh3 bars) 1 (length bars - 2)) as [k|] eqn:Es.
      * apply searchDown_Some in Es as (_ & Hok & _).
        pose proof (locate_high_fractal3 bars k Hok) as Hs.
        destruct (if (5 <=? length bars)%nat then _ else _); [discriminate|].
        cbn [PivotFinders.orObj mbind option_bind] in H. rewrite H in Hs. discriminate.
      * pose proof (proj1 (searchDown_None _ _ _) Es j) as Hn.
        pose proof (isFractalHigh3_range _ _ Ej). rewrite Hn in Ej by lia. discriminate.
    + intros H.
      rewrite (proj2 (searchDown_None _ 1 _)) by (intros k _; apply H).
      destruct (5 <=? length bars)%nat; [|reflexivity].
      rewrite (proj2 (searchDown_None _ 2 _)); [reflexivity|].
      intros k Hk. destruct (PivotFinders.isFractalHigh5 bars k) eqn:Ek; [|reflexivity].
      apply isFractalHigh5_is_3 in Ek; [|lia]. rewrite H in Ek. discriminate.
Qed.

(** X5.  The initial low pivot of [findInitialPivots] is the most recent
    5-bar fractal low of the window when there is one (at an index with two
    bars on each side), otherwise the most recent 3-bar fractal low, and
    there is none exactly when the window has no 3-bar fractal low; the
    high side of the window has no part in it. *)
Theorem initial_low_prefers_latest_5_bar_fractal (bars : list Bar) :
  ((exists j, (2 <= j)%nat /\ PivotFinders.isFractalLow5 bars j = true) ->
   exists j, (2 <= j)%nat /\ lastIndex (PivotFinders.isFractalLow5 bars) j
             /\ snd (PivotFinders.initialPivots bars) = PivotFinders.locate low bars j)
  /\ ((forall j, (2 <= j)%nat -> PivotFinders.isFractalLow5 bars j = false) ->
      (exists j, PivotFinders.isFractalLow3 bars j = true) ->
      exists j, lastIndex (PivotFinders.isFractalLow3 bars) j
                /\ snd (PivotFinders.initialPivots bars) = PivotFinders.locate low bars j)
  /\ (snd (PivotFinders.initialPivots bars) = None <->
      forall j, PivotFinders.isFractalLow3 bars j = false).
Proof.
  assert (snd (PivotFinders.initialPivots bars)
          = PivotFinders.orObj
              (if (5 <=? length bars)%nat
               then searchDown (PivotFinders.isFractalLow5 bars) 2 (length bars - 3)
                      ≫= PivotFinders.locate low bars
               else None)
              (searchDown (PivotFinders.isFractalLow3 bars) 1 (length bars - 2)
                 ≫= PivotFinders.locate low bars)) as Hinit.
  { unfold PivotFinders.initialPivots.
    destruct (5 <=? length bars)%nat.
    - pose proof (loop5_sides bars (length bars - 3) None None) as [H1 H2].
      destruct (PivotFinders.loop5 bars (length bars - 3) None None) as [ph5 pl5].
      cbn [fst snd PivotFinders.orObj] in H1, H2.
      pose proof (loop3_sides bars ph5 pl5 (length bars - 2) None None) as [H3 H4].
      destruct (PivotFinders.loop3 bars ph5 pl5 (length bars - 2) None None) as [ph3 pl3].
      cbn [fst snd PivotFinders.orObj] in H3, H4. cbn [fst snd].
      rewrite <- H2, H4. now destruct pl5.
    - pose proof (loop3_sides bars None None (length bars - 2) None None) as [H3 H4].
      destruct (PivotFinders.loop3 bars None None (length bars - 2) None None) as [ph3 pl3].
      cbn [fst snd PivotFinders.orObj PivotFinders.isSome] in H3, H4. cbn [fst snd].
      now rewrite H4. }
  assert (Hlast5 : forall j, searchDown (PivotFinders.isFractalLow5 bars) 2 (length bars - 3)
                             = Some j ->
                             (2 <= j)%nat /\ lastIndex (PivotFinders.isFractalLow5 bars) j).
  { intros j Hj. apply searchDown_Some in Hj as (Hr & Hok & Hl). split; [lia|].
    split; [exact Hok|]. intros k Hk.
    destruct (PivotFinders.isFractalLow5 bars k) eqn:Ek; [|reflexivity].
    rewrite <- Ek. apply Hl. apply isFractalLow5_range in Ek. lia. }
  assert (Hlast3 : forall j, searchDown (PivotFinders.isFractalLow3 bars) 1 (length bars - 2)
                             = Some j -> lastIndex (PivotFinders.isFractalLow3 bars) j).
  { intros j Hj. apply searchDown_Some in Hj as (Hr & Hok & Hl).
    split; [exact Hok|]. intros k Hk.
    destruct (PivotFinders.isFractalLow3 bars k) eqn:Ek; [|reflexivity].
    rewrite <- Ek. apply Hl. apply isFractalLow3_range in Ek. lia. }
  split; [|split].
  - intros (j0 & Hj0 & Hf0).
    pose proof (isFractalLow5_range _ _ Hf0) as Hlen.
    destruct (5 <=? length bars)%nat eqn:E5; [|apply Nat.leb_gt in E5; lia].
    destruct (searchDown (PivotFinders.isFractalLow5 bars) 2 (length bars - 3)) as [j|] eqn:Es.
    + destruct (Hlast5 j eq_refl) as [Hj Hl]. exists j. repeat split; try apply Hl; auto.
      rewrite Hinit. cbn [mbind option_bind].
      pose proof (locate_low_fractal5 bars j (proj1 Hl)) as Hs.
      destruct (PivotFinders.locate low bars j); [reflexivity|discriminate].
    + pose proof (proj1 (searchDown_None _ _ _) Es j0) as Hn.
      rewrite Hn in Hf0 by lia. discriminate.
  - intros Hno5 (j0 & Hf0).
    assert ((if (5 <=? length bars)%nat
             then searchDown (PivotFinders.isFractalLow5 bars) 2 (length bars - 3)
                    ≫= PivotFinders.locate low bars
             else None) = None) as Hnone.
    { destruct (5 <=? length bars)%nat; [|reflexivity].
      rewrite (proj2 (searchDown_None _ 2 _)); [reflexivity|]. intros k Hk. apply Hno5. lia. }
    rewrite Hnone in Hinit. cbn [PivotFinders.orObj] in Hinit.
    destruct (searchDown (PivotFinders.isFractalLow3 bars) 1 (length bars - 2)) as [j|] eqn:Es.
    + exists j. split; [now apply Hlast3|]. exact Hinit.
    + pose proof (proj1 (searchDown_None _ _ _) Es j0) as Hn.
      pose proof (isFractalLow3_range _ _ Hf0). rewrite Hn in Hf0 by lia. discriminate.
  - rewrite Hinit. split.
    + intros H j. destruct (PivotFinders.isFractalLow3 bars j) eqn:Ej; [|reflexivity].
      exfalso.
      destruct (searchDown (PivotFinders.isFractalLow3 bars) 1 (length bars - 2)) as [k|] eqn:Es.
      * apply searchDown_Some in Es as (_ & Hok & _).
        pose proof (locate_low_fractal3 bars k Hok) as Hs.
        destruct (if (5 <=? length bars)%nat then _ else _); [discriminate|].
        cbn [PivotFinders.orObj mbind option_bind] in H. rewrite H in Hs. discriminate.
      * pose proof (proj1 (searchDown_None _ _ _) Es j) as Hn.
        pose proof (isFractalLow3_range _ _ Ej). rewrite Hn in Ej by lia. discriminate.
    + intros H.
      rewrite (proj2 (searchDown_None _ 1 _)) by (intros k _; apply H).
      destruct (5 <=? length bars)%nat; [|reflexivity].
      rewrite (proj2 (searchDown_None _ 2 _)); [reflexivity|].
      intros k Hk. destruct (PivotFinders.isFractalLow5 bars k) eqn:Ek; [|reflexivity].
      apply isFractalLow5_is_3 in Ek; [|lia]. rewrite H in Ek. discriminate.
Qed.

(** ** The scaling estimators: [calculateATR], [calculateTrendStructureRatio] *)

Section Estimators.
Import PivotFinders TechnicalIndicators.

Lemma Qdiv_nonneg (a b : Q) : 0 <= a -> 0 <= b -> 0 <= a / b.
Proof.
  intros Ha Hb. unfold Qdiv. apply Qmult_le_0_compat; [exact Ha|].
  now apply Qinv_le_0_compat.
Qed.

Lemma Qmax_r (a b : Q) : b <= Qmax a b.
Proof.
  unfold Qmax. destruct (Qle_bool a b) eqn:E; [apply Qle_refl|].
  apply Qlt_le_weak. apply Qnot_le_lt. intros H. apply Qle_bool_iff in H. congruence.
Qed.

Lemma foldl_Qplus_nonneg (xs : list Q) :
  forall acc, 0 <= acc -> Forall (fun x => 0 <= x) xs -> 0 <= foldl Qplus acc xs.
Proof.
  induction xs as [|x xs IH]; intros acc Hacc H; simpl; [exact Hacc|].
  apply Forall_cons in H as [Hx H]. apply IH; [|exact H].
  rewrite <- (Qplus_0_r 0). now apply Qplus_le_compat.
Qed.

Lemma sumQ_nonneg (xs : list Q) :
  Forall (fun x => 0 <= x) xs -> 0 <= sumQ xs.
Proof. apply foldl_Qplus_nonneg. apply Qle_refl. Qed.

Lemma lastN_Forall {A : Type} (P : A -> Prop) (n : nat) (l : list A) :
  Forall P l -> Forall P (lastN n l).
Proof.
  intros H. unfold lastN. destruct (n =? 0)%nat; [exact H|]. now apply Forall_drop.
Qed.

Lemma lastN_length {A : Type} (n : nat) (l : list A) :
  (0 < n <= length l)%nat -> length (lastN n l) = n.
Proof.
  intros H. unfold lastN. destruct (n =? 0)%nat eqn:E; [apply Nat.eqb_eq in E; lia|].
  rewrite length_drop. lia.
Qed.

Lemma trueRanges_nonneg (bars : list Bar) : Forall (fun x => 0 <= x) (trueRanges bars).
Proof.
  induction bars as [|prev bars IH]; [constructor|].
  destruct bars as [|current bars]; [constructor|].
  cbn [trueRanges]. constructor; [|exact IH].
  eapply Qle_trans; [apply Qabs_nonneg|apply Qmax_r].
Qed.

Lemma trueRanges_length (bars : list Bar) : length (trueRanges bars) = (length bars - 1)%nat.
Proof.
  induction bars as [|prev bars IH]; [reflexivity|].
  destruct bars as [|current bars]; [reflexivity|].
  cbn [trueRanges length] in *. rewrite IH. lia.
Qed.

Lemma calculateATR_nonneg bars period v :
  calculateATR bars period = Some v -> 0 <= v.
Proof.
  unfold calculateATR. destruct (length bars <? period + 1)%nat; [discriminate|].
  destruct (length (lastN period (trueRanges bars)) <? period)%nat; [discriminate|].
  intros H. injection H as <-. apply Qdiv_nonneg.
  - apply sumQ_nonneg, lastN_Forall, trueRanges_nonneg.
  - change 0 with (inject_Z 0). rewrite <- Zle_Qle. lia.
Qed.

Lemma slopesOf_nonneg (pivots : list TrendPivot) : Forall (fun x => 0 <= x) (slopesOf pivots).
Proof.
  induction pivots as [|p1 pivots IH]; [constructor|].
  destruct pivots as [|p2 pivots]; [constructor|].
  cbn [slopesOf]. destruct (fst p1 <? fst p2)%nat; [|exact IH].
  constructor; [|exact IH]. apply Qdiv_nonneg; [apply Qabs_nonneg|].
  change 0 with (inject_Z 0). rewrite <- Zle_Qle. lia.
Qed.

Lemma calculateTrendStructureRatio_nonneg bars numPivots pivotLookaround v :
  calculateTrendStructureRatio bars numPivots pivotLookaround = Some v -> 0 <= v.
Proof.
  unfold calculateTrendStructureRatio.
  destruct (length bars <? pivotLookaround * 2 + 1)%nat; [discriminate|].
  destruct (length (trendLoop _ _ _ _ _) <? 2)%nat; [discriminate|].
  destruct (length (slopesOf _) =? 0)%nat; [discriminate|].
  intros H. injection H as <-. apply Qdiv_nonneg.
  - apply sumQ_nonneg, slopesOf_nonneg.
  - change 0 with (inject_Z 0). rewrite <- Zle_Qle. lia.
Qed.

Lemma truthy_positive (x : option Q) :
  (forall v, x = Some v -> 0 <= v) -> truthy x = true -> 0 < number x.
Proof.
  destruct x as [v|]; [|discriminate]. simpl. intros H Ht.
  specialize (H v eq_refl). apply Qle_lt_or_eq in H as [H|H]; [exact H|].
  symmetry in H. apply Qeq_bool_iff in H. rewrite H in Ht. discriminate.
Qed.

Lemma finalScalingFactor_positive (t v : option Q) :
  (forall x, t = Some x -> 0 <= x) -> (forall x, v = Some x -> 0 <= x) ->
  0 < Assembler.finalScalingFactor t v.
Proof.
  intros Ht Hv. unfold Assembler.finalScalingFactor, orElse.
  destruct (truthy t) eqn:Et.
  - pose proof (truthy_positive t Ht Et) as Hpt.
    destruct (truthy v) eqn:Ev; simpl.
    + pose proof (truthy_positive v Hv Ev) as Hpv.
      unfold Assembler.TREND_WEIGHT, Assembler.VOLATILITY_WEIGHT.
      rewrite <- (Qplus_0_r 0). apply Qplus_lt_le_compat.
      * apply Qmult_lt_0_compat; [exact Hpt|reflexivity].
      * apply Qlt_le_weak. apply Qmult_lt_0_compat; [exact Hpv|reflexivity].
    + rewrite Et. exact Hpt.
  - simpl. destruct (truthy v) eqn:Ev; [|reflexivity].
    exact (truthy_positive v Hv Ev).
Qed.

End Estimators.

(** X6.  For a positive period, [calculateATR] returns a value exactly when
    there are more than [period] bars, and that value is never negative. *)
Theorem atr_needs_period_plus_one_bars (bars : list Bar) (period : nat) :
  (0 < period)%nat ->
  (is_Some (TechnicalIndicators.calculateATR bars period) <->
   (period + 1 <= length bars)%nat)
  /\ (forall v, TechnicalIndicators.calculateATR bars period = Some v -> 0 <= v).
Proof.
  intros Hp. split; [|apply calculateATR_nonneg].
  unfold TechnicalIndicators.calculateATR.
  destruct (length bars <? period + 1)%nat eqn:E.
  - apply Nat.ltb_lt in E. split; [intros [v H]; discriminate|lia].
  - apply Nat.ltb_ge in E. rewrite lastN_length by (rewrite trueRanges_length; lia).
    rewrite Nat.ltb_irrefl. split; [intros _; exact E|eauto].
Qed.

Lemma atr_needs_period_plus_one_bars_witness :
  is_Some (TechnicalIndicators.calculateATR Examples.shortHistory 4) <->
  (4 + 1 <= length Examples.shortHistory)%nat.
Proof.
  exact (proj1 (atr_needs_period_plus_one_bars Examples.shortHistory 4 (Nat.lt_0_succ 3))).
Defined.

(** X7.  [calculateTrendStructureRatio] returns [null] on fewer than
    [2 * pivotLookaround + 1] bars, and the average slope it returns
    otherwise is never negative. *)
Theorem trend_ratio_is_a_nonnegative_slope
  (bars : list Bar) (numPivots pivotLookaround : nat) :
  ((length bars < 2 * pivotLookaround + 1)%nat ->
   PivotFinders.calculateTrendStructureRatio bars numPivots pivotLookaround = None)
  /\ (forall v,
        PivotFinders.calculateTrendStructureRatio bars numPivots pivotLookaround = Some v ->
        0 <= v).
Proof.
  split; [|apply calculateTrendStructureRatio_nonneg].
  intros H. unfold PivotFinders.calculateTrendStructureRatio.
  destruct (length bars <? pivotLookaround * 2 + 1)%nat eqn:E; [reflexivity|].
  apply Nat.ltb_ge in E. lia.
Qed.

Lemma scalingFactor_positive (history : list Bar) :
  0 < Assembler.finalScalingFactor
        (PivotFinders.calculateTrendStructureRatio history Assembler.SCALING_TREND_PIVOTS 10)
        (TechnicalIndicators.calculateATR history Assembler.SCALING_ATR_PERIOD).
Proof.
  apply finalScalingFactor_positive.
  - intros x. apply calculateTrendStructureRatio_nonneg.
  - intros x. apply calculateATR_nonneg.
Qed.

(** X8.  The scaling factor the assemblers derive from a history is always
    positive: the route's [finalScalingFactor > 0] test never fails and the
    [scalingFactor <= 0] return of [processSignal] is never taken. *)
Theorem assembled_scaling_factor_is_positive (history : list Bar) :
  0 < Assembler.finalScalingFactor
        (PivotFinders.calculateTrendStructureRatio history Assembler.SCALING_TREND_PIVOTS 10)
        (TechnicalIndicators.calculateATR history Assembler.SCALING_ATR_PERIOD).
Proof. apply scalingFactor_positive. Qed.

Section LookBack.
Import PivotFinders Assembler.

Lemma findIndex_Some {A : Type} (p : A -> bool) (l : list A) (i : nat) :
  findIndex p l = Some i -> exists x, l !! i = Some x /\ p x = true.
Proof.
  revert i. induction l as [|x l IH]; intros i H; [discriminate|].
  simpl in H. destruct (p x) eqn:E.
  - injection H as <-. eauto.
  - destruct (findIndex p l) as [k|]; [|discriminate]. injection H as <-.
    destruct (IH k eq_refl) as [y Hy]. eauto.
Qed.

Lemma pivotDate_exitPivotOf ty b : pivotDate (exitPivotOf ty b) = date b.
Proof. destruct ty; reflexivity. Qed.

End LookBack.

(** X9.  On bars of distinct dates, when the route's [calculateAndSetExit]
    finds the trigger bar and an exit pivot, the pivot lies at least two
    bars before the trigger, so the [timeDifference] it hands to
    [calculateProjectedExit] is at least 2 and the scaling factor positive:
    the signal always leaves with the projector's answer and the pivot, its
    trigger and entry fields untouched. *)
Theorem exit_pivot_is_two_bars_before_trigger
  (calculateProjectedExit : PivotFinders.SignalType -> Q -> Pivot -> Z -> Q -> option Q)
  (processedData : list Bar) (signal : TradeSignal) (ty : PivotFinders.SignalType)
  (triggerIndex : nat) (exitPivot : Pivot) :
  NoDup (date <$> processedData) ->
  Assembler.indexOfDate processedData (triggerDate signal) = Some triggerIndex ->
  PivotFinders.findExitProjectionPivot (take triggerIndex processedData) ty = Some exitPivot ->
  exists pivotIndex triggerBar f,
    Assembler.indexOfDate processedData (pivotDate exitPivot) = Some pivotIndex
    /\ (pivotIndex + 2 <= triggerIndex)%nat
    /\ processedData !! triggerIndex = Some triggerBar
    /\ date triggerBar = triggerDate signal
    /\ 0 < f
    /\ Assembler.calculateAndSetExit calculateProjectedExit processedData signal ty
       = mkTradeSignal (triggerDate signal) (entryDate signal) (entryPrice signal)
           (calculateProjectedExit ty (close triggerBar) exitPivot
              (Z.of_nat triggerIndex - Z.of_nat pivotIndex)%Z f)
           (Some exitPivot).
Proof.
  intros Hnd Hidx Hpivot.
  destruct (proj1 (findExitProjectionPivot_latest (take triggerIndex processedData) ty)
              exitPivot Hpivot) as (j & b & Hb & -> & Hj1 & Hj2 & _).
  rewrite length_take in Hj2.
  destruct (findIndex_Some _ _ _ Hidx) as (triggerBar & Hbar & Hdate).
  apply Z.eqb_eq in Hdate.
  rewrite lookup_take_lt in Hb by lia.
  assert (Hpi : Assembler.indexOfDate processedData (pivotDate (exitPivotOf ty b)) = Some j).
  { rewrite pivotDate_exitPivotOf. exact (findIndex_unique processedData Hnd j b Hb). }
  exists j, triggerBar,
    (Assembler.finalScalingFactor
       (PivotFinders.calculateTrendStructureRatio
          (Assembler.scalingHistory processedData triggerIndex)
          Assembler.SCALING_TREND_PIVOTS 10)
       (TechnicalIndicators.calculateATR
          (Assembler.scalingHistory processedData triggerIndex)
          Assembler.SCALING_ATR_PERIOD)).
  repeat split; auto; try lia.
  - apply scalingFactor_positive.
  - unfold Assembler.calculateAndSetExit. rewrite Hidx.
    destruct triggerIndex as [|k]; [lia|].
    rewrite Hpivot, Hbar, Hpi. cbv zeta.
    rewrite (proj2 (Qltb_lt 0 _) (scalingFactor_positive _)). reflexivity.
Qed.

Lemma exit_pivot_is_two_bars_before_trigger_witness :
  exists pivotIndex triggerBar f,
    Assembler.indexOfDate Examples.shortHistory (pivotDate (lowPivot 1 2)) = Some pivotIndex
    /\ (pivotIndex + 2 <= 4)%nat
    /\ Examples.shortHistory !! 4%nat = Some triggerBar
    /\ date triggerBar = triggerDate Examples.triggeredOnDay4
    /\ 0 < f
    /\ Assembler.calculateAndSetExit Examples.echoScaling Examples.shortHistory
         Examples.triggeredOnDay4 PivotFinders.LONG
       = mkTradeSignal (triggerDate Examples.triggeredOnDay4)
           (entryDate Examples.triggeredOnDay4) (entryPrice Examples.triggeredOnDay4)
           (Examples.echoScaling PivotFinders.LONG (close triggerBar) (lowPivot 1 2)
              (Z.of_nat 4 - Z.of_nat pivotIndex)%Z f)
           (Some (lowPivot 1 2)).
Proof.
  assert (Hnd : NoDup (date <$> Examples.shortHistory)).
  { apply (bool_decide_unpack _). vm_compute. exact I. }
  exact (exit_pivot_is_two_bars_before_trigger Examples.echoScaling Examples.shortHistory
           Examples.triggeredOnDay4 PivotFinders.LONG 4 (lowPivot 1 2) Hnd eq_refl eq_refl).
Defined.

(** ** The grouping of candidates *)

Section Stable.
Import Backtester.

Lemma filter_insertByKey {A : Type} (key : A -> Z) (k : Z) (x : A) (l : list A) :
  filter (fun t => key t = k) (insertByKey key x l)
  = filter (fun t => key t = k) (x :: l).
Proof.
  induction l as [|y l IH]; [reflexivity|].
  cbn [insertByKey]. destruct (key x <=? key y)%Z eqn:E; [reflexivity|].
  apply Z.leb_gt in E. rewrite (filter_cons _ y), IH, !filter_cons.
  destruct (decide (key x = k)) as [Hx|Hx]; [|reflexivity].
  destruct (decide (key y = k)) as [Hy|Hy]; [lia|reflexivity].
Qed.

Lemma filter_sortByKey {A : Type} (key : A -> Z) (k : Z) (l : list A) :
  filter (fun t => key t = k) (sortByKey key l) = filter (fun t => key t = k) l.
Proof.
  induction l as [|x l IH]; [reflexivity|].
  change (sortByKey key (x :: l)) with (insertByKey key x (sortByKey key l)).
  rewrite filter_insertByKey, !filter_cons, IH. reflexivity.
Qed.

Lemma pushed_None (trades : list PotentialTrade) (k : Z) :
  forall m : gmap Z (list PotentialTrade),
    foldl pushTrade m trades !! k = None <->
    m !! k = None /\ filter (fun t => entryTime t = k) trades = [].
Proof.
  induction trades as [|t trades IH]; intros m; simpl.
  - tauto.
  - rewrite IH, filter_cons. unfold pushTrade at 1.
    destruct (decide (entryTime t = k)) as [->|Hne].
    + rewrite lookup_insert_eq. split; [intros [H _]; discriminate|intros [_ H]; discriminate].
    + rewrite lookup_insert_ne by exact Hne. reflexivity.
Qed.

End Stable.

(** X10.  Looking a bar's timestamp up in [groupSignalsByEntryBar] gives the
    candidates entering on that bar -- the chosen signals with that entry
    date -- in the order of the input list (the sort is stable), and the
    timestamp has no entry at all exactly when there is no such candidate. *)
Theorem grouping_keeps_input_order (signals : list SignalData) (k : Z) :
  default [] (Backtester.groupSignalsByEntryBar signals !! k)
  = filter (fun t => Backtester.entryTime t = k)
      (filter (fun t => Backtester.hasEntryDate t = true)
         (omap Backtester.chooseSignal signals))
  /\ (Backtester.groupSignalsByEntryBar signals !! k = None <->
      filter (fun t => Backtester.entryTime t = k)
        (filter (fun t => Backtester.hasEntryDate t = true)
           (omap Backtester.chooseSignal signals)) = []).
Proof.
  split.
  - rewrite group_lookup. unfold Backtester.allPotentialTrades. apply filter_sortByKey.
  - unfold Backtester.groupSignalsByEntryBar. rewrite pushed_None, lookup_empty.
    unfold Backtester.allPotentialTrades. rewrite filter_sortByKey. tauto.
Qed.

(** ** Whole runs of [runBacktest] *)

Section Runs.
Import Backtester.

Lemma insertByKey_sorted {A : Type} (key : A -> Z) (x : A) (l : list A) :
  Sorted Z.le (key <$> l) -> Sorted Z.le (key <$> insertByKey key x l).
Proof.
  induction l as [|y l IH]; intros H; [repeat constructor|].
  cbn [insertByKey]. destruct (key x <=? key y)%Z eqn:E.
  - apply Z.leb_le in E. rewrite !fmap_cons. constructor; [exact H|]. now constructor.
  - apply Z.leb_gt in E. rewrite fmap_cons in *. apply Sorted_inv in H as [H Hd].
    constructor; [now apply IH|].
    destruct l as [|z l]; cbn [insertByKey].
    + constructor. lia.
    + destruct (key x <=? key z)%Z; rewrite fmap_cons; constructor; [lia|].
      rewrite fmap_cons in Hd. now apply HdRel_inv in Hd.
Qed.

Lemma sortByKey_sorted {A : Type} (key : A -> Z) (l : list A) :
  Sorted Z.le (key <$> sortByKey key l).
Proof.
  induction l as [|x l IH]; [constructor|].
  change (sortByKey key (x :: l)) with (insertByKey key x (sortByKey key l)).
  now apply insertByKey_sorted.
Qed.

Lemma processExits_idle cfg bar st :
  openPositions st = [] -> processExits cfg bar st = st.
Proof. intros H. unfold processExits. rewrite H. simpl. destruct st. simpl in H. now subst. Qed.

(** The candidates of a bar carry the bar's date as entry date. *)
Lemma signalsToProcess_entry cfg signals bar t :
  t ∈ signalsToProcess cfg (groupSignalsByEntryBar signals) bar ->
  entryDate (tradeSignal t) = Some (date bar)
  /\ exists sd, sd ∈ signals /\ chooseSignal sd = Some t.
Proof.
  intros H.
  assert (t ∈ default [] (groupSignalsByEntryBar signals !! date bar)) as Hin.
  { unfold signalsToProcess in H. destruct (allowSingleTradePerBar cfg && _); [|exact H].
    revert H. apply subseteq_take. }
  rewrite group_lookup in Hin. apply list_elem_of_filter in Hin as [Hk Hin].
  unfold allPotentialTrades in Hin. rewrite sortByKey_perm in Hin.
  apply list_elem_of_filter in Hin as [Hd Hin].
  apply list_elem_of_omap in Hin as (sd & Hsd & Hch).
  split; [|eauto].
  unfold hasEntryDate in Hd. unfold entryTime in Hk.
  destruct (entryDate (tradeSignal t)) as [d|]; [|discriminate]. simpl in Hk. now subst.
Qed.

Lemma mainLoop_idle cfg signals historicalData :
  noEntryOn signals historicalData ->
  forall bars, bars ⊆ historicalData ->
    mainLoop cfg signals historicalData bars = initialState cfg.
Proof.
  intros Hno bars. unfold mainLoop. generalize (eq_refl (initialState cfg)).
  generalize (initialState cfg) at 1 3 as st.
  induction bars as [|bar bars IH]; intros st Hst Hsub; [now subst|].
  simpl. apply IH.
  - unfold processBar. rewrite processExits_idle by (subst st; reflexivity).
    destruct (signalsToProcess cfg (groupSignalsByEntryBar signals) bar) as [|t rest] eqn:E;
      [exact Hst|].
    exfalso.
    destruct (signalsToProcess_entry cfg signals bar t) as [Hd (sd & Hsd & Hch)];
      [rewrite E; left|].
    apply (Hno sd t bar Hsd Hch); [|exact Hd]. apply Hsub. left.
  - intros x Hx. apply Hsub. now right.
Qed.

End Runs.

(** X11.  When no candidate's entry date is the date of a bar of the series
    (no candidates at all, no bars at all, or entries that fall on missing
    bars), the run trades nothing: the log is empty, the counts are 0 and
    the final capital is the initial capital. *)
Theorem run_without_entries_trades_nothing
  (signals : list SignalData) (historicalData : list Bar) (cfg : Backtester.Config) :
  noEntryOn signals historicalData ->
  Backtester.runBacktest signals historicalData cfg
  = ([], Backtester.mkSummary 0 0 0
           (Backtester.initialCapital cfg - Backtester.initialCapital cfg)
           (Backtester.initialCapital cfg) (Backtester.initialCapital cfg)).
Proof.
  intros H. unfold Backtester.runBacktest.
  rewrite (mainLoop_idle cfg signals historicalData H historicalData) by reflexivity.
  unfold Backtester.closeRemaining. simpl.
  destruct (last historicalData); reflexivity.
Qed.

Lemma run_without_entries_trades_nothing_witness :
  Backtester.runBacktest [Examples.candidate "A" 9 12 20] Examples.threeDays Examples.tenth
  = ([], Backtester.mkSummary 0 0 0
           (Backtester.initialCapital Examples.tenth - Backtester.initialCapital Examples.tenth)
           (Backtester.initialCapital Examples.tenth)
           (Backtester.initialCapital Examples.tenth)).
Proof.
  apply run_without_entries_trades_nothing.
  intros sd t bar Hsd Hch Hbar.
  apply list_elem_of_singleton in Hsd. subst sd. injection Hch as <-.
  repeat (apply elem_of_cons in Hbar as [->|Hbar]; [vm_compute; discriminate|]).
  inversion Hbar.
Defined.

(** X12.  The trade log that [runBacktest] returns is in non-decreasing
    order of entry date, whatever the order in which the trades were
    closed, and holds exactly the trades that were logged during the run. *)
Theorem trade_log_is_sorted_by_entry_date
  (signals : list SignalData) (historicalData : list Bar) (cfg : Backtester.Config) :
  Sorted Z.le (Backtester.recordEntryTime
                 <$> fst (Backtester.runBacktest signals historicalData cfg))
  /\ fst (Backtester.runBacktest signals historicalData cfg)
     ≡ₚ Backtester.tradeLog
          (Backtester.closeRemaining historicalData
             (Backtester.mainLoop cfg signals historicalData historicalData))
  /\ Backtester.totalTrades (snd (Backtester.runBacktest signals historicalData cfg))
     = length (fst (Backtester.runBacktest signals historicalData cfg))
  /\ (Backtester.winningTrades (snd (Backtester.runBacktest signals historicalData cfg))
      + Backtester.losingTrades (snd (Backtester.runBacktest signals historicalData cfg))
      = Backtester.totalTrades (snd (Backtester.runBacktest signals historicalData cfg)))%nat.
Proof.
  unfold Backtester.runBacktest. cbn [fst snd Backtester.totalTrades
    Backtester.winningTrades Backtester.losingTrades].
  split; [apply sortByKey_sorted|]. split; [apply sortByKey_perm|]. split; [reflexivity|].
  pose proof (length_filter (fun t => Qltb 0 (Backtester.profit t) = true)
                (Backtester.sortByKey Backtester.recordEntryTime
                   (Backtester.tradeLog
                      (Backtester.closeRemaining historicalData
                         (Backtester.mainLoop cfg signals historicalData historicalData))))).
  lia.
Qed.

(** ** Entry before exit *)

Section Chronology.
Import Backtester.
Variable cfg : Config.

Lemma enteredBy_le (d d' : Z) (o : OriginalSignal) :
  (d <= d')%Z -> enteredBy d o -> enteredBy d' o.
Proof. intros Hle (e & He & Hd). exists e. split; [exact He|lia]. Qed.

Lemma realizeExit_chronological bar position r st bound :
  enteredBy (date bar) (originalSignal position) ->
  chronological bound st -> chronological bound (realizeExit cfg bar position r st).
Proof.
  intros Hp [Ho Hl]. unfold realizeExit. destruct (lossStreak _ _ _).
  split; simpl; [exact Ho|]. apply Forall_app. split; [exact Hl|].
  constructor; [exact Hp|constructor].
Qed.

Lemma exitStep_chronological bar origins st position :
  enteredBy (date bar) (originalSignal position) ->
  chronological (date bar) st -> chronological (date bar) (exitStep cfg bar origins st position).
Proof.
  intros Hp H. unfold exitStep. destruct (exitDecision bar origins position).
  - now apply realizeExit_chronological.
  - destruct H as [Ho Hl]. split; simpl; [|exact Hl].
    apply Forall_app. split; [exact Ho|]. now constructor.
Qed.

Lemma processExits_chronological bar st bound :
  (bound <= date bar)%Z ->
  chronological bound st -> chronological (date bar) (processExits cfg bar st).
Proof.
  intros Hle [Ho Hl]. unfold processExits.
  generalize (originsToLiquidate cfg bar st) as origins. intros origins.
  assert (chronological (date bar)
            (mkState (currentCapital st) (consecutiveLosses st) (isObserving st) []
               (tradeLog st))) as Hacc by (split; simpl; [constructor|exact Hl]).
  revert Hacc. generalize (mkState (currentCapital st) (consecutiveLosses st) (isObserving st) []
                             (tradeLog st)) as acc.
  induction Ho as [|position positions Hp Ho IH]; intros acc Hacc; simpl; [exact Hacc|].
  apply IH. apply exitStep_chronological; [|exact Hacc].
  now apply (enteredBy_le bound).
Qed.

Lemma enterPosition_chronological bar t st :
  entryDate (tradeSignal t) = Some (date bar) ->
  chronological (date bar) st -> chronological (date bar) (enterPosition cfg bar t st).
Proof.
  intros Hd H. unfold enterPosition.
  destruct (negb _ || negb _); [exact H|].
  destruct (stopLossOf _ _ _) as [sl|]; [|exact H].
  destruct (projectedExit (tradeSignal t)) as [pe|]; [|exact H].
  assert (enteredBy (date bar) (originalSignal (newPosition cfg st t sl pe))) as Hp.
  { exists (date bar). split; [exact Hd|lia]. }
  destruct (sameDayResult bar (isLong t) sl pe).
  - now apply realizeExit_chronological.
  - destruct H as [Ho Hl]. split; simpl; [|exact Hl].
    apply Forall_app. split; [exact Ho|]. now constructor.
Qed.

Lemma observe_chronological historicalData t st bound :
  chronological bound st -> chronological bound (observe historicalData t st).
Proof. intros H. unfold observe. destruct (getGhostTradeOutcome _ _) as [[]|]; exact H. Qed.

Lemma processEntries_chronological historicalData bar sigs :
  Forall (fun t => entryDate (tradeSignal t) = Some (date bar)) sigs ->
  forall st, chronological (date bar) st ->
    chronological (date bar) (processEntries cfg historicalData bar sigs st).
Proof.
  induction 1 as [|t sigs Ht _ IH]; intros st H; simpl; [exact H|].
  destruct (atCap cfg st); [exact H|].
  destruct (preventOnLosses cfg && isObserving st); apply IH.
  - now apply observe_chronological.
  - now apply enterPosition_chronological.
Qed.

Lemma processBar_chronological signals historicalData bar st bound :
  (bound <= date bar)%Z -> chronological bound st ->
  chronological (date bar)
    (processBar cfg historicalData (groupSignalsByEntryBar signals) st bar).
Proof.
  intros Hle H. unfold processBar. apply processEntries_chronological.
  - apply Forall_forall. intros t Ht. now apply signalsToProcess_entry in Ht as [Ht _].
  - now apply (processExits_chronological bar st bound).
Qed.

Lemma bars_chronological signals historicalData bars :
  forall st bound, chronological bound st -> Sorted Z.le (bound :: (date <$> bars)) ->
    chronological (default bound (last (date <$> bars)))
      (foldl (processBar cfg historicalData (groupSignalsByEntryBar signals)) st bars).
Proof.
  induction bars as [|bar bars IH]; intros st bound H Hs; [exact H|].
  rewrite fmap_cons in Hs. apply Sorted_inv in Hs as [Hs Hd]. apply HdRel_inv in Hd.
  simpl foldl. rewrite fmap_cons, last_cons.
  specialize (IH (processBar cfg historicalData (groupSignalsByEntryBar signals) st bar)
                (date bar) (processBar_chronological _ _ _ _ _ Hd H) Hs).
  destruct (last (date <$> bars)); exact IH.
Qed.

Lemma closeRemaining_chronological historicalData st lastDay :
  last historicalData = Some lastDay ->
  chronological (date lastDay) st ->
  Forall (fun r => enteredBy (exitDate r) (origin r))
    (tradeLog (closeRemaining historicalData st)).
Proof.
  intros Hlast [Ho Hl]. unfold closeRemaining. rewrite Hlast.
  assert (forall positions acc,
             Forall (fun position => enteredBy (date lastDay) (originalSignal position))
               positions ->
             Forall (fun r => enteredBy (exitDate r) (origin r)) (tradeLog acc) ->
             Forall (fun r => enteredBy (exitDate r) (origin r))
               (tradeLog (foldl (closeAtEnd lastDay) acc positions))) as H.
  { induction positions as [|position positions IH]; intros acc Hp Ha; simpl; [exact Ha|].
    apply Forall_cons in Hp as [Hp Hps]. apply IH; [exact Hps|].
    simpl. apply Forall_app. split; [exact Ha|]. now constructor. }
  now apply H.
Qed.

Lemma run_chronological signals historicalData :
  Sorted Z.le (date <$> historicalData) ->
  Forall (fun r => enteredBy (exitDate r) (origin r))
    (fst (runBacktest signals historicalData cfg)).
Proof.
  intros Hs. unfold runBacktest. cbn [fst]. rewrite sortByKey_perm.
  destruct (last historicalData) as [lastDay|] eqn:Hlast.
  - apply (closeRemaining_chronological _ _ lastDay Hlast).
    destruct historicalData as [|first rest]; [discriminate|].
    pose proof (bars_chronological signals (first :: rest) (first :: rest)
                  (initialState cfg) (date first)) as H.
    rewrite fmap_last, Hlast in H. apply H.
    + split; constructor.
    + constructor; [exact Hs|]. rewrite fmap_cons. constructor. lia.
  - apply last_None in Hlast. subst. unfold closeRemaining. simpl. constructor.
Qed.

End Chronology.

(** X13.  On a series whose bars are in chronological order, every trade
    of the returned log has an entry date and exits on that date or later:
    no trade is closed on a bar before the one it was entered on. *)
Theorem trades_exit_no_earlier_than_entry
  (signals : list SignalData) (historicalData : list Bar) (cfg : Backtester.Config)
  (r : Backtester.TradeRecord) :
  Sorted Z.le (date <$> historicalData) ->
  r ∈ fst (Backtester.runBacktest signals historicalData cfg) ->
  exists e, Backtester.origEntryDate (Backtester.origin r) = Some e
            /\ (e <= Backtester.exitDate r)%Z.
Proof.
  intros Hs Hr.
  pose proof (run_chronological cfg signals historicalData Hs) as H.
  rewrite Forall_forall in H. exact (H r Hr).
Qed.

Lemma trades_exit_no_earlier_than_entry_witness :
  Forall (fun r => exists e, Backtester.origEntryDate (Backtester.origin r) = Some e
                             /\ (e <= Backtester.exitDate r)%Z)
    (fst (Backtester.runBacktest [Examples.longAt 9]
            [Examples.quietDay; Examples.dipDay] Examples.tenth)).
Proof.
  assert (Hs : Sorted Z.le (date <$> [Examples.quietDay; Examples.dipDay])).
  { repeat constructor. vm_compute. discriminate. }
  apply Forall_forall. intros r Hr.
  exact (trades_exit_no_earlier_than_entry [Examples.longAt 9]
           [Examples.quietDay; Examples.dipDay] Examples.tenth r Hs Hr).
Defined.

(** ** Exit reasons and exit prices *)

Section Settlement.
Import Backtester.
Variable cfg : Config.
Variable historicalData : list Bar.

Lemma newPosition_tracked st t sl pe :
  stopLossOf (isLong t) (pivotHigh (signalData t)) (pivotLow (signalData t)) = Some sl ->
  tracked (newPosition cfg st t sl pe).
Proof.
  intros H. split; [|reflexivity].
  unfold originStop. simpl. rewrite <- H. now destruct (isLong t).
Qed.

Lemma ownExit_settled bar position r d p pct :
  tracked position -> ownExit bar position = Some r ->
  settled historicalData (mkTradeRecord (originalSignal position) r d p pct).
Proof.
  intros [Hs Ht] H. unfold ownExit in H.
  destruct (posIsLong position), (Qle_bool _ _); try (injection H as <-);
    try (left; split; [set_solver|exact Hs]);
    destruct (Qle_bool _ _); try discriminate; injection H as <-;
    right; left; (split; [set_solver|exact (eq_sym Ht)]).
Qed.

Lemma exitDecision_settled bar origins position r d p pct :
  tracked position -> exitDecision bar origins position = Some r ->
  settled historicalData (mkTradeRecord (originalSignal position) r d p pct).
Proof.
  intros Ht H. unfold exitDecision in H.
  destruct (origins !! posStartPointName position) as [price|];
    [destruct (truthy (Some price))|]; try now apply (ownExit_settled bar).
  injection H as <-. right. right. now left.
Qed.

Lemma sameDayResult_settled bar st t sl pe r d p pct :
  stopLossOf (isLong t) (pivotHigh (signalData t)) (pivotLow (signalData t)) = Some sl ->
  sameDayResult bar (isLong t) sl pe = Some r ->
  settled historicalData
    (mkTradeRecord (originalSignal (newPosition cfg st t sl pe)) r d p pct).
Proof.
  intros Hsl H. destruct (newPosition_tracked st t sl pe Hsl) as [Hs Ht].
  unfold sameDayResult in H.
  destruct (isLong t), (Qle_bool _ _); try (injection H as <-);
    try (left; split; [set_solver|exact Hs]);
    destruct (Qle_bool _ _); try discriminate; injection H as <-;
    right; left; (split; [set_solver|reflexivity]).
Qed.

Lemma exitStep_accounted bar origins st position :
  tracked position -> accounted historicalData st -> accounted historicalData (exitStep cfg bar origins st position).
Proof.
  intros Hp [Ho Hl]. unfold exitStep.
  destruct (exitDecision bar origins position) as [r|] eqn:E.
  - unfold realizeExit. destruct (lossStreak _ _ _). split; simpl; [exact Ho|].
    apply Forall_app. split; [exact Hl|]. constructor; [|constructor].
    now apply (exitDecision_settled bar origins).
  - split; simpl; [|exact Hl]. apply Forall_app. split; [exact Ho|]. now constructor.
Qed.

Lemma processExits_accounted bar st : accounted historicalData st -> accounted historicalData (processExits cfg bar st).
Proof.
  intros [Ho Hl]. unfold processExits.
  generalize (originsToLiquidate cfg bar st) as origins. intros origins.
  assert (accounted historicalData (mkState (currentCapital st) (consecutiveLosses st) (isObserving st) []
                       (tradeLog st))) as Hacc by (split; simpl; [constructor|exact Hl]).
  revert Hacc. generalize (mkState (currentCapital st) (consecutiveLosses st) (isObserving st) []
                             (tradeLog st)) as acc.
  induction Ho as [|position positions Hp Ho IH]; intros acc Hacc; simpl; [exact Hacc|].
  apply IH. now apply exitStep_accounted.
Qed.

Lemma enterPosition_accounted bar t st : accounted historicalData st -> accounted historicalData (enterPosition cfg bar t st).
Proof.
  intros H. unfold enterPosition.
  destruct (negb _ || negb _); [exact H|].
  destruct (stopLossOf _ _ _) as [sl|] eqn:Hsl; [|exact H].
  destruct (projectedExit (tradeSignal t)) as [pe|]; [|exact H].
  destruct H as [Ho Hl].
  destruct (sameDayResult bar (isLong t) sl pe) as [r|] eqn:E.
  - unfold realizeExit. destruct (lossStreak _ _ _). split; simpl; [exact Ho|].
    apply Forall_app. split; [exact Hl|]. constructor; [|constructor].
    now apply (sameDayResult_settled bar st t sl pe).
  - split; simpl; [|exact Hl]. apply Forall_app. split; [exact Ho|].
    constructor; [|constructor]. now apply newPosition_tracked.
Qed.

Lemma processEntries_accounted bar sigs :
  forall st, accounted historicalData st -> accounted historicalData (processEntries cfg historicalData bar sigs st).
Proof.
  induction sigs as [|t sigs IH]; intros st H; simpl; [exact H|].
  destruct (atCap cfg st); [exact H|].
  destruct (preventOnLosses cfg && isObserving st); apply IH.
  - unfold observe. destruct (getGhostTradeOutcome _ _) as [[]|]; exact H.
  - now apply enterPosition_accounted.
Qed.

Lemma mainLoop_accounted signals bars : accounted historicalData (mainLoop cfg signals historicalData bars).
Proof.
  unfold mainLoop. apply foldl_preserves.
  - intros st bar H. unfold processBar.
    now apply processEntries_accounted, processExits_accounted.
  - split; constructor.
Qed.

Lemma closeRemaining_settled st :
  accounted historicalData st -> Forall (settled historicalData) (tradeLog (closeRemaining historicalData st)).
Proof.
  intros [_ Hl]. unfold closeRemaining.
  destruct (last historicalData) as [lastDay|] eqn:Hlast; [|exact Hl].
  assert (forall positions acc,
             Forall (settled historicalData) (tradeLog acc) ->
             Forall (settled historicalData)
               (tradeLog (foldl (closeAtEnd lastDay) acc positions))) as H.
  { induction positions as [|position positions IH]; intros acc Ha; simpl; [exact Ha|].
    apply IH. simpl. apply Forall_app. split; [exact Ha|]. constructor; [|constructor].
    right. right. right. split; [reflexivity|]. exists lastDay. now rewrite Hlast. }
  now apply H.
Qed.

End Settlement.

(** X14.  Every trade of the returned log carries one of the six exit
    reasons, and the reason fixes the exit price: a stop exit (on a later
    bar or on the entry bar) is filled at the price of the trade's entry
    pivot, a target exit at the trade's projected exit, and a forced close
    at the close of the last bar, on the last bar's date.  No fill is made
    at a bar's open, high or low. *)
Theorem exit_reason_fixes_exit_price
  (signals : list SignalData) (historicalData : list Bar) (cfg : Backtester.Config) :
  Forall (fun r => settled historicalData r
                   /\ Backtester.exitReason (Backtester.result r) ∈ exitReasons)
    (fst (Backtester.runBacktest signals historicalData cfg)).
Proof.
  unfold Backtester.runBacktest. cbn [fst]. rewrite sortByKey_perm.
  eapply Forall_impl;
    [apply closeRemaining_settled, mainLoop_accounted|].
  intros r H. split; [exact H|].
  assert (["Stop Loss Hit"; "Stop Loss Hit (Same Day)"] ⊆ exitReasons) as Hstop
    by (apply (bool_decide_unpack _); vm_compute; exact I).
  assert (["Take Profit Hit"; "Take Profit Hit (Same Day)"] ⊆ exitReasons) as Htarget
    by (apply (bool_decide_unpack _); vm_compute; exact I).
  destruct H as [[H _]|[[H _]|[H|[H _]]]];
    [exact (Hstop _ H)|exact (Htarget _ H)|rewrite H..];
    apply (bool_decide_unpack _); vm_compute; exact I.
Qed.

(** ** The exit pass and group liquidation *)

Section ExitPass.
Import Backtester.
Variable cfg : Config.

Lemma markLiquidation_breached bar m position :
  m !! posStartPointName position = None ->
  markLiquidation bar m position
  = if breached bar position
    then <[posStartPointName position := stopLoss position]> m else m.
Proof.
  intros H. unfold markLiquidation, breached. rewrite H.
  destruct (posIsLong position); simpl; now destruct (Qle_bool _ _).
Qed.

Lemma markLiquidation_fold bar g positions :
  forall m,
    foldl (markLiquidation bar) m positions !! g
    = match m !! g with Some v => Some v | None => groupStop bar g positions end.
Proof.
  induction positions as [|p ps IH]; intros m.
  - simpl. now destruct (m !! g).
  - simpl foldl. rewrite IH. unfold groupStop. rewrite filter_cons.
    destruct (m !! posStartPointName p) as [v|] eqn:Em.
    + assert (markLiquidation bar m p = m) as -> by (unfold markLiquidation; now rewrite Em).
      destruct (m !! g) eqn:Eg; [reflexivity|].
      destruct (decide _) as [[Hn _]|_]; [congruence|reflexivity].
    + rewrite (markLiquidation_breached bar m p Em).
      destruct (breached bar p) eqn:Eb.
      * destruct (decide (posStartPointName p = g)) as [Hn|Hn].
        -- subst g. rewrite lookup_insert_eq, Em.
           destruct (decide _) as [_|Hc]; [reflexivity|]. exfalso. apply Hc. now split.
        -- rewrite lookup_insert_ne by exact Hn.
           destruct (decide _) as [[Hc _]|_]; [contradiction|reflexivity].
      * destruct (decide _) as [[_ Hc]|_]; [discriminate|reflexivity].
Qed.

Lemma originsToLiquidate_lookup bar st g :
  originsToLiquidate cfg bar st !! g
  = if liquidateGroupOnLoss cfg then groupStop bar g (openPositions st) else None.
Proof.
  unfold originsToLiquidate. destruct (liquidateGroupOnLoss cfg).
  - now rewrite markLiquidation_fold, lookup_empty.
  - apply lookup_empty.
Qed.

Lemma realizeExit_closedRecord bar position r st :
  realizeExit cfg bar position r st
  = mkState (currentCapital st + profitOf position (exitPrice r))
      (fst (lossStreak cfg (profitOf position (exitPrice r)) st))
      (snd (lossStreak cfg (profitOf position (exitPrice r)) st))
      (openPositions st) (tradeLog st ++ [closedRecord bar position r]).
Proof. unfold realizeExit. now destruct (lossStreak _ _ _). Qed.

Lemma exitLoop_split bar origins positions :
  forall acc,
    openPositions (foldl (exitStep cfg bar origins) acc positions)
    = openPositions acc
      ++ filter (fun q => exitDecision bar origins q = None) positions
    /\ tradeLog (foldl (exitStep cfg bar origins) acc positions)
       = tradeLog acc
         ++ omap (fun q => closedRecord bar q <$> exitDecision bar origins q) positions.
Proof.
  induction positions as [|q qs IH]; intros acc.
  - simpl. now rewrite !app_nil_r.
  - simpl foldl. destruct (IH (exitStep cfg bar origins acc q)) as [-> ->].
    rewrite filter_cons. unfold omap. cbn [list_omap]. unfold exitStep.
    destruct (exitDecision bar origins q) as [r|] eqn:E.
    + rewrite realizeExit_closedRecord. cbn [openPositions tradeLog fmap option_fmap option_map].
      destruct (decide _) as [Hc|_]; [discriminate|]. now rewrite <- app_assoc.
    + cbn [openPositions tradeLog fmap option_fmap option_map].
      destruct (decide _) as [_|Hc]; [|contradiction]. now rewrite <- app_assoc.
Qed.

Lemma closed_or_open {A B C : Type} (f : A -> option B) (g : A -> B -> C) (l : list A) :
  (length (omap (fun q => g q <$> f q) l) + length (filter (fun q => f q = None) l)
   = length l)%nat.
Proof.
  induction l as [|q l IH]; [reflexivity|].
  rewrite filter_cons. unfold omap in *. cbn [list_omap].
  destruct (f q); cbn [fmap option_fmap option_map];
    destruct (decide _); try discriminate; try contradiction;
    rewrite ?length_cons; lia.
Qed.

Lemma processExits_split bar st :
  openPositions (processExits cfg bar st)
  = filter (fun q => exitDecision bar (originsToLiquidate cfg bar st) q = None)
      (openPositions st)
  /\ tradeLog (processExits cfg bar st)
     = tradeLog st
       ++ omap (fun q => closedRecord bar q
                           <$> exitDecision bar (originsToLiquidate cfg bar st) q)
            (openPositions st).
Proof.
  unfold processExits.
  destruct (exitLoop_split bar (originsToLiquidate cfg bar st) (openPositions st)
              (mkState (currentCapital st) (consecutiveLosses st) (isObserving st) []
                 (tradeLog st))) as [Ho Hl].
  now rewrite Ho, Hl.
Qed.

Lemma exitDecision_group bar st q :
  exitDecision bar (originsToLiquidate cfg bar st) q
  = if liquidateGroupOnLoss cfg
         && truthy (groupStop bar (posStartPointName q) (openPositions st))
    then Some (mkTradeResult
                 (number (groupStop bar (posStartPointName q) (openPositions st)))
                 "Group Liquidation")
    else ownExit bar q.
Proof.
  unfold exitDecision. rewrite originsToLiquidate_lookup.
  destruct (liquidateGroupOnLoss cfg); [|reflexivity].
  destruct (groupStop _ _ _) as [price|]; [|reflexivity].
  cbn [andb number default]. now destruct (truthy (Some price)).
Qed.

Lemma survives_bar bar st q :
  q ∈ openPositions (processExits cfg bar st)
  <-> q ∈ openPositions st
      /\ ownExit bar q = None
      /\ (liquidateGroupOnLoss cfg = true ->
          truthy (groupStop bar (posStartPointName q) (openPositions st)) = false).
Proof.
  rewrite (proj1 (processExits_split bar st)), list_elem_of_filter, exitDecision_group.
  destruct (liquidateGroupOnLoss cfg); cbn [andb].
  - destruct (truthy _); split.
    + intros [? _]. discriminate.
    + intros (_ & _ & H). discriminate (H eq_refl).
    + intros [? ?]. auto.
    + intros (? & ? & _). auto.
  - split; [intros [? ?]; repeat split; auto; discriminate|intros (? & ? & _); auto].
Qed.

Lemma liquidated_with_group bar st q price :
  liquidateGroupOnLoss cfg = true ->
  q ∈ openPositions st ->
  groupStop bar (posStartPointName q) (openPositions st) = Some price ->
  ~ price == 0 ->
  closedRecord bar q (mkTradeResult price "Group Liquidation")
    ∈ tradeLog (processExits cfg bar st)
  /\ q ∉ openPositions (processExits cfg bar st).
Proof.
  intros Hl Hq Hg Hp. split.
  - rewrite (proj2 (processExits_split bar st)). apply elem_of_app. right.
    apply list_elem_of_omap. exists q. split; [exact Hq|].
    rewrite exitDecision_group, Hl, Hg, (truthy_nonzero price Hp). reflexivity.
  - intros H. apply survives_bar in H as (_ & _ & H).
    specialize (H Hl). rewrite Hg, (truthy_nonzero price Hp) in H. discriminate.
Qed.

End ExitPass.

(** X15.  What the exit pass of a bar leaves open: a position stays open
    exactly when the bar touches neither its own stop nor its own target
    and, with group liquidation enabled, no position of its start point has
    its stop breached on the bar (the stop of the first breached one being
    non-zero).  The remaining positions keep their order, and the pass logs
    one record per closed position, in the order of the open positions. *)
Theorem position_stays_open_iff_untouched
  (cfg : Backtester.Config) (bar : Bar) (st : Backtester.State) :
  (forall q,
      q ∈ Backtester.openPositions (Backtester.processExits cfg bar st)
      <-> q ∈ Backtester.openPositions st
          /\ Backtester.ownExit bar q = None
          /\ (Backtester.liquidateGroupOnLoss cfg = true ->
              truthy (groupStop bar (Backtester.posStartPointName q)
                        (Backtester.openPositions st)) = false))
  /\ Backtester.openPositions (Backtester.processExits cfg bar st)
     `sublist_of` Backtester.openPositions st
  /\ (length (Backtester.tradeLog (Backtester.processExits cfg bar st))
      + length (Backtester.openPositions (Backtester.processExits cfg bar st))
      = length (Backtester.tradeLog st) + length (Backtester.openPositions st))%nat.
Proof.
  split; [intros q; apply survives_bar|].
  destruct (processExits_split cfg bar st) as [Ho Hl]. rewrite Ho, Hl. split.
  - apply sublist_filter.
  - rewrite length_app.
    pose proof (closed_or_open
                  (Backtester.exitDecision bar (Backtester.originsToLiquidate cfg bar st))
                  (closedRecord bar) (Backtester.openPositions st)).
    lia.
Qed.

(** X16.  Group liquidation: when the option is enabled and the bar
    breaches the (non-zero) stop of some open position of a start point,
    every open position of that start point is closed on this bar, at the
    stop of the first breached position of the start point and with the
    reason Group Liquidation, whether or not its own stop or target was
    touched. *)
Theorem group_liquidation_closes_start_point
  (cfg : Backtester.Config) (bar : Bar) (st : Backtester.State)
  (q : Backtester.Position) (price : Q) :
  Backtester.liquidateGroupOnLoss cfg = true ->
  q ∈ Backtester.openPositions st ->
  groupStop bar (Backtester.posStartPointName q) (Backtester.openPositions st) = Some price ->
  ~ price == 0 ->
  closedRecord bar q (Backtester.mkTradeResult price "Group Liquidation")
    ∈ Backtester.tradeLog (Backtester.processExits cfg bar st)
  /\ q ∉ Backtester.openPositions (Backtester.processExits cfg bar st).
Proof. apply liquidated_with_group. Qed.

Lemma group_liquidation_closes_start_point_witness :
  closedRecord Examples.dipDay
    (Backtester.newPosition Examples.grouped Examples.fresh (Examples.longTrade 5) 5 12)
    (Backtester.mkTradeResult 10 "Group Liquidation")
    ∈ Backtester.tradeLog
        (Backtester.processExits Examples.grouped Examples.dipDay Examples.twoHeld)
  /\ Backtester.newPosition Examples.grouped Examples.fresh (Examples.longTrade 5) 5 12
     ∉ Backtester.openPositions
         (Backtester.processExits Examples.grouped Examples.dipDay Examples.twoHeld).
Proof.
  apply (group_liquidation_closes_start_point Examples.grouped Examples.dipDay
           Examples.twoHeld _ 10).
  - reflexivity.
  - left.
  - vm_compute. reflexivity.
  - intros H. vm_compute in H. discriminate H.
Defined.

(** ** The ghost replay and the simplified simulator *)

Section Replay.
Import Backtester.

Lemma ghostScan_firstOwnExit position tradeWindow :
  ghostScan (posIsLong position) (stopLoss position) (takeProfit position) tradeWindow
  = exitPrice <$> firstOwnExit position tradeWindow.
Proof.
  unfold firstOwnExit, omap.
  induction tradeWindow as [|bar rest IH]; [reflexivity|].
  cbn [ghostScan list_omap]. unfold ownExit at 1.
  destruct (posIsLong position);
    (destruct (Qle_bool _ _); [reflexivity|]); (destruct (Qle_bool _ _); [reflexivity|]);
    exact IH.
Qed.

Lemma Qltb_scale (a s : Q) : 0 < s -> Qltb 0 (a * s) = Qltb 0 a.
Proof.
  intros Hs. destruct (Qltb 0 a) eqn:E.
  - apply Qltb_lt. apply Qltb_lt in E. now apply Qmult_lt_0_compat.
  - apply Qltb_ge. apply Qltb_ge in E.
    apply Qle_trans with (0 * s); [|now rewrite Qmult_0_l].
    apply Qmult_le_compat_r; [exact E|]. now apply Qlt_le_weak.
Qed.

Lemma verdict_profitOf position exit :
  0 < capitalAllocated position / posEntryPrice position ->
  verdict (profitOf position exit)
  = verdict (if posIsLong position then exit - posEntryPrice position
             else posEntryPrice position - exit).
Proof.
  intros Hs. unfold verdict, profitOf. cbv zeta.
  destruct (posIsLong position); now rewrite (Qltb_scale _ _ Hs).
Qed.

Lemma ghost_priced t historicalData sl pe ed startIndex :
  stopLossOf (isLong t) (pivotHigh (signalData t)) (pivotLow (signalData t)) = Some sl ->
  projectedExit (tradeSignal t) = Some pe ->
  ~ sl == 0 -> ~ pe == 0 ->
  entryDate (tradeSignal t) = Some ed ->
  findIndex (fun d => Z.eqb (date d) ed) historicalData = Some startIndex ->
  getGhostTradeOutcome t historicalData
  = (fun exit => verdict (if isLong t then exit - entryPrice (tradeSignal t)
                          else entryPrice (tradeSignal t) - exit))
      <$> ghostScan (isLong t) sl pe (drop startIndex historicalData).
Proof.
  intros Hsl Hpe Hsl0 Hpe0 Hed Hix. unfold getGhostTradeOutcome.
  rewrite Hsl, Hpe, Hed, Hix, (truthy_nonzero sl Hsl0), (truthy_nonzero pe Hpe0).
  cbn [negb orb]. destruct (ghostScan _ _ _ _) as [exit|]; [|reflexivity].
  cbn [fmap option_fmap option_map]. unfold verdict.
  now destruct (Qltb 0 _).
Qed.

Lemma findIndex_ext {A : Type} (p q : A -> bool) (l : list A) :
  (forall x, x ∈ l -> p x = q x) -> findIndex p l = findIndex q l.
Proof.
  intros H. induction l as [|x l IH]; [reflexivity|].
  simpl. rewrite (H x) by left. destruct (q x); [reflexivity|].
  rewrite IH; [reflexivity|]. intros y Hy. apply H. now right.
Qed.

End Replay.

(** X17.  The ghost replay of a priced candidate applies the exit rule of
    real positions: starting on the candidate's entry bar, it stops at the
    first bar on which the position that the entry step would open is
    closed by its own stop or its own target, and reports a win exactly
    when the profit realized at that exit price is positive.  It reports
    nothing when no bar of the window closes the position. *)
Theorem ghost_replay_follows_exit_rule
  (cfg : Backtester.Config) (st : Backtester.State) (t : PotentialTrade)
  (historicalData : list Bar) (sl pe : Q) (ed : Z) (startIndex : nat) :
  Backtester.stopLossOf (isLong t) (pivotHigh (signalData t)) (pivotLow (signalData t))
  = Some sl ->
  projectedExit (tradeSignal t) = Some pe ->
  ~ sl == 0 -> ~ pe == 0 ->
  entryDate (tradeSignal t) = Some ed ->
  findIndex (fun d => Z.eqb (date d) ed) historicalData = Some startIndex ->
  0 < Backtester.currentCapital st * Backtester.positionSize cfg / entryPrice (tradeSignal t) ->
  Backtester.getGhostTradeOutcome t historicalData
  = (fun r => verdict (Backtester.profitOf (Backtester.newPosition cfg st t sl pe)
                         (Backtester.exitPrice r)))
      <$> firstOwnExit (Backtester.newPosition cfg st t sl pe)
            (drop startIndex historicalData).
Proof.
  intros Hsl Hpe Hsl0 Hpe0 Hed Hix Hshares.
  rewrite (ghost_priced t historicalData sl pe ed startIndex Hsl Hpe Hsl0 Hpe0 Hed Hix).
  pose proof (ghostScan_firstOwnExit (Backtester.newPosition cfg st t sl pe)
                (drop startIndex historicalData)) as H.
  cbn [Backtester.newPosition Backtester.posIsLong Backtester.stopLoss
         Backtester.takeProfit] in H.
  rewrite H.
  destruct (firstOwnExit _ _) as [r|]; [|reflexivity].
  cbn [fmap option_fmap option_map]. f_equal.
  symmetry. apply (verdict_profitOf (Backtester.newPosition cfg st t sl pe)). exact Hshares.
Qed.

Lemma ghost_replay_follows_exit_rule_witness :
  Backtester.getGhostTradeOutcome (Examples.longTrade 9) [Examples.quietDay; Examples.dipDay]
  = (fun r => verdict (Backtester.profitOf
                         (Backtester.newPosition Examples.tenth Examples.fresh
                            (Examples.longTrade 9) 9 12)
                         (Backtester.exitPrice r)))
      <$> firstOwnExit (Backtester.newPosition Examples.tenth Examples.fresh
                          (Examples.longTrade 9) 9 12)
            (drop 0 [Examples.quietDay; Examples.dipDay]).
Proof.
  apply (ghost_replay_follows_exit_rule Examples.tenth Examples.fresh (Examples.longTrade 9)
           [Examples.quietDay; Examples.dipDay] 9 12 2%Z 0).
  - reflexivity.
  - reflexivity.
  - intros H. vm_compute in H. discriminate H.
  - intros H. vm_compute in H. discriminate H.
  - reflexivity.
  - reflexivity.
  - vm_compute. reflexivity.
Defined.

(** X18.  On a series in which the candidate's entry timestamp is the only
    one of its UTC day (daily bars), the simplified simulator
    [getTradeOutcome] and the ghost replay agree: a trade is found exactly
    when the replay has an outcome, and the replay reports a win exactly
    when the simulator's profit is positive. *)
Theorem simulator_agrees_with_ghost_replay
  (sd : SignalData) (t : PotentialTrade) (historicalData : list Bar) (ed : Z) :
  Backtester.chooseSignal sd = Some t ->
  entryDate (tradeSignal t) = Some ed ->
  aloneOnItsDay ed historicalData ->
  Backtester.getGhostTradeOutcome t historicalData
  = if TradeSimulator.tradeFound (TradeSimulator.getTradeOutcome sd historicalData)
    then Some (verdict (TradeSimulator.profit
                          (TradeSimulator.getTradeOutcome sd historicalData)))
    else None.
Proof.
  intros Hch Hed Halone.
  assert (signalData t = sd) as Hsd.
  { unfold Backtester.chooseSignal in Hch.
    destruct (longSignal sd); [now injection Hch as <-|].
    destruct (shortSignal sd); [now injection Hch as <-|discriminate]. }
  unfold TradeSimulator.getTradeOutcome, Backtester.getGhostTradeOutcome.
  rewrite Hch, Hed, Hsd.
  destruct (negb _ || negb _); [reflexivity|].
  destruct (Backtester.stopLossOf _ _ _) as [sl|]; [|reflexivity].
  destruct (projectedExit (tradeSignal t)) as [pe|]; [|reflexivity].
  rewrite (findIndex_ext (fun d => Z.eqb (TradeSimulator.utcDay (date d))
                                     (TradeSimulator.utcDay ed))
             (fun d => Z.eqb (date d) ed)).
  - destruct (findIndex _ _) as [startIndex|]; [|reflexivity].
    destruct (Backtester.ghostScan _ _ _ _) as [exit|]; [|reflexivity].
    cbn [TradeSimulator.tradeFound TradeSimulator.profit]. unfold verdict.
    now destruct (Qltb 0 _).
  - intros d Hd. destruct (Z.eqb_spec (date d) ed) as [->|Hne].
    + apply Z.eqb_refl.
    + apply Z.eqb_neq. intros Hday. apply Hne. now apply Halone.
Qed.

Lemma simulator_agrees_with_ghost_replay_witness :
  Backtester.getGhostTradeOutcome Examples.dailyTrade Examples.dailySeries
  = if TradeSimulator.tradeFound
         (TradeSimulator.getTradeOutcome Examples.dailyCandidate Examples.dailySeries)
    then Some (verdict (TradeSimulator.profit
                          (TradeSimulator.getTradeOutcome Examples.dailyCandidate
                             Examples.dailySeries)))
    else None.
Proof.
  apply (simulator_agrees_with_ghost_replay Examples.dailyCandidate Examples.dailyTrade
           Examples.dailySeries 172800000%Z).
  - reflexivity.
  - reflexivity.
  - intros d Hd Hday.
    apply elem_of_cons in Hd as [->|Hd]; [reflexivity|].
    apply elem_of_cons in Hd as [->|Hd]; [vm_compute in Hday; discriminate Hday|].
    inversion Hd.
Defined.

(** ** The records of the route's main loop *)

Section Records.
Import PivotFinders TradeSignalLogic Assembler.
Variable calculateProjectedExit : SignalType -> Q -> Pivot -> Z -> Q -> option Q.
Variable toISOString : Z -> string.

Lemma findFutureSignals_signalAt bars fh fl s :
  fst (findFutureSignals bars fh fl) = Some s \/ snd (findFutureSignals bars fh fl) = Some s ->
  exists k t e, bars !! k = Some t /\ bars !! S k = Some e /\ s = signalAt t e.
Proof.
  unfold findFutureSignals. destruct (length bars <? 2)%nat; [intros [H|H]; discriminate|].
  intros [H|H].
  - destruct fh as [h|].
    + rewrite (proj2 (scan_long bars fl None) h) in H.
      destruct (firstBreakout _ bars) as [[t e]|] eqn:E; [|discriminate].
      apply firstBreakout_Some in E as (k & Ht & He & _).
      injection H as <-. exists k, t, e. auto.
    + rewrite (proj1 (scan_long bars fl None)) in H. discriminate.
  - destruct fl as [l|].
    + rewrite (proj2 (scan_short bars fh None) l) in H.
      destruct (firstBreakout _ bars) as [[t e]|] eqn:E; [|discriminate].
      apply firstBreakout_Some in E as (k & Ht & He & _).
      injection H as <-. exists k, t, e. auto.
    + rewrite (proj1 (scan_short bars fh None)) in H. discriminate.
Qed.

Lemma calculateAndSetExit_keeps processedData signal ty :
  triggerDate (calculateAndSetExit calculateProjectedExit processedData signal ty)
  = triggerDate signal
  /\ entryDate (calculateAndSetExit calculateProjectedExit processedData signal ty)
     = entryDate signal
  /\ entryPrice (calculateAndSetExit calculateProjectedExit processedData signal ty)
     = entryPrice signal.
Proof.
  unfold calculateAndSetExit.
  destruct (indexOfDate processedData (triggerDate signal)) as [[|k]|]; auto.
  destruct (findExitProjectionPivot _ ty); auto.
  destruct (processedData !! S k); auto.
Qed.

Lemma assemble_record processedData i currentBar lookback sd :
  assemble calculateProjectedExit toISOString processedData i currentBar lookback = Some sd ->
  startDateUTC sd = toISOString (date currentBar)
  /\ lookbackPeriod sd = lookback
  /\ (exists lookbackBar,
         processedData !! (i + lookback)%nat = Some lookbackBar
         /\ lookbackEndDate sd = date lookbackBar)
  /\ forall s, longSignal sd = Some s \/ shortSignal sd = Some s ->
       exists j t e,
         (i + lookback < j)%nat
         /\ processedData !! j = Some t /\ processedData !! S j = Some e
         /\ triggerDate s = date t /\ entryDate s = Some (date e) /\ entryPrice s = open e.
Proof.
  unfold assemble.
  destruct (processedData !! (i + lookback)%nat) as [lookbackBar|] eqn:Hy; [|discriminate].
  destruct (findInitialPivots _) as [ph pl].
  destruct (findFutureSignals _ ph pl) as [lg sh] eqn:Hf.
  intros H. injection H as <-.
  cbn [startDateUTC lookbackPeriod lookbackEndDate longSignal shortSignal].
  split; [reflexivity|]. split; [reflexivity|]. split; [eauto|].
  intros s Hs.
  assert (exists s0 ty, (lg = Some s0 \/ sh = Some s0)
                        /\ s = calculateAndSetExit calculateProjectedExit processedData s0 ty)
    as (s0 & ty & Hs0 & ->).
  { destruct Hs as [Hs|Hs].
    - destruct lg as [s0|]; [|discriminate]. injection Hs as <-. exists s0, LONG. auto.
    - destruct sh as [s0|]; [|discriminate]. injection Hs as <-. exists s0, SHORT. auto. }
  destruct (findFutureSignals_signalAt
              (drop (i + lookback + 1) processedData) ph pl s0) as (k & t & e & Ht & He & ->).
  { rewrite Hf. exact Hs0. }
  rewrite lookup_drop in Ht, He.
  destruct (calculateAndSetExit_keeps processedData (signalAt t e) ty) as (-> & -> & ->).
  exists (i + lookback + 1 + k)%nat, t, e.
  split; [lia|]. split; [exact Ht|]. split; [|auto].
  rewrite <- He. f_equal. lia.
Qed.

Lemma generateAllSignals_elem processedData simulationStartIndex lookbackPeriods sd :
  sd ∈ generateAllSignals calculateProjectedExit toISOString processedData
         simulationStartIndex lookbackPeriods ->
  exists i currentBar lookback,
    (simulationStartIndex <= i)%nat
    /\ processedData !! i = Some currentBar
    /\ date currentBar ∈ findSharpPivots processedData PIVOT_LOOKAROUND
    /\ lookback ∈ lookbackPeriods
    /\ assemble calculateProjectedExit toISOString processedData i currentBar lookback
       = Some sd.
Proof.
  unfold generateAllSignals. intros H.
  apply list_elem_of_In, in_flat_map in H as (i & Hi & H).
  apply in_seq in Hi. apply list_elem_of_In in H.
  destruct (processedData !! i) as [currentBar|] eqn:Hcur; [|inversion H].
  destruct (bool_decide _) eqn:Hsharp; [|inversion H].
  apply bool_decide_eq_true in Hsharp.
  apply list_elem_of_omap in H as (lookback & Hlb & H).
  exists i, currentBar, lookback. repeat split; auto. lia.
Qed.

Lemma generated_record processedData simulationStartIndex lookbackPeriods sd s :
  sd ∈ generateAllSignals calculateProjectedExit toISOString processedData
         simulationStartIndex lookbackPeriods ->
  longSignal sd = Some s \/ shortSignal sd = Some s ->
  exists i currentBar lookbackBar j t e,
    (simulationStartIndex <= i)%nat
    /\ processedData !! i = Some currentBar
    /\ date currentBar ∈ findSharpPivots processedData PIVOT_LOOKAROUND
    /\ startDateUTC sd = toISOString (date currentBar)
    /\ lookbackPeriod sd ∈ lookbackPeriods
    /\ processedData !! (i + lookbackPeriod sd)%nat = Some lookbackBar
    /\ lookbackEndDate sd = date lookbackBar
    /\ (i + lookbackPeriod sd < j)%nat
    /\ processedData !! j = Some t /\ processedData !! S j = Some e
    /\ triggerDate s = date t /\ entryDate s = Some (date e) /\ entryPrice s = open e.
Proof.
  intros Hsd Hs.
  apply generateAllSignals_elem in Hsd as (i & currentBar & lb & Hi & Hcur & Hsharp & Hlb & Ha).
  apply assemble_record in Ha as (Hstart & <- & (lookbackBar & Hy & Hend) & Hsig).
  destruct (Hsig s Hs) as (j & t & e & Hj & Ht & He & H1 & H2 & H3).
  exists i, currentBar, lookbackBar, j, t, e. repeat split; auto.
Qed.

End Records.

(** X20.  Every signal of a record that the route's main loop assembles
    comes from a start bar at or after the simulation start whose timestamp
    is a sharp pivot, and from one of the requested lookback periods; the
    record's lookback end date is the date of the bar that closes the
    lookback window, the signal's trigger bar lies strictly after that bar,
    and the signal enters on the bar that follows the trigger, at its open.
    The exit projection changes none of these fields. *)
Theorem generated_signal_triggers_after_lookback
  (calculateProjectedExit : PivotFinders.SignalType -> Q -> Pivot -> Z -> Q -> option Q)
  (toISOString : Z -> string) (processedData : list Bar) (simulationStartIndex : nat)
  (lookbackPeriods : list nat) (sd : SignalData) (s : TradeSignal) :
  sd ∈ Assembler.generateAllSignals calculateProjectedExit toISOString processedData
         simulationStartIndex lookbackPeriods ->
  longSignal sd = Some s \/ shortSignal sd = Some s ->
  exists i currentBar lookbackBar j t e,
    (simulationStartIndex <= i)%nat
    /\ processedData !! i = Some currentBar
    /\ date currentBar ∈ Assembler.findSharpPivots processedData Assembler.PIVOT_LOOKAROUND
    /\ startDateUTC sd = toISOString (date currentBar)
    /\ lookbackPeriod sd ∈ lookbackPeriods
    /\ processedData !! (i + lookbackPeriod sd)%nat = Some lookbackBar
    /\ lookbackEndDate sd = date lookbackBar
    /\ (i + lookbackPeriod sd < j)%nat
    /\ processedData !! j = Some t /\ processedData !! S j = Some e
    /\ triggerDate s = date t /\ entryDate s = Some (date e) /\ entryPrice s = open e.
Proof. apply generated_record. Qed.

Lemma generated_signal_triggers_after_lookback_witness :
  exists i currentBar lookbackBar j t e,
    (180 <= i)%nat
    /\ Examples.flatLows !! i = Some currentBar
    /\ date currentBar ∈ Assembler.findSharpPivots Examples.flatLows Assembler.PIVOT_LOOKAROUND
    /\ startDateUTC (Examples.unpriced Examples.dayName) = Examples.dayName (date currentBar)
    /\ lookbackPeriod (Examples.unpriced Examples.dayName) ∈ [4%nat]
    /\ Examples.flatLows !! (i + lookbackPeriod (Examples.unpriced Examples.dayName))%nat
       = Some lookbackBar
    /\ lookbackEndDate (Examples.unpriced Examples.dayName) = date lookbackBar
    /\ (i + lookbackPeriod (Examples.unpriced Examples.dayName) < j)%nat
    /\ Examples.flatLows !! j = Some t /\ Examples.flatLows !! S j = Some e
    /\ triggerDate (mkTradeSignal 186 (Some 187%Z) 1 None None) = date t
    /\ entryDate (mkTradeSignal 186 (Some 187%Z) 1 None None) = Some (date e)
    /\ entryPrice (mkTradeSignal 186 (Some 187%Z) 1 None None) = open e.
Proof.
  apply (generated_signal_triggers_after_lookback Examples.echoScaling Examples.dayName
           Examples.flatLows 180 [4%nat] (Examples.unpriced Examples.dayName)).
  - apply (head_Some_elem_of _ _). vm_compute. reflexivity.
  - left. reflexivity.
Defined.

(** ** Sharp pivots *)

Section SharpPivots.
Import PivotFinders Assembler.

Lemma Qle_bool_total (a b : Q) : Qle_bool a b = false -> b <= a.
Proof.
  intros H. destruct (Qlt_le_dec a b) as [Hlt|Hle]; [|exact Hle].
  apply Qlt_le_weak, Qle_bool_iff in Hlt. congruence.
Qed.

Lemma Qmax_bounds (a b : Q) : a <= Qmax a b /\ b <= Qmax a b /\ (Qmax a b = a \/ Qmax a b = b).
Proof.
  unfold Qmax. destruct (Qle_bool a b) eqn:E.
  - apply Qle_bool_iff in E. repeat split; auto. apply Qle_refl.
  - apply Qle_bool_total in E. repeat split; auto. apply Qle_refl.
Qed.

Lemma Qmin_bounds (a b : Q) : Qmin a b <= a /\ Qmin a b <= b /\ (Qmin a b = a \/ Qmin a b = b).
Proof.
  unfold Qmin. destruct (Qle_bool a b) eqn:E.
  - apply Qle_bool_iff in E. repeat split; auto. apply Qle_refl.
  - apply Qle_bool_total in E. repeat split; auto. apply Qle_refl.
Qed.

Lemma maxOf_greatest (xs : list Q) (m : Q) :
  maxOf xs = Some m -> m ∈ xs /\ forall x, x ∈ xs -> x <= m.
Proof.
  destruct xs as [|x0 xs]; [discriminate|]. simpl. intros H. injection H as <-.
  revert x0. induction xs as [|y xs IH]; intros x0; simpl.
  - split; [left|]. intros x Hx. apply list_elem_of_singleton in Hx as ->. apply Qle_refl.
  - destruct (IH (Qmax x0 y)) as [Hin Hub].
    destruct (Qmax_bounds x0 y) as (H0 & Hy & Hcase).
    split.
    + apply elem_of_cons in Hin as [Hin|Hin].
      * rewrite Hin. destruct Hcase as [->| ->]; [left|right; left].
      * right. right. exact Hin.
    + intros x Hx.
      assert (Qmax x0 y <= foldl Qmax (Qmax x0 y) xs) as Hm by (apply Hub; left).
      apply elem_of_cons in Hx as [->|Hx]; [now apply Qle_trans with (Qmax x0 y)|].
      apply elem_of_cons in Hx as [->|Hx]; [now apply Qle_trans with (Qmax x0 y)|].
      apply Hub. now right.
Qed.

Lemma minOf_least (xs : list Q) (m : Q) :
  minOf xs = Some m -> m ∈ xs /\ forall x, x ∈ xs -> m <= x.
Proof.
  destruct xs as [|x0 xs]; [discriminate|]. simpl. intros H. injection H as <-.
  revert x0. induction xs as [|y xs IH]; intros x0; simpl.
  - split; [left|]. intros x Hx. apply list_elem_of_singleton in Hx as ->. apply Qle_refl.
  - destruct (IH (Qmin x0 y)) as [Hin Hlb].
    destruct (Qmin_bounds x0 y) as (H0 & Hy & Hcase).
    split.
    + apply elem_of_cons in Hin as [Hin|Hin].
      * rewrite Hin. destruct Hcase as [->| ->]; [left|right; left].
      * right. right. exact Hin.
    + intros x Hx.
      assert (foldl Qmin (Qmin x0 y) xs <= Qmin x0 y) as Hm by (apply Hlb; left).
      apply elem_of_cons in Hx as [->|Hx]; [now apply Qle_trans with (Qmin x0 y)|].
      apply elem_of_cons in Hx as [->|Hx]; [now apply Qle_trans with (Qmin x0 y)|].
      apply Hlb. now right.
Qed.

Lemma lookup_slice {A : Type} (from to k : nat) (l : list A) :
  slice from to l !! k = if (k <? to - from)%nat then l !! (from + k)%nat else None.
Proof.
  unfold slice. destruct (Nat.ltb_spec k (to - from)).
  - rewrite lookup_take_lt by lia. apply lookup_drop.
  - apply lookup_take_ge. lia.
Qed.

Lemma elem_of_slice_fmap (f : Bar -> Q) (from to : nat) (data : list Bar) (x : Q) :
  x ∈ f <$> slice from to data
  <-> exists k b, (from <= k < to)%nat /\ data !! k = Some b /\ x = f b.
Proof.
  rewrite list_elem_of_fmap. split.
  - intros (b & -> & Hb). apply list_elem_of_lookup in Hb as [k Hk].
    rewrite lookup_slice in Hk. destruct (Nat.ltb_spec k (to - from)); [|discriminate].
    exists (from + k)%nat, b. repeat split; auto; lia.
  - intros (k & b & Hk & Hb & ->). exists b. split; [reflexivity|].
    apply list_elem_of_lookup. exists (k - from)%nat. rewrite lookup_slice.
    destruct (Nat.ltb_spec (k - from) (to - from)); [|lia].
    rewrite <- Hb. f_equal. lia.
Qed.

(** The bar at [i] tops, resp. bottoms, the bars within [lookaround] of it. *)
Lemma isSharpPivot_spec data lookaround i currentBar :
  (lookaround <= i)%nat -> data !! i = Some currentBar ->
  isSharpPivot data lookaround i = true
  <-> (forall k b, (i - lookaround <= k <= i + lookaround)%nat -> data !! k = Some b ->
         high b <= high currentBar)
      \/ (forall k b, (i - lookaround <= k <= i + lookaround)%nat -> data !! k = Some b ->
            low currentBar <= low b).
Proof.
  intros Hi Hcur. unfold isSharpPivot. rewrite Hcur.
  assert (forall f : Bar -> Q,
             f currentBar ∈ f <$> slice (i - lookaround) (i + lookaround + 1) data) as Hwin.
  { intros f. apply elem_of_slice_fmap. exists i, currentBar. repeat split; auto; lia. }
  destruct (maxOf _) as [mx|] eqn:Emax.
  2:{ pose proof (Hwin high) as H. unfold maxOf in Emax.
      destruct (high <$> _); [inversion H|discriminate]. }
  destruct (minOf _) as [mn|] eqn:Emin.
  2:{ pose proof (Hwin low) as H. unfold minOf in Emin.
      destruct (low <$> _); [inversion H|discriminate]. }
  apply maxOf_greatest in Emax as [Hmx Hub]. apply minOf_least in Emin as [Hmn Hlb].
  rewrite orb_true_iff, !Qeq_bool_iff. split.
  - intros [H|H]; [left|right]; intros k b Hk Hb.
    + rewrite H. apply Hub, elem_of_slice_fmap. exists k, b. repeat split; auto; lia.
    + rewrite H. apply Hlb, elem_of_slice_fmap. exists k, b. repeat split; auto; lia.
  - intros [H|H]; [left|right].
    + apply Qle_antisym; [apply Hub, Hwin|].
      apply elem_of_slice_fmap in Hmx as (k & b & Hk & Hb & ->). apply (H k b); [lia|exact Hb].
    + apply Qle_antisym; [|apply Hlb, Hwin].
      apply elem_of_slice_fmap in Hmn as (k & b & Hk & Hb & ->). apply (H k b); [lia|exact Hb].
Qed.

Lemma findSharpPivots_spec data lookaround d :
  d ∈ findSharpPivots data lookaround
  <-> exists i currentBar,
        (lookaround <= i)%nat /\ (i + lookaround < length data)%nat
        /\ data !! i = Some currentBar /\ date currentBar = d
        /\ ((forall k b, (i - lookaround <= k <= i + lookaround)%nat -> data !! k = Some b ->
               high b <= high currentBar)
            \/ (forall k b, (i - lookaround <= k <= i + lookaround)%nat -> data !! k = Some b ->
                  low currentBar <= low b)).
Proof.
  unfold findSharpPivots. destruct (Nat.ltb_spec (length data) (lookaround * 2 + 1)).
  - split; [intros H'; now apply elem_of_empty in H'|].
    intros (i & _ & Hi & Hlen & _). lia.
  - rewrite elem_of_list_to_set, list_elem_of_omap. split.
    + intros (i & Hi & Hd). apply list_elem_of_In, in_seq in Hi.
      destruct (isSharpPivot data lookaround i) eqn:Es; [|discriminate].
      destruct (data !! i) as [currentBar|] eqn:Hcur; [|discriminate].
      injection Hd as <-. exists i, currentBar.
      repeat split; auto; try lia.
      apply (isSharpPivot_spec data lookaround i currentBar); auto; lia.
    + intros (i & currentBar & Hi & Hlen & Hcur & <- & Hs).
      exists i. split; [apply list_elem_of_In, in_seq; lia|].
      apply (isSharpPivot_spec data lookaround i currentBar Hi Hcur) in Hs.
      now rewrite Hs, Hcur.
Qed.

End SharpPivots.

(** X21.  The timestamps [findSharpPivots] returns are exactly the dates of
    the bars, at least [lookaround] bars from either end of the data, whose
    high is not exceeded, or whose low is not undercut, by any bar within
    [lookaround] bars of them; on fewer than [2 * lookaround + 1] bars the
    set is empty. *)
Theorem sharp_pivot_tops_or_bottoms_its_window
  (data : list Bar) (lookaround : nat) (d : Z) :
  d ∈ Assembler.findSharpPivots data lookaround
  <-> exists i currentBar,
        (lookaround <= i)%nat /\ (i + lookaround < length data)%nat
        /\ data !! i = Some currentBar /\ date currentBar = d
        /\ ((forall k b, (i - lookaround <= k <= i + lookaround)%nat -> data !! k = Some b ->
               high b <= high currentBar)
            \/ (forall k b, (i - lookaround <= k <= i + lookaround)%nat -> data !! k = Some b ->
                  low currentBar <= low b)).
Proof. apply findSharpPivots_spec. Qed.

(** ** The portfolio loop of the script *)

Section Portfolio.
Import PortfolioBacktest.

(** Block A: what stays is a sublist, entered before; what is logged is
    timed. *)
Lemma manage_fold ts dayPrices positions c0 l0 last :
  (last < ts)%Z ->
  Forall (fun position => (posEntryDate position <= last)%Z) positions ->
  Forall timed l0 ->
  let r := foldr (manageStep ts dayPrices) (c0, [], l0) positions in
  snd (fst r) `sublist_of` positions
  /\ Forall timed (snd r).
Proof.
  intros Hts Hpos Hl0. induction Hpos as [|pos positions Hp Hpos IH]; cbn zeta.
  - simpl. split; [constructor|exact Hl0].
  - cbn [foldr]. cbn zeta in IH.
    destruct (foldr (manageStep ts dayPrices) (c0, [], l0) positions) as [[c k] l].
    cbn [fst snd] in IH. destruct IH as (Hsub & Hl).
    assert (let r := (c, pos :: k, l) in
            snd (fst r) `sublist_of` (pos :: positions)
            /\ Forall timed (snd r)) as Hkeep.
    { cbn [fst snd]. split; [now constructor|exact Hl]. }
    unfold manageStep.
    destruct (dayPrices !! posTicker pos) as [bar|]; [|exact Hkeep].
    destruct (exitCheck bar (posType pos) (posStopLoss pos) (posTakeProfit pos))
      as [[[price|] isStop]|]; try exact Hkeep.
    destruct (truthy (Some price)); [|exact Hkeep].
    cbn [fst snd]. split; [now constructor|].
    apply Forall_app. split; [exact Hl|]. constructor; [|constructor].
    left. cbn [reason tradeEntryDate exitDate]. split; [|lia].
    destruct isStop; [left|right; left].
Qed.

Lemma oneEach_sublist (k positions : list Position) :
  k `sublist_of` positions -> oneEach positions -> oneEach k.
Proof.
  intros Hsub [Hlen Hnd]. split.
  - apply sublist_length in Hsub. lia.
  - apply (sublist_NoDup (posTicker <$> k) (posTicker <$> positions));
      [exact Hnd|now apply fmap_sublist].
Qed.

Lemma managePositions_settled ts dayPrices st last :
  (last < ts)%Z -> settledBy last st -> settledBy ts (managePositions ts dayPrices st)
  /\ pending (managePositions ts dayPrices st) = pending st
  /\ portfolioHistory (managePositions ts dayPrices st) = portfolioHistory st.
Proof.
  intros Hts (Hpos & Hlog & Hhist & Hone). unfold managePositions.
  pose proof (manage_fold ts dayPrices (openPositions st) (cash st) (tradeLog st) last
                Hts Hpos Hlog) as H. cbn zeta in H.
  destruct (foldr _ _ _) as [[c k] l]. cbn [fst snd] in H. destruct H as (Hsub & Hl).
  split; [|split; reflexivity].
  split; [|split; [exact Hl|split; [exact Hhist|]]].
  - cbn [openPositions]. apply Forall_forall. intros p Hp. rewrite Forall_forall in Hpos.
    assert (p ∈ openPositions st) as Hin by (eapply sublist_subseteq; eauto).
    specialize (Hpos p Hin). cbn beta in Hpos. lia.
  - now apply (oneEach_sublist k (openPositions st)).
Qed.

Lemma managePositions_frame ts dayPrices st :
  pending (managePositions ts dayPrices st) = pending st
  /\ portfolioHistory (managePositions ts dayPrices st) = portfolioHistory st.
Proof. unfold managePositions. destruct (foldr _ _ _) as [[c k] l]. split; reflexivity. Qed.

Lemma takeSignal_frame ts dayPrices signal bar st :
  portfolioHistory (takeSignal ts dayPrices signal bar st) = portfolioHistory st.
Proof.
  unfold takeSignal.
  destruct (MAX_POSITIONS <=? _)%nat; [reflexivity|].
  destruct (existsb _ _); [reflexivity|].
  destruct (Qltb _ _); [reflexivity|].
  destruct (exitCheck _ _ _ _) as [[price isStop]|]; reflexivity.
Qed.

Lemma processSignals_frame ts dayPrices signals :
  forall st, portfolioHistory (snd (processSignals ts dayPrices signals st))
             = portfolioHistory st.
Proof.
  induction signals as [|signal rest IH]; intros st; [reflexivity|].
  cbn [processSignals].
  destruct (entryDate signal <? ts)%Z; [apply IH|].
  destruct (ts <? entryDate signal)%Z; [reflexivity|].
  destruct (dayPrices !! ticker signal) as [bar|]; [|apply IH].
  rewrite IH. apply takeSignal_frame.
Qed.

Lemma existsb_ticker (positions : list Position) (name : string) :
  existsb (fun p => String.eqb (posTicker p) name) positions = false ->
  name ∉ posTicker <$> positions.
Proof.
  induction positions as [|p positions IH]; intros H; [intros Hin; inversion Hin|].
  simpl in H. apply orb_false_iff in H as [Hp H].
  rewrite fmap_cons, not_elem_of_cons. split; [|now apply IH].
  intros ->. now rewrite String.eqb_refl in Hp.
Qed.

Lemma takeSignal_settled ts dayPrices signal bar st :
  entryDate signal = ts -> settledBy ts st ->
  settledBy ts (takeSignal ts dayPrices signal bar st).
Proof.
  intros Hts Hst. pose proof Hst as (Hpos & Hlog & Hhist & [Hlen Hnd]).
  unfold takeSignal.
  destruct (Nat.leb_spec MAX_POSITIONS (length (openPositions st))) as [_|Hroom];
    [exact Hst|].
  destruct (existsb _ _) eqn:Efree; [exact Hst|]. apply existsb_ticker in Efree.
  destruct (Qltb _ _); [exact Hst|].
  destruct (exitCheck _ _ _ _) as [[price isStop]|].
  - split; [exact Hpos|]. split; [|split; [exact Hhist|now split]].
    cbn [tradeLog]. apply Forall_app. split; [exact Hlog|]. constructor; [|constructor].
    right. cbn [reason tradeEntryDate exitDate]. split; [|exact Hts].
    destruct isStop; [left|right; left].
  - split; [|split; [exact Hlog|split; [exact Hhist|split]]].
    + cbn [openPositions]. apply Forall_app. split; [exact Hpos|].
      constructor; [|constructor]. cbn [posEntryDate]. lia.
    + cbn [openPositions]. rewrite length_app. simpl. lia.
    + cbn [openPositions]. rewrite fmap_app. apply NoDup_app. split; [exact Hnd|].
      split; [|apply NoDup_singleton].
      intros x Hx Hx'. apply list_elem_of_singleton in Hx'. subst x. now apply Efree.
Qed.

Lemma processSignals_settled ts dayPrices signals :
  forall st, settledBy ts st -> settledBy ts (snd (processSignals ts dayPrices signals st)).
Proof.
  induction signals as [|signal rest IH]; intros st Hst; [exact Hst|].
  cbn [processSignals].
  destruct (Z.ltb_spec (entryDate signal) ts); [now apply IH|].
  destruct (Z.ltb_spec ts (entryDate signal)); [exact Hst|].
  destruct (dayPrices !! ticker signal) as [bar|]; [|now apply IH].
  apply IH, takeSignal_settled; [lia|exact Hst].
Qed.

Lemma settledBy_later (last ts : Z) (st : State) :
  (last <= ts)%Z -> settledBy last st -> settledBy ts st.
Proof.
  intros Hle (Hpos & Hrest). split; [|exact Hrest].
  eapply Forall_impl; [exact Hpos|]. intros p Hp. cbn beta in Hp. lia.
Qed.

Lemma dayStep_settled priceMap st last ts :
  (last < ts)%Z -> settledBy last st -> settledBy ts (dayStep priceMap st ts).
Proof.
  intros Hts Hst. unfold dayStep.
  destruct (priceMap !! ts) as [dayPrices|]; [|apply (settledBy_later last); [lia|exact Hst]].
  destruct (managePositions_settled ts dayPrices st last Hts Hst) as (Hm & _ & _).
  pose proof (processSignals_settled ts dayPrices (pending st) _ Hm) as H.
  pose proof (processSignals_frame ts dayPrices (pending st) (managePositions ts dayPrices st))
    as Hframe.
  rewrite (proj1 (managePositions_frame ts dayPrices st)).
  destruct (processSignals ts dayPrices (pending st) (managePositions ts dayPrices st))
    as [rest st']. cbn [snd] in H, Hframe.
  destruct H as (Hpos & Hlog & Hhist & Hone).
  split; [exact Hpos|]. split; [exact Hlog|]. split; [|exact Hone].
  cbn [portfolioHistory]. apply Forall_app. split; [exact Hhist|].
  constructor; [|constructor]. cbn [openPositionsCount]. apply Hone.
Qed.

Lemma days_settled priceMap days :
  forall st last, settledBy last st -> Sorted Z.lt (last :: days) ->
    exists last', settledBy last' (foldl (dayStep priceMap) st days).
Proof.
  induction days as [|ts days IH]; intros st last Hst Hs; [now exists last|].
  apply Sorted_inv in Hs as [Hs Hd]. apply HdRel_inv in Hd.
  simpl foldl. apply (IH _ ts); [|exact Hs]. now apply (dayStep_settled priceMap st last).
Qed.

Lemma strictly_sorted (l : list Z) : Sorted Z.le l -> NoDup l -> Sorted Z.lt l.
Proof.
  induction 1 as [|x l Hs IH Hd]; intros Hnd; [constructor|].
  apply NoDup_cons in Hnd as [Hx Hnd]. constructor; [now apply IH|].
  destruct Hd as [|y l Hxy]; constructor.
  assert (x <> y) by (intros ->; apply Hx; left). lia.
Qed.

Lemma timeline_sorted marketData : Sorted Z.lt (timeline marketData).
Proof.
  unfold timeline. apply strictly_sorted.
  - pose proof (sortByKey_sorted (fun ts : Z => ts)
                  (remove_dups (flat_map (fun entry => date <$> snd entry) marketData))) as H.
    now rewrite list_fmap_id in H.
  - rewrite sortByKey_perm. apply NoDup_remove_dups.
Qed.

Lemma simulate_settled marketData allSignals :
  exists last, settledBy last (simulate marketData allSignals).
Proof.
  unfold simulate.
  assert (forall last,
             settledBy last
               (mkState INITIAL_CAPITAL [] [] []
                  (Backtester.sortByKey entryDate allSignals))) as Hinit.
  { intros last. split; [constructor|]. split; [constructor|]. split; [constructor|].
    split; [simpl; lia|constructor]. }
  pose proof (timeline_sorted marketData) as Hs.
  destruct (timeline marketData) as [|ts days] eqn:E; [exists 0%Z; apply Hinit|].
  apply (days_settled _ _ _ (ts - 1)%Z); [apply Hinit|].
  constructor; [exact Hs|]. constructor. lia.
Qed.

(** Every timestamp of a bar has its day prices. *)
Lemma setPrice_keeps ticker priceMap bar ts :
  is_Some (priceMap !! ts) -> is_Some (setPrice ticker priceMap bar !! ts).
Proof.
  intros H. unfold setPrice. destruct (decide (date bar = ts)) as [->|Hne].
  - rewrite lookup_insert_eq. eauto.
  - now rewrite lookup_insert_ne.
Qed.

Lemma setPrices_covers ticker bars :
  forall priceMap ts,
    is_Some (priceMap !! ts) \/ ts ∈ date <$> bars ->
    is_Some (foldl (setPrice ticker) priceMap bars !! ts).
Proof.
  induction bars as [|bar bars IH]; intros priceMap ts H; simpl.
  - destruct H as [H|H]; [exact H|inversion H].
  - apply IH. destruct H as [H|H]; [left; now apply setPrice_keeps|].
    rewrite fmap_cons in H. apply elem_of_cons in H as [->|H]; [left|now right].
    unfold setPrice. rewrite lookup_insert_eq. eauto.
Qed.

Lemma priceMapOf_covers marketData ts :
  ts ∈ timeline marketData -> is_Some (priceMapOf marketData !! ts).
Proof.
  unfold timeline, priceMapOf. rewrite sortByKey_perm, elem_of_remove_dups.
  assert (forall priceMap,
             is_Some (priceMap !! ts)
             \/ ts ∈ flat_map (fun entry => date <$> snd entry) marketData ->
             is_Some (foldl (fun priceMap entry =>
                               foldl (setPrice (fst entry)) priceMap (snd entry))
                        priceMap marketData !! ts)) as H.
  { induction marketData as [|entry marketData IH]; intros priceMap H; simpl.
    - destruct H as [H|H]; [exact H|inversion H].
    - apply IH. destruct H as [H|H]; [left; apply setPrices_covers; now left|].
      simpl in H. apply elem_of_app in H as [H|H]; [left|now right].
      apply setPrices_covers. now right. }
  intros Hts. apply H. now right.
Qed.

Lemma days_recorded priceMap days :
  forall st, (forall ts, ts ∈ days -> is_Some (priceMap !! ts)) ->
    pointDate <$> portfolioHistory (foldl (dayStep priceMap) st days)
    = (pointDate <$> portfolioHistory st) ++ days.
Proof.
  induction days as [|ts days IH]; intros st Hcov; [now rewrite app_nil_r|].
  simpl foldl. rewrite IH by (intros ts' Hts'; apply Hcov; now right).
  destruct (Hcov ts) as [dayPrices Hday]; [left|].
  unfold dayStep. rewrite Hday.
  pose proof (processSignals_frame ts dayPrices (pending (managePositions ts dayPrices st))
                (managePositions ts dayPrices st)) as Hframe.
  destruct (processSignals _ _ _ _) as [rest st']. cbn [snd] in Hframe.
  cbn [portfolioHistory]. rewrite Hframe, (proj2 (managePositions_frame ts dayPrices st)).
  rewrite fmap_app, <- app_assoc. reflexivity.
Qed.

End Portfolio.

(** X22.  The portfolio loop of the script never holds more than
    [MAX_POSITIONS] (10) positions nor two positions in one ticker: this
    holds of the positions open at the end, and every point of the equity
    history counts at most 10 open positions. *)
Theorem portfolio_holds_ten_at_most_one_per_ticker
  (marketData : PortfolioBacktest.MarketData) (allSignals : list PortfolioBacktest.Signal) :
  (length (PortfolioBacktest.openPositions (PortfolioBacktest.simulate marketData allSignals))
   <= PortfolioBacktest.MAX_POSITIONS)%nat
  /\ NoDup (PortfolioBacktest.posTicker
              <$> PortfolioBacktest.openPositions
                    (PortfolioBacktest.simulate marketData allSignals))
  /\ Forall (fun point => (PortfolioBacktest.openPositionsCount point
                           <= PortfolioBacktest.MAX_POSITIONS)%nat)
       (PortfolioBacktest.portfolioHistory (PortfolioBacktest.simulate marketData allSignals)).
Proof.
  destruct (simulate_settled marketData allSignals) as (last & _ & _ & Hhist & [Hlen Hnd]).
  auto.
Qed.

(** X24.  In the portfolio loop a trade logged with the reason Stop Loss or
    Take Profit exits on a day strictly after its entry date, and a trade
    logged with a Same Day reason exits on its entry date; there is no
    other reason, and no trade exits before it was entered. *)
Theorem portfolio_trade_reason_tells_exit_day
  (marketData : PortfolioBacktest.MarketData) (allSignals : list PortfolioBacktest.Signal) :
  Forall timed (PortfolioBacktest.tradeLog (PortfolioBacktest.simulate marketData allSignals)).
Proof.
  destruct (simulate_settled marketData allSignals) as (last & _ & Hlog & _).
  exact Hlog.
Qed.

(** X25.  The portfolio loop records exactly one equity point per distinct
    bar timestamp of the market data, in strictly increasing order of date:
    the [if (!dayPrices) continue] of the loop is never taken. *)
Theorem portfolio_records_one_equity_point_per_timestamp
  (marketData : PortfolioBacktest.MarketData) (allSignals : list PortfolioBacktest.Signal) :
  PortfolioBacktest.pointDate
    <$> PortfolioBacktest.portfolioHistory (PortfolioBacktest.simulate marketData allSignals)
  = PortfolioBacktest.timeline marketData
  /\ Sorted Z.lt (PortfolioBacktest.timeline marketData)
  /\ (forall ts, ts ∈ PortfolioBacktest.timeline marketData
                 <-> exists entry bar, entry ∈ marketData /\ bar ∈ snd entry /\ date bar = ts).
Proof.
  split; [|split].
  - unfold PortfolioBacktest.simulate. rewrite days_recorded; [reflexivity|].
    apply priceMapOf_covers.
  - apply timeline_sorted.
  - intros ts. unfold PortfolioBacktest.timeline.
    rewrite sortByKey_perm, elem_of_remove_dups, list_elem_of_In, in_flat_map. split.
    + intros (entry & Hentry & Hts). apply list_elem_of_In in Hentry, Hts.
      apply list_elem_of_fmap in Hts as (bar & -> & Hbar). eauto.
    + intros (entry & bar & Hentry & Hbar & <-). exists entry.
      split; apply list_elem_of_In; [exact Hentry|].
      apply list_elem_of_fmap. eauto.
Qed.

(** ** The signals of the script *)

Section ScriptSignals.
Import PivotFinders TradeSignalLogic Assembler.
Variable calculateProjectedExit : SignalType -> Q -> Pivot -> Z -> Q -> option Q.







End ScriptSignals.


(** ** One trade per bar *)

Section SingleTrade.
Import Backtester.
Variable cfg : Config.
Hypothesis single : allowSingleTradePerBar cfg = true.

Lemma signalsToProcess_single m bar : (length (signalsToProcess cfg m bar) <= 1)%nat.
Proof.
  unfold signalsToProcess. rewrite single. cbn [andb].
  destruct (default [] (m !! date bar)) as [|t rest]; simpl; lia.
Qed.

Lemma bars_single signals historicalData bars :
  forall st,
    (tradesWith (fun _ => true)
       (foldl (processBar cfg historicalData (groupSignalsByEntryBar signals)) st bars)
     <= tradesWith (fun _ => true) st + length bars)%nat.
Proof.
  induction bars as [|bar bars IH]; intros st; simpl; [lia|].
  etransitivity; [apply IH|]. unfold processBar.
  pose proof (processEntries_tradesWith (fun _ => true) cfg historicalData bar
                (signalsToProcess cfg (groupSignalsByEntryBar signals) bar)
                (processExits cfg bar st)) as H.
  rewrite processExits_tradesWith in H.
  pose proof (count_le_length (originMatches (fun _ => true))
                (signalsToProcess cfg (groupSignalsByEntryBar signals) bar)).
  pose proof (signalsToProcess_single (groupSignalsByEntryBar signals) bar).
  lia.
Qed.

Lemma run_single signals historicalData :
  (length (fst (runBacktest signals historicalData cfg)) <= length historicalData)%nat.
Proof.
  unfold runBacktest. cbn [fst]. rewrite sortByKey_perm, <- count_all.
  etransitivity; [apply (closeRemaining_log (fun _ => true))|].
  etransitivity; [apply bars_single|].
  unfold tradesWith, initialState. simpl. lia.
Qed.

End SingleTrade.

(** X27.  With [allowSingleTradePerBar], at most one candidate is taken on
    each bar, so the run logs no more trades than the series has bars. *)
Theorem single_trade_per_bar_bounds_the_log
  (signals : list SignalData) (historicalData : list Bar) (cfg : Backtester.Config) :
  Backtester.allowSingleTradePerBar cfg = true ->
  (length (fst (Backtester.runBacktest signals historicalData cfg))
   <= length historicalData)%nat.
Proof. intros H. now apply run_single. Qed.

Lemma single_trade_per_bar_bounds_the_log_witness :
  (length (fst (Backtester.runBacktest [Examples.longAt 9; Examples.longAt 5]
                  [Examples.quietDay] Examples.single))
   <= length [Examples.quietDay])%nat.
Proof.
  apply (single_trade_per_bar_bounds_the_log [Examples.longAt 9; Examples.longAt 5]
           [Examples.quietDay] Examples.single).
  reflexivity.
Defined.

(** ** One trade per signal in the portfolio loop *)

Section Consumed.
Import PortfolioBacktest.

Lemma manage_count ts dayPrices positions c0 l0 :
  (length (snd (fst (foldr (manageStep ts dayPrices) (c0, [], l0) positions)))
   + length (snd (foldr (manageStep ts dayPrices) (c0, [], l0) positions))
   = length positions + length l0)%nat.
Proof.
  induction positions as [|pos positions IH]; [reflexivity|].
  cbn [foldr]. destruct (foldr (manageStep ts dayPrices) (c0, [], l0) positions) as [[c k] l].
  cbn [fst snd] in IH. unfold manageStep.
  destruct (dayPrices !! posTicker pos) as [bar|]; [|cbn [fst snd length]; lia].
  destruct (exitCheck bar (posType pos) (posStopLoss pos) (posTakeProfit pos))
    as [[[price|] isStop]|]; try (cbn [fst snd length]; lia).
  destruct (truthy (Some price)); cbn [fst snd length]; [|lia].
  rewrite length_app. cbn [length]. lia.
Qed.

Lemma managePositions_count ts dayPrices st :
  (length (openPositions (managePositions ts dayPrices st))
   + length (tradeLog (managePositions ts dayPrices st))
   = length (openPositions st) + length (tradeLog st))%nat.
Proof.
  unfold managePositions.
  pose proof (manage_count ts dayPrices (openPositions st) (cash st) (tradeLog st)) as H.
  destruct (foldr _ _ _) as [[c k] l]. exact H.
Qed.

Lemma takeSignal_count ts dayPrices signal bar st :
  (length (openPositions (takeSignal ts dayPrices signal bar st))
   + length (tradeLog (takeSignal ts dayPrices signal bar st))
   <= length (openPositions st) + length (tradeLog st) + 1)%nat.
Proof.
  unfold takeSignal.
  destruct (MAX_POSITIONS <=? _)%nat; [lia|].
  destruct (existsb _ _); [lia|].
  destruct (Qltb _ _); [lia|].
  destruct (exitCheck _ _ _ _) as [[price isStop]|];
    cbn [openPositions tradeLog]; rewrite length_app; cbn [length]; lia.
Qed.

Lemma processSignals_count ts dayPrices signals :
  forall st,
    (length (openPositions (snd (processSignals ts dayPrices signals st)))
     + length (tradeLog (snd (processSignals ts dayPrices signals st)))
     + length (fst (processSignals ts dayPrices signals st))
     <= length (openPositions st) + length (tradeLog st) + length signals)%nat.
Proof.
  induction signals as [|signal rest IH]; intros st; [simpl; lia|].
  cbn [processSignals].
  destruct (entryDate signal <? ts)%Z; [specialize (IH st); cbn [length]; lia|].
  destruct (ts <? entryDate signal)%Z; [cbn [fst snd]; lia|].
  destruct (dayPrices !! ticker signal) as [bar|]; [|specialize (IH st); cbn [length]; lia].
  specialize (IH (takeSignal ts dayPrices signal bar st)).
  pose proof (takeSignal_count ts dayPrices signal bar st). cbn [length]. lia.
Qed.

Lemma dayStep_count priceMap st ts :
  (length (openPositions (dayStep priceMap st ts))
   + length (tradeLog (dayStep priceMap st ts))
   + length (pending (dayStep priceMap st ts))
   <= length (openPositions st) + length (tradeLog st) + length (pending st))%nat.
Proof.
  unfold dayStep. destruct (priceMap !! ts) as [dayPrices|]; [|lia].
  pose proof (processSignals_count ts dayPrices (pending (managePositions ts dayPrices st))
                (managePositions ts dayPrices st)) as H.
  pose proof (managePositions_count ts dayPrices st) as Hm.
  rewrite (proj1 (managePositions_frame ts dayPrices st)) in *.
  destruct (processSignals _ _ _ _) as [rest st']. cbn [fst snd] in H.
  cbn [openPositions tradeLog pending]. lia.
Qed.

Lemma simulate_count marketData allSignals :
  (length (tradeLog (simulate marketData allSignals))
   + length (openPositions (simulate marketData allSignals))
   <= length allSignals)%nat.
Proof.
  unfold simulate.
  assert (forall days st,
             length (openPositions (foldl (dayStep (priceMapOf marketData)) st days))
             + length (tradeLog (foldl (dayStep (priceMapOf marketData)) st days))
             + length (pending (foldl (dayStep (priceMapOf marketData)) st days))
             <= length (openPositions st) + length (tradeLog st) + length (pending st))%nat
    as H.
  { induction days as [|ts days IH]; intros st; [simpl; lia|].
    simpl foldl. etransitivity; [apply IH|]. apply dayStep_count. }
  specialize (H (timeline marketData)
                (mkState INITIAL_CAPITAL [] [] [] (Backtester.sortByKey entryDate allSignals))).
  cbn [openPositions tradeLog pending length] in H.
  rewrite (Permutation_length (sortByKey_perm entryDate allSignals)) in H. lia.
Qed.

End Consumed.

(** X29.  In the portfolio loop every signal is considered at most once
    and gives at most one trade: the trades logged and the positions still
    open at the end are together no more than the signals. *)
Theorem portfolio_trades_are_no_more_than_signals
  (marketData : PortfolioBacktest.MarketData) (allSignals : list PortfolioBacktest.Signal) :
  (length (PortfolioBacktest.tradeLog (PortfolioBacktest.simulate marketData allSignals))
   + length (PortfolioBacktest.openPositions (PortfolioBacktest.simulate marketData allSignals))
   <= length allSignals)%nat.
Proof. apply simulate_count. Qed.
